(** * The method execution engine of the ACPI interpreter (src/exec.c)

    A shallow embedding of [exec.c]: the operand stack, the execution stack,
    the reducer [acpi_exec_reduce], the dispatcher [acpi_exec_run], the method
    entry [acpi_exec_method] and the call site [acpi_methodinvoke], followed
    by the properties of the specification that concern them.

    Conventions of the embedding.
    - A C integer is a [Z]. The 64-bit [integer] field of an object wraps
      modulo [2^64], written out with [wrap64]. Offsets into the AML stream
      ([size_t i]) are far below [2^64] and are not wrapped.
    - [acpi_panic] does not return: it is the outcome [Panic]. Reading or
      writing outside an array or an allocation and dereferencing a NULL
      string have no defined result in C: they are the outcome [Fault]. A
      shift of a 64-bit integer by 64 or more is stored as the shift
      instruction leaves it, see [shift_count].
    - The dispatcher loop takes fuel; running out of it is [Timeout].
    - A pointer into the AML stream, [method + i], is the pair of the byte
      list [method] and the offset [i].
    - The collaborators of [exec.c] that live in other files (namespace,
      parser, object library, secondary opcode handlers, host) are the
      fields of the record [collaborators]; they act on the interpreter state
      they are handed and on the state of the outside world. *)

From Stdlib Require Import ZArith String List Lia Bool.
From stdpp Require Import base list.
Import ListNotations.
Local Open Scope Z_scope.
Set Warnings "-register-all".

(** ** Outcomes and the host *)

Inductive outcome (A : Type) : Type :=
| Ok (a : A)
| Panic (msg : String.string)
| Fault
| Timeout.
Arguments Ok {A} a.
Arguments Panic {A} msg.
Arguments Fault {A}.
Arguments Timeout {A}.

(** What the host sees of a run: the calls of its logging and sleep hooks. *)
Inductive event : Type :=
| EvWarn (msg : String.string)
| EvDebug (msg : String.string)
| EvSleep (ms : Z).

Record host_t (W : Type) : Type := Build_host {
  external : W;            (* namespace, operation regions, hardware *)
  trace : list event       (* most recent event first *)
}.
Arguments Build_host {W} _ _.
Arguments external {W} _.
Arguments trace {W} _.

(** Computations that may panic and that act on the host. *)
Definition M (W A : Type) : Type := host_t W -> outcome (A * host_t W).

Definition ret {W A} (a : A) : M W A := fun h => Ok (a, h).

Definition bind {W A B} (m : M W A) (k : A -> M W B) : M W B :=
  fun h => match m h with
           | Ok (a, h') => k a h'
           | Panic msg => Panic msg
           | Fault => Fault
           | Timeout => Timeout
           end.

Declare Scope exec_scope.
Delimit Scope exec_scope with exec.
Notation "'do' x <- m ; k" := (bind m (fun x => k))
  (at level 10, x name, m at level 100, k at level 200) : exec_scope.
Notation "'do' ' pat <- m ; k" := (bind m (fun x => match x with pat => k end))
  (at level 10, pat pattern, m at level 100, k at level 200) : exec_scope.
Notation "'do_' m ; k" := (bind m (fun _ => k))
  (at level 10, m at level 100, k at level 200) : exec_scope.
Local Open Scope exec_scope.

Definition acpi_panic {W A} (msg : String.string) : M W A := fun _ => Panic msg.
Definition fault {W A} : M W A := fun _ => Fault.
Definition timeout {W A} : M W A := fun _ => Timeout.

Definition emit {W} (e : event) : M W unit :=
  fun h => Ok (tt, Build_host (external h) (e :: trace h)).
Definition acpi_warn {W} (msg : String.string) : M W unit := emit (EvWarn msg).
Definition acpi_debug {W} (msg : String.string) : M W unit := emit (EvDebug msg).
Definition acpi_sleep {W} (ms : Z) : M W unit := emit (EvSleep ms).

(** ** Values (lai.h: acpi_object_t) *)

(** Modelled from the spec: the declaration of [acpi_object_t] is in lai.h,
    which is not among the sources. A value is tagged as an integer, a
    string, a buffer, a package or a reference; the fields are the ones
    exec.c reads and writes ([type], [integer], [string], [package],
    [package_size]). *)
Inductive acpi_type : Type :=
| ACPI_ZEROED      (* the tag of a zero-filled object *)
| ACPI_INTEGER
| ACPI_STRING
| ACPI_PACKAGE
| ACPI_BUFFER
| ACPI_HANDLE.

Inductive acpi_object_t : Type := Build_object {
  type : acpi_type;
  integer : Z;                          (* uint64_t *)
  string : option String.string;        (* char *, None is NULL *)
  package : list acpi_object_t;
  package_size : Z
}.

(** [acpi_object_t x = {0}], [acpi_memset(object, 0, sizeof ...)]. *)
Definition zero_object : acpi_object_t := Build_object ACPI_ZEROED 0 None [] 0.

Definition set_type (o : acpi_object_t) (t : acpi_type) : acpi_object_t :=
  Build_object t (integer o) (string o) (package o) (package_size o).
Definition set_integer (o : acpi_object_t) (v : Z) : acpi_object_t :=
  Build_object (type o) v (string o) (package o) (package_size o).
Definition set_string (o : acpi_object_t) (s : option String.string) : acpi_object_t :=
  Build_object (type o) (integer o) s (package o) (package_size o).
Definition set_package (o : acpi_object_t) (p : list acpi_object_t) (n : Z) : acpi_object_t :=
  Build_object (type o) (integer o) (string o) p n.

(** An object holds the integer [v]: [type = ACPI_INTEGER], [integer = v]. *)
Definition is_integer (o : acpi_object_t) (v : Z) : Prop :=
  type o = ACPI_INTEGER /\ integer o = v.

(** Modelled from the spec: the object library's copy and move, which are not
    in exec.c. Copy produces an independent deep clone; move transfers the
    contents and resets the source to a zeroed object. In a functional model
    a clone of a value is the value. *)
Definition acpi_copy_object (dest src : acpi_object_t) : acpi_object_t := src.
Definition acpi_move_object (dest src : acpi_object_t) : acpi_object_t * acpi_object_t :=
  (src, zero_object).

Definition wrap64 (z : Z) : Z := z mod 2 ^ 64.

(** ** Opcodes (lai.h) *)

(** Modelled from the spec: the opcode constants of lai.h, which is not among
    the sources. Opcode encoding follows the ACPI specification: single-byte
    opcodes, with the extended-prefix opcode 0x5B introducing two-byte
    forms. *)

Definition ZERO_OP : Z := 0x00.
Definition ONE_OP : Z := 0x01.
Definition NAME_OP : Z := 0x08.
Definition BYTEPREFIX : Z := 0x0A.
Definition WORDPREFIX : Z := 0x0B.
Definition DWORDPREFIX : Z := 0x0C.
Definition QWORDPREFIX : Z := 0x0E.
Definition PACKAGE_OP : Z := 0x12.
Definition SLEEP_OP : Z := 0x22.
Definition EXTOP_PREFIX : Z := 0x5B.
Definition LOCAL0_OP : Z := 0x60.
Definition LOCAL1_OP : Z := 0x61.
Definition LOCAL2_OP : Z := 0x62.
Definition LOCAL3_OP : Z := 0x63.
Definition LOCAL4_OP : Z := 0x64.
Definition LOCAL5_OP : Z := 0x65.
Definition LOCAL6_OP : Z := 0x66.
Definition LOCAL7_OP : Z := 0x67.
Definition ARG0_OP : Z := 0x68.
Definition ARG1_OP : Z := 0x69.
Definition ARG2_OP : Z := 0x6A.
Definition ARG3_OP : Z := 0x6B.
Definition ARG4_OP : Z := 0x6C.
Definition ARG5_OP : Z := 0x6D.
Definition ARG6_OP : Z := 0x6E.
Definition STORE_OP : Z := 0x70.
Definition ADD_OP : Z := 0x72.
Definition SUBTRACT_OP : Z := 0x74.
Definition INCREMENT_OP : Z := 0x75.
Definition DECREMENT_OP : Z := 0x76.
Definition MULTIPLY_OP : Z := 0x77.
Definition DIVIDE_OP : Z := 0x78.
Definition SHL_OP : Z := 0x79.
Definition SHR_OP : Z := 0x7A.
Definition AND_OP : Z := 0x7B.
Definition OR_OP : Z := 0x7D.
Definition XOR_OP : Z := 0x7F.
Definition NOT_OP : Z := 0x80.
Definition DWORDFIELD_OP : Z := 0x8A.
Definition WORDFIELD_OP : Z := 0x8B.
Definition BYTEFIELD_OP : Z := 0x8C.
Definition CONTINUE_OP : Z := 0x9F.
Definition IF_OP : Z := 0xA0.
Definition ELSE_OP : Z := 0xA1.
Definition WHILE_OP : Z := 0xA2.
Definition NOP_OP : Z := 0xA3.
Definition RETURN_OP : Z := 0xA4.
Definition BREAK_OP : Z := 0xA5.
Definition ONES_OP : Z := 0xFF.
Definition METHOD_ARGC_MASK : Z := 0x07.

(** ** Namespace nodes (lai.h: acpi_nsnode_t) *)

(** Modelled from the spec: the declaration of [acpi_nsnode_t] is in lai.h,
    which is not among the sources. A node provides the AML byte range and
    the path of a method; the fields are the ones exec.c reads, and the node
    kinds are the ones it tests. *)
Inductive acpi_namespace_type : Type :=
| ACPI_NAMESPACE_NAME
| ACPI_NAMESPACE_METHOD
| ACPI_NAMESPACE_FIELD
| ACPI_NAMESPACE_INDEXFIELD
| ACPI_NAMESPACE_OTHER.

Record acpi_nsnode_t : Type := Build_nsnode {
  path : String.string;
  node_type : acpi_namespace_type;       (* handle->type *)
  object : acpi_object_t;
  pointer : list Z;                      (* the bytes at handle->pointer *)
  size : Z;
  method_flags : Z
}.

(** ** Execution scopes (lai.h: acpi_stackitem_t) *)

(** Modelled from the spec: the declaration of [acpi_stackitem_t] is in
    lai.h, which is not among the sources. An execution scope is a tagged
    variant: the method context, a pending operator, a loop, a conditional.
    exec.c reads only the fields of the kind it has just tested.
    [LAI_ZEROED_STACKITEM] is a slot of the zero-filled array that was never
    pushed; its kind is none of the four. *)

Inductive acpi_stackitem_t : Type :=
| LAI_ZEROED_STACKITEM
| LAI_METHOD_CONTEXT_STACKITEM
| LAI_OP_STACKITEM (op_opcode op_opstack op_num_operands op_want_result : Z)
| LAI_LOOP_STACKITEM (loop_pred loop_end : Z)
| LAI_COND_STACKITEM (cond_taken cond_end : Z).

(** ** Call state (lai.h: acpi_state_t) *)

(** Modelled from the spec: the declaration of [acpi_state_t] is in lai.h,
    which is not among the sources. The call state has the handle of the
    method, seven argument slots, eight local slots, the return value, the
    operand stack of 16 values with [opstack_ptr], and the execution stack of
    16 scopes with [stack_ptr]. The handle is the node itself. *)

Record acpi_state_t : Type := Build_state {
  handle : acpi_nsnode_t;
  arg : list acpi_object_t;              (* arg[7] *)
  local : list acpi_object_t;            (* local[8] *)
  retvalue : acpi_object_t;
  opstack : list acpi_object_t;          (* opstack[16] *)
  opstack_ptr : Z;
  stack : list acpi_stackitem_t;         (* stack[16] *)
  stack_ptr : Z
}.

Definition set_local (st : acpi_state_t) (l : list acpi_object_t) : acpi_state_t :=
  Build_state (handle st) (arg st) l (retvalue st)
              (opstack st) (opstack_ptr st) (stack st) (stack_ptr st).
Definition set_arg (st : acpi_state_t) (l : list acpi_object_t) : acpi_state_t :=
  Build_state (handle st) l (local st) (retvalue st)
              (opstack st) (opstack_ptr st) (stack st) (stack_ptr st).
Definition set_retvalue (st : acpi_state_t) (o : acpi_object_t) : acpi_state_t :=
  Build_state (handle st) (arg st) (local st) o
              (opstack st) (opstack_ptr st) (stack st) (stack_ptr st).
Definition set_opstack (st : acpi_state_t) (l : list acpi_object_t) : acpi_state_t :=
  Build_state (handle st) (arg st) (local st) (retvalue st)
              l (opstack_ptr st) (stack st) (stack_ptr st).
Definition set_opstack_ptr (st : acpi_state_t) (p : Z) : acpi_state_t :=
  Build_state (handle st) (arg st) (local st) (retvalue st)
              (opstack st) p (stack st) (stack_ptr st).
Definition set_stack (st : acpi_state_t) (l : list acpi_stackitem_t) : acpi_state_t :=
  Build_state (handle st) (arg st) (local st) (retvalue st)
              (opstack st) (opstack_ptr st) l (stack_ptr st).
Definition set_stack_ptr (st : acpi_state_t) (p : Z) : acpi_state_t :=
  Build_state (handle st) (arg st) (local st) (retvalue st)
              (opstack st) (opstack_ptr st) (stack st) p.

(** [acpi_init_call_state]: zero-fill the state, set the handle, empty the
    execution stack. *)
Definition acpi_init_call_state (method : acpi_nsnode_t) : acpi_state_t :=
  Build_state method (replicate 7 zero_object) (replicate 8 zero_object) zero_object
              (replicate 16 zero_object) 0
              (replicate 16 LAI_ZEROED_STACKITEM) (-1).

(** Array access at a C index: outside the array there is nothing to read. *)
Definition at_index {A} (l : list A) (n : Z) : option A :=
  if n <? 0 then None else l !! Z.to_nat n.
(** Array store at a C index: outside the array there is no slot to write. *)
Definition store_index {A} (l : list A) (n : Z) (x : A) : option (list A) :=
  if (n <? 0) || (Z.of_nat (length l) <=? n) then None
  else Some (<[Z.to_nat n := x]> l).

Definition lift {W A} (o : outcome A) : M W A :=
  fun h => match o with
           | Ok a => Ok (a, h)
           | Panic msg => Panic msg
           | Fault => Fault
           | Timeout => Timeout
           end.
Definition defined {W A} (o : option A) : M W A :=
  match o with Some a => ret a | None => fault end.

(** ** The collaborators of exec.c *)

(** Functions that exec.c calls and other files define, taken as parameters.
    Each returns what the C function returns (a byte count first, where it
    returns one) together with what it wrote through its pointer arguments.
    An object that is passed to be filled in is zero-filled at every call
    site, so the filled-in object is a result. *)

Record collaborators (W : Type) : Type := Build_collaborators {
  acpi_is_name : Z -> bool;
  acpi_parse_pkgsize : list Z -> Z -> M W (Z * Z);
  acpi_eval_integer : list Z -> Z -> M W (Z * Z);
  acpi_eval_object : acpi_state_t -> list Z -> Z -> M W (Z * acpi_object_t * acpi_state_t);
  acpi_write_object : list Z -> Z -> acpi_object_t -> acpi_state_t -> M W (Z * acpi_state_t);
  acpins_resolve_path : acpi_nsnode_t -> list Z -> Z -> M W (Z * String.string);
  acpi_exec_resolve : String.string -> M W (option acpi_nsnode_t);
  acpi_read_opregion : acpi_nsnode_t -> M W acpi_object_t;
  acpins_create_package : acpi_nsnode_t -> list Z -> Z -> M W (Z * list acpi_object_t);
  acpi_exec_name : list Z -> Z -> acpi_state_t -> M W (Z * acpi_state_t);
  acpi_exec_bytefield : list Z -> Z -> acpi_state_t -> M W (Z * acpi_state_t);
  acpi_exec_wordfield : list Z -> Z -> acpi_state_t -> M W (Z * acpi_state_t);
  acpi_exec_dwordfield : list Z -> Z -> acpi_state_t -> M W (Z * acpi_state_t);
  acpi_exec_increment : list Z -> Z -> acpi_state_t -> M W (Z * acpi_state_t);
  acpi_exec_decrement : list Z -> Z -> acpi_state_t -> M W (Z * acpi_state_t);
  acpi_exec_divide : list Z -> Z -> acpi_state_t -> M W (Z * acpi_state_t);
  (* what a slot holds after acpi_free_object *)
  acpi_free_object : acpi_object_t -> acpi_object_t
}.
Arguments acpi_is_name {W} _ _.
Arguments acpi_parse_pkgsize {W} _ _ _.
Arguments acpi_eval_integer {W} _ _ _.
Arguments acpi_eval_object {W} _ _ _ _.
Arguments acpi_write_object {W} _ _ _ _ _.
Arguments acpins_resolve_path {W} _ _ _ _.
Arguments acpi_exec_resolve {W} _ _.
Arguments acpi_read_opregion {W} _ _.
Arguments acpins_create_package {W} _ _ _ _.
Arguments acpi_exec_name {W} _ _ _ _.
Arguments acpi_exec_bytefield {W} _ _ _ _.
Arguments acpi_exec_wordfield {W} _ _ _ _.
Arguments acpi_exec_dwordfield {W} _ _ _ _.
Arguments acpi_exec_increment {W} _ _ _ _.
Arguments acpi_exec_decrement {W} _ _ _ _.
Arguments acpi_exec_divide {W} _ _ _ _.
Arguments acpi_free_object {W} _ _.

(** Modelled from the spec: the host's string comparison, which is not in
    exec.c; the supported-OSI match is case-sensitive equality. The result is
    0 exactly when the strings are equal. *)
Definition acpi_strcmp (s1 s2 : String.string) : Z :=
  if String.eqb s1 s2 then 0 else 1.

Definition acpi_emulated_os : String.string := "Microsoft Windows NT".
Definition acpi_implemented_version : Z := 2.

Definition supported_osi_strings : list String.string :=
  [ "Windows 2000"; "Windows 2001"; "Windows 2001 SP1"; "Windows 2001.1";
    "Windows 2006"; "Windows 2006.1"; "Windows 2006 SP1"; "Windows 2006 SP2";
    "Windows 2009"; "Windows 2012"; "Windows 2013"; "Windows 2015" ]%string.

(** Modelled from the spec: the string and allocation helpers of the host
    layer, which are not in exec.c. They are the C functions they are named
    after: [acpi_strlen] counts the characters before the terminating zero
    byte, [acpi_malloc] returns an allocation of the number of bytes it is
    asked for, and [acpi_strcpy] copies the characters of the source and
    then the terminating zero byte, one byte after the other from the start
    of the destination. A byte outside the allocation has no slot. *)
Definition acpi_strlen (s : String.string) : Z := Z.of_nat (String.length s).

Definition acpi_malloc (n : Z) : list Z := replicate (Z.to_nat n) 0.

Fixpoint strcpy_at (dest : list Z) (k : Z) (src : String.string) : option (list Z) :=
  match src with
  | EmptyString => store_index dest k 0
  | String c rest =>
      match store_index dest k (Z.of_nat (Ascii.nat_of_ascii c)) with
      | Some dest' => strcpy_at dest' (k + 1) rest
      | None => None
      end
  end.

Definition acpi_strcpy {W} (dest : list Z) (src : String.string) : M W (list Z) :=
  defined (strcpy_at dest 0 src).

(** The string that a [char *] points to: the bytes before the first zero
    byte. *)
Fixpoint string_at (buffer : list Z) : String.string :=
  match buffer with
  | [] => EmptyString
  | b :: rest =>
      if b =? 0 then EmptyString
      else String (Ascii.ascii_of_nat (Z.to_nat b)) (string_at rest)
  end.

(** ** The reducer *)

Definition operand_integer (operands : list acpi_object_t) (n : nat) : outcome Z :=
  match operands !! n with
  | Some o => Ok (integer o)
  | None => Fault
  end.

(** [result->type = ACPI_INTEGER; result->integer = v]. *)
Definition integer_result (result : acpi_object_t) (v : Z) : acpi_object_t :=
  set_integer (set_type result ACPI_INTEGER) v.

Definition reduce_binary (f : Z -> Z -> outcome Z)
    (operands : list acpi_object_t) (result : acpi_object_t)
    : outcome (list acpi_object_t * acpi_object_t) :=
  match operand_integer operands 0, operand_integer operands 1 with
  | Ok a, Ok b =>
      match f a b with
      | Ok v => Ok (operands, integer_result result v)
      | Panic msg => Panic msg
      | Fault => Fault
      | Timeout => Timeout
      end
  | _, _ => Fault
  end.

(** The count of a shift of a [uint64_t]. exec.c shifts by
    [operands[1].integer] without testing it. Below 64 the count is the
    operand. For 64 or more C gives the shift no meaning, and what is stored
    is what the 64-bit shift instruction yields, which on x86-64 and AArch64
    takes the count from the low six bits of the operand. *)
Definition shift_count (b : Z) : Z := Z.land b 63.

(** [acpi_exec_reduce(opcode, operands, result)]: [operands] is the operand
    stack from the operator's base slot on; the function returns it with the
    result, because [STORE_OP] moves the first operand out of its slot. *)
Definition acpi_exec_reduce (opcode : Z) (operands : list acpi_object_t)
    (result : acpi_object_t) : outcome (list acpi_object_t * acpi_object_t) :=
  if opcode =? STORE_OP then
    match operands with
    | o :: rest => let '(r, o') := acpi_move_object result o in Ok (o' :: rest, r)
    | [] => Fault
    end
  else if opcode =? NOT_OP then
    match operand_integer operands 0 with
    | Ok a => Ok (operands, integer_result result (wrap64 (Z.lnot a)))
    | _ => Fault
    end
  else if opcode =? ADD_OP then
    reduce_binary (fun a b => Ok (wrap64 (a + b))) operands result
  else if opcode =? SUBTRACT_OP then
    reduce_binary (fun a b => Ok (wrap64 (a - b))) operands result
  else if opcode =? MULTIPLY_OP then
    reduce_binary (fun a b => Ok (wrap64 (a * b))) operands result
  else if opcode =? AND_OP then
    reduce_binary (fun a b => Ok (Z.land a b)) operands result
  else if opcode =? OR_OP then
    reduce_binary (fun a b => Ok (Z.lor a b)) operands result
  else if opcode =? XOR_OP then
    reduce_binary (fun a b => Ok (Z.lxor a b)) operands result
  else if opcode =? SHL_OP then
    reduce_binary (fun a b => Ok (wrap64 (Z.shiftl a (shift_count b)))) operands result
  else if opcode =? SHR_OP then
    reduce_binary (fun a b => Ok (Z.shiftr a (shift_count b))) operands result
  else Panic "undefined opcode in acpi_exec_reduce: %02X".

Definition truthy (z : Z) : bool := negb (z =? 0).

(** What the scope-specific part of an iteration decides: [continue] with a
    new instruction pointer and state, or go on to the opcode at [i] with
    [want_exec_result]. *)
Inductive prologue_result : Type :=
| Continue (i : Z) (st : acpi_state_t)
| FallThrough (want_exec_result : Z).

Definition is_method_context (item : acpi_stackitem_t) : bool :=
  match item with LAI_METHOD_CONTEXT_STACKITEM => true | _ => false end.
Definition is_loop (item : acpi_stackitem_t) : bool :=
  match item with LAI_LOOP_STACKITEM _ _ => true | _ => false end.

Section Engine.
Context {W : Type} (env : collaborators W).

(** *** Operand stack *)

(** Returns the new slot (its index) and the state. *)
Definition acpi_exec_push_opstack_or_die (st : acpi_state_t) : M W (Z * acpi_state_t) :=
  if opstack_ptr st =? 16 then acpi_panic "operand stack overflow"
  else
    do l <- defined (store_index (opstack st) (opstack_ptr st) zero_object);
    ret (opstack_ptr st, set_opstack_ptr (set_opstack st l) (opstack_ptr st + 1)).

(** A write through a slot pointer that a push has returned. *)
Definition update_opstack (st : acpi_state_t) (slot : Z)
    (f : acpi_object_t -> acpi_object_t) : acpi_state_t :=
  set_opstack st (alter f (Z.to_nat slot) (opstack st)).

Definition acpi_exec_get_opstack (st : acpi_state_t) (n : Z) : M W Z :=
  if n >=? opstack_ptr st then acpi_panic "opstack access out of bounds"
  else ret n.

Fixpoint free_opstack_slots (count : nat) (k : Z) (ptr : Z)
    (l : list acpi_object_t) : option (list acpi_object_t) :=
  match count with
  | O => Some l
  | S count' =>
      match at_index l (ptr - k - 1) with
      | None => None
      | Some o =>
          match store_index l (ptr - k - 1) (acpi_free_object env o) with
          | None => None
          | Some l' => free_opstack_slots count' (k + 1) ptr l'
          end
      end
  end.

Definition acpi_exec_pop_opstack (st : acpi_state_t) (n : Z) : M W acpi_state_t :=
  do l <- defined (free_opstack_slots (Z.to_nat n) 0 (opstack_ptr st) (opstack st));
  ret (set_opstack_ptr (set_opstack st l) (opstack_ptr st - n)).

(** *** Execution stack *)

(** Returns the new slot (its index) and the state; the caller fills the
    slot with [fill_stackitem]. *)
Definition acpi_exec_push_stack_or_die (st : acpi_state_t) : M W (Z * acpi_state_t) :=
  let st' := set_stack_ptr st (stack_ptr st + 1) in
  if stack_ptr st' =? 16 then acpi_panic "execution engine stack overflow"
  else ret (stack_ptr st', st').

Definition fill_stackitem (st : acpi_state_t) (slot : Z) (item : acpi_stackitem_t)
    : M W acpi_state_t :=
  do l <- defined (store_index (stack st) slot item);
  ret (set_stack st l).

(** [None] is the NULL of the C function. *)
Definition acpi_exec_peek_stack (st : acpi_state_t) (n : Z) : M W (option acpi_stackitem_t) :=
  if stack_ptr st - n <? 0 then ret None
  else
    do item <- defined (at_index (stack st) (stack_ptr st - n));
    ret (Some item).

Definition acpi_exec_peek_stack_back (st : acpi_state_t) : M W (option acpi_stackitem_t) :=
  acpi_exec_peek_stack st 0.

Definition acpi_exec_pop_stack (st : acpi_state_t) (n : Z) : acpi_state_t :=
  set_stack_ptr st (stack_ptr st - n).

Definition acpi_exec_pop_stack_back (st : acpi_state_t) : acpi_state_t :=
  acpi_exec_pop_stack st 1.

(** The search loops of [RETURN_OP], [CONTINUE_OP] and [BREAK_OP]: the
    least [j], from [j] on, whose scope is of the wanted kind; panics with
    [msg] when the stack is exhausted. [fuel] bounds the iterations; with
    [stack_ptr + 1] of it the loop never runs out (see
    [find_stackitem_fuel]). *)
Fixpoint find_stackitem (wanted : acpi_stackitem_t -> bool) (msg : String.string)
    (fuel : nat) (st : acpi_state_t) (j : Z) : M W (Z * acpi_stackitem_t) :=
  do found <- acpi_exec_peek_stack st j;
  match found with
  | None => acpi_panic msg
  | Some item =>
      if wanted item then ret (j, item)
      else match fuel with
           | O => timeout
           | S fuel' => find_stackitem wanted msg fuel' st (j + 1)
           end
  end.

(** [if(want_exec_result) { result = push; result->type = ACPI_INTEGER;
    result->integer = v; }] *)
Definition push_integer_if_wanted (want_exec_result : Z) (st : acpi_state_t) (v : Z)
    : M W acpi_state_t :=
  if truthy want_exec_result then
    do '(result, st1) <- acpi_exec_push_opstack_or_die st;
    ret (update_opstack st1 result (fun o => integer_result o v))
  else ret st.

(** [acpi_exec_sleep] *)
Definition acpi_exec_sleep (data : list Z) (i : Z) (st : acpi_state_t)
    : M W (Z * acpi_state_t) :=
  let return_size := 2 in
  do '(n, time, st1) <- acpi_eval_object env st data (i + 2);
  let return_size := return_size + n in
  let time := if integer time =? 0 then set_integer time 1 else time in
  do_ acpi_sleep (integer time);
  ret (return_size, st1).

(** *** The scope-specific part of an iteration *)

Definition scope_prologue (method : list Z) (size i : Z) (st : acpi_state_t)
    (item : acpi_stackitem_t) : M W prologue_result :=
  match item with
  | LAI_METHOD_CONTEXT_STACKITEM =>
      if i =? size then
        if truthy (opstack_ptr st) then acpi_panic "opstack is not empty before return"
        else
          do '(result, st1) <- acpi_exec_push_opstack_or_die st;
          let st2 := update_opstack st1 result (fun o => integer_result o 0) in
          ret (Continue i (acpi_exec_pop_stack_back st2))
      else ret (FallThrough 0)
  | LAI_OP_STACKITEM op_opcode op_opstack op_num_operands op_want_result =>
      if opstack_ptr st =? op_opstack + op_num_operands then
        let result := zero_object in
        do operands <- acpi_exec_get_opstack st op_opstack;
        (* &state->opstack[n] with a negative n points before the array *)
        if operands <? 0 then fault
        else
          let base := Z.to_nat operands in
          do '(operands', result) <-
            lift (acpi_exec_reduce op_opcode (drop base (opstack st)) result);
          let st1 := set_opstack st (take base (opstack st) ++ operands') in
          do st2 <- acpi_exec_pop_opstack st1 op_num_operands;
          do st3 <-
            (if truthy op_want_result then
               do '(opstack_res, s) <- acpi_exec_push_opstack_or_die st2;
               ret (update_opstack s opstack_res (fun o => acpi_copy_object o result))
             else ret st2);
          do '(n, st4) <- acpi_write_object env method i result st3;
          ret (Continue (i + n) (acpi_exec_pop_stack_back st4))
      else ret (FallThrough 1)
  | LAI_LOOP_STACKITEM loop_pred loop_end =>
      if i =? loop_pred then
        do '(n, predicate, st1) <- acpi_eval_object env st method i;
        let i1 := i + n in
        if negb (truthy (integer predicate)) then
          ret (Continue loop_end (acpi_exec_pop_stack_back st1))
        else ret (Continue i1 st1)
      else if i =? loop_end then ret (Continue loop_pred st)
      else if i >? loop_end then acpi_panic "execution escaped out of While() body"
      else ret (FallThrough 0)
  | LAI_COND_STACKITEM cond_taken cond_end =>
      if negb (truthy cond_taken) then
        do b <- defined (at_index method i);
        do i1 <-
          (if b =? ELSE_OP then
             let i1 := i + 1 in
             do '(n, else_size) <- acpi_parse_pkgsize env method i1;
             ret (i1 + n)
           else ret i);
        ret (Continue i1 (acpi_exec_pop_stack_back st))
      else if i =? cond_end then
        do is_else <-
          (if i <? size then
             do b <- defined (at_index method i);
             ret (b =? ELSE_OP)
           else ret false);
        do i1 <-
          (if is_else : bool then
             let i1 := i + 1 in
             let j := i1 in
             do '(n, else_size) <- acpi_parse_pkgsize env method i1;
             ret (j + else_size)
           else ret i);
        ret (Continue i1 (acpi_exec_pop_stack_back st))
      else ret (FallThrough 0)
  | LAI_ZEROED_STACKITEM => acpi_panic "unexpected acpi_stackitem_t"
  end.

(** *** The call site, [acpi_methodinvoke]

    [exec_method] is [acpi_exec_method], which the dispatcher below reaches
    again through this function. *)

(** [acpi_finalize_state]: every object of the state is freed. *)
Definition acpi_finalize_state (st : acpi_state_t) : acpi_state_t :=
  let st1 := set_retvalue st (acpi_free_object env (retvalue st)) in
  let st2 := set_arg st1 (map (acpi_free_object env) (arg st1)) in
  set_local st2 (map (acpi_free_object env) (local st2)).

(** [while(current_argc < argc)], with [count = argc - current_argc]. *)
Fixpoint eval_arguments (count : nat) (current_argc : Z) (methodinvokation : list Z)
    (p return_size : Z) (state old_state : acpi_state_t)
    : M W (Z * acpi_state_t * acpi_state_t) :=
  match count with
  | O => ret (return_size, state, old_state)
  | S count' =>
      do '(arg_size, o, old_state') <- acpi_eval_object env old_state methodinvokation p;
      do args <- defined (store_index (arg state) current_argc o);
      eval_arguments count' (current_argc + 1) methodinvokation
                     (p + arg_size) (return_size + arg_size)
                     (set_arg state args) old_state'
  end.

Definition acpi_methodinvoke
    (exec_method : acpi_state_t -> M W (Z * acpi_state_t))
    (data : list Z) (i : Z) (old_state : acpi_state_t) (method_return : acpi_object_t)
    : M W (Z * acpi_state_t * acpi_object_t) :=
  let return_size := 0 in
  do '(name_size, path) <- acpins_resolve_path env (handle old_state) data i;
  let return_size := return_size + name_size in
  let p := i + name_size in
  do found <- acpi_exec_resolve env path;
  match found with
  | None => acpi_panic "undefined MethodInvokation %s"
  | Some method =>
      let state := acpi_init_call_state method in
      let argc := Z.land (method_flags method) METHOD_ARGC_MASK in
      do '(return_size, state, old_state') <-
        eval_arguments (Z.to_nat argc) 0 data p return_size state old_state;
      do '(_, state) <- exec_method state;
      let '(method_return, rv) := acpi_move_object method_return (retvalue state) in
      let _ := acpi_finalize_state (set_retvalue state rv) in
      ret (return_size, old_state', method_return)
  end.

Section Dispatch.
(** [acpi_methodinvoke], as the dispatcher calls it. *)
Variable invoke : list Z -> Z -> acpi_state_t -> acpi_object_t ->
                  M W (Z * acpi_state_t * acpi_object_t).

(** *** Names *)

Definition dispatch_name (method : list Z) (i : Z) (st : acpi_state_t)
    (want_exec_result : Z) : M W (Z * acpi_state_t) :=
  do '(name_size, name) <- acpins_resolve_path env (handle st) method i;
  do found <- acpi_exec_resolve env name;
  match found with
  | None => acpi_panic "undefined reference %s"
  | Some node =>
      let result := zero_object in
      do '(i1, result, st1) <-
        match node_type node with
        | ACPI_NAMESPACE_NAME =>
            ret (i + name_size, acpi_copy_object result (object node), st)
        | ACPI_NAMESPACE_METHOD =>
            do '(n, st', r) <- invoke method i st result;
            ret (i + n, r, st')
        | ACPI_NAMESPACE_FIELD | ACPI_NAMESPACE_INDEXFIELD =>
            do r <- acpi_read_opregion env node;
            ret (i + name_size, r, st)
        | ACPI_NAMESPACE_OTHER => acpi_panic "unexpected type of named object"
        end;
      do st2 <-
        (if truthy want_exec_result then
           do '(opstack_res, s) <- acpi_exec_push_opstack_or_die st1;
           ret (update_opstack s opstack_res (fun o => fst (acpi_move_object o result)))
         else ret st1);
      ret (i1, st2)
  end.

(** *** Opcodes: the [switch(opcode)]

    [b] is [method[i]], which the operator cases store as [op_opcode]. *)

Definition push_op (st : acpi_state_t) (b num_operands want_exec_result : Z)
    : M W acpi_state_t :=
  do '(op_item, st1) <- acpi_exec_push_stack_or_die st;
  fill_stackitem st1 op_item
    (LAI_OP_STACKITEM b (opstack_ptr st1) num_operands want_exec_result).

Definition push_copy_if_wanted (want_exec_result : Z) (st : acpi_state_t)
    (slots : list acpi_object_t) (n : Z) : M W acpi_state_t :=
  if truthy want_exec_result then
    do '(result, st1) <- acpi_exec_push_opstack_or_die st;
    do src <- defined (at_index slots n);
    ret (update_opstack st1 result (fun o => acpi_copy_object o src))
  else ret st.

Definition dispatch_opcode (method : list Z) (i : Z) (st : acpi_state_t)
    (want_exec_result b opcode : Z) : M W (Z * acpi_state_t) :=
  if opcode =? NOP_OP then
    (* i++, and no break: control falls into the ZERO_OP case *)
    let i := i + 1 in
    do st1 <- push_integer_if_wanted want_exec_result st 0;
    ret (i + 1, st1)
  else if opcode =? ZERO_OP then
    do st1 <- push_integer_if_wanted want_exec_result st 0;
    ret (i + 1, st1)
  else if opcode =? ONE_OP then
    do st1 <- push_integer_if_wanted want_exec_result st 1;
    ret (i + 1, st1)
  else if opcode =? ONES_OP then
    do st1 <- push_integer_if_wanted want_exec_result st (wrap64 (Z.lnot 0));
    ret (i + 1, st1)
  else if (opcode =? BYTEPREFIX) || (opcode =? WORDPREFIX)
          || (opcode =? DWORDPREFIX) || (opcode =? QWORDPREFIX) then
    do '(integer_size, v) <- acpi_eval_integer env method i;
    if negb (truthy integer_size) then acpi_panic "failed to parse integer opcode"
    else
      do st1 <- push_integer_if_wanted want_exec_result st v;
      ret (i + integer_size, st1)
  else if opcode =? PACKAGE_OP then
    do '(_, encoded_size) <- acpi_parse_pkgsize env method (i + 1);
    do st1 <-
      (if truthy want_exec_result then
         do '(result, s) <- acpi_exec_push_opstack_or_die st;
         do '(n, entries) <- acpins_create_package env (handle s) method i;
         ret (update_opstack s result
                (fun o => set_package (set_type o ACPI_PACKAGE) entries n))
       else ret st);
    ret (i + (encoded_size + 1), st1)
  else if opcode =? Z.lor (Z.shiftl EXTOP_PREFIX 8) SLEEP_OP then
    do '(n, st1) <- acpi_exec_sleep method i st;
    ret (i + n, st1)
  else if opcode =? RETURN_OP then
    let i := i + 1 in
    do '(n, result, st1) <- acpi_eval_object env st method i;
    let i := i + n in
    do '(j, _) <- find_stackitem is_method_context "Return() outside of control method()"
                    (Z.to_nat (stack_ptr st1 + 1)) st1 0;
    if truthy (opstack_ptr st1) then acpi_panic "opstack is not empty before return"
    else
      do '(opstack_res, st2) <- acpi_exec_push_opstack_or_die st1;
      let st3 := update_opstack st2 opstack_res
                   (fun o => fst (acpi_move_object o result)) in
      ret (i, acpi_exec_pop_stack st3 (j + 1))
  else if opcode =? WHILE_OP then
    let i := i + 1 in
    let j := i in
    do '(n, loop_size) <- acpi_parse_pkgsize env method i;
    let i := i + n in
    do '(loop_item, st1) <- acpi_exec_push_stack_or_die st;
    do st2 <- fill_stackitem st1 loop_item (LAI_LOOP_STACKITEM i (j + loop_size));
    ret (i, st2)
  else if opcode =? CONTINUE_OP then
    do '(j, loop_item) <- find_stackitem is_loop "Continue() outside of While()"
                            (Z.to_nat (stack_ptr st + 1)) st 0;
    match loop_item with
    | LAI_LOOP_STACKITEM loop_pred _ => ret (loop_pred, acpi_exec_pop_stack st j)
    | _ => fault
    end
  else if opcode =? BREAK_OP then
    do '(j, loop_item) <- find_stackitem is_loop "Break() outside of While()"
                            (Z.to_nat (stack_ptr st + 1)) st 0;
    match loop_item with
    | LAI_LOOP_STACKITEM _ loop_end => ret (loop_end, acpi_exec_pop_stack st (j + 1))
    | _ => fault
    end
  else if opcode =? IF_OP then
    let i := i + 1 in
    let j := i in
    do '(n, if_size) <- acpi_parse_pkgsize env method i;
    let i := i + n in
    do '(m, predicate, st1) <- acpi_eval_object env st method i;
    let i := i + m in
    do '(cond_item, st2) <- acpi_exec_push_stack_or_die st1;
    let cond_taken := integer predicate in
    let cond_end := j + if_size in
    do st3 <- fill_stackitem st2 cond_item (LAI_COND_STACKITEM cond_taken cond_end);
    ret (if negb (truthy cond_taken) then cond_end else i, st3)
  else if opcode =? ELSE_OP then acpi_panic "Else() outside of If()"
  else if opcode =? NAME_OP then
    do '(n, st1) <- acpi_exec_name env method i st; ret (i + n, st1)
  else if opcode =? BYTEFIELD_OP then
    do '(n, st1) <- acpi_exec_bytefield env method i st; ret (i + n, st1)
  else if opcode =? WORDFIELD_OP then
    do '(n, st1) <- acpi_exec_wordfield env method i st; ret (i + n, st1)
  else if opcode =? DWORDFIELD_OP then
    do '(n, st1) <- acpi_exec_dwordfield env method i st; ret (i + n, st1)
  else if (opcode =? ARG0_OP) || (opcode =? ARG1_OP) || (opcode =? ARG2_OP)
          || (opcode =? ARG3_OP) || (opcode =? ARG4_OP) || (opcode =? ARG5_OP)
          || (opcode =? ARG6_OP) then
    do st1 <- push_copy_if_wanted want_exec_result st (arg st) (opcode - ARG0_OP);
    ret (i + 1, st1)
  else if (opcode =? LOCAL0_OP) || (opcode =? LOCAL1_OP) || (opcode =? LOCAL2_OP)
          || (opcode =? LOCAL3_OP) || (opcode =? LOCAL4_OP) || (opcode =? LOCAL5_OP)
          || (opcode =? LOCAL6_OP) || (opcode =? LOCAL7_OP) then
    do st1 <- push_copy_if_wanted want_exec_result st (local st) (opcode - LOCAL0_OP);
    ret (i + 1, st1)
  else if (opcode =? STORE_OP) || (opcode =? NOT_OP) then
    do st1 <- push_op st b 1 want_exec_result;
    ret (i + 1, st1)
  else if (opcode =? ADD_OP) || (opcode =? SUBTRACT_OP) || (opcode =? MULTIPLY_OP)
          || (opcode =? AND_OP) || (opcode =? OR_OP) || (opcode =? XOR_OP)
          || (opcode =? SHR_OP) || (opcode =? SHL_OP) then
    do st1 <- push_op st b 2 want_exec_result;
    ret (i + 1, st1)
  else if opcode =? INCREMENT_OP then
    do '(n, st1) <- acpi_exec_increment env method i st; ret (i + n, st1)
  else if opcode =? DECREMENT_OP then
    do '(n, st1) <- acpi_exec_decrement env method i st; ret (i + n, st1)
  else if opcode =? DIVIDE_OP then
    do '(n, st1) <- acpi_exec_divide env method i st; ret (i + n, st1)
  else
    do_ acpi_debug "opcode 0x%02X is handled by acpi_eval_object()";
    if truthy want_exec_result then
      do '(operand, st1) <- acpi_exec_push_opstack_or_die st;
      do '(n, o, st2) <- acpi_eval_object env st1 method i;
      ret (i + n, update_opstack st2 operand (fun _ => o))
    else
      do '(n, discarded, st1) <- acpi_eval_object env st method i;
      ret (i + n, st1).

(** *** One iteration of the [while] of [acpi_exec_run]

    [None] when the execution stack is empty and the loop ends. *)

Definition fetch_opcode (method : list Z) (size i b : Z) : M W Z :=
  if b =? EXTOP_PREFIX then
    if i + 1 =? size then acpi_panic "two-byte opcode on method boundary"
    else
      do b2 <- defined (at_index method (i + 1));
      ret (Z.lor (Z.shiftl EXTOP_PREFIX 8) b2)
  else ret b.

Definition dispatch (method : list Z) (size i : Z) (st : acpi_state_t)
    (want_exec_result : Z) : M W (Z * acpi_state_t) :=
  if i >? size then acpi_panic "execution escaped out of code range"
  else
    do b <- defined (at_index method i);
    if acpi_is_name env b then dispatch_name method i st want_exec_result
    else
      do opcode <- fetch_opcode method size i b;
      dispatch_opcode method i st want_exec_result b opcode.

Definition acpi_exec_run_iter (method : list Z) (size i : Z) (st : acpi_state_t)
    : M W (option (Z * acpi_state_t)) :=
  do top <- acpi_exec_peek_stack_back st;
  match top with
  | None => ret None
  | Some item =>
      do p <- scope_prologue method size i st item;
      match p with
      | Continue i' st' => ret (Some (i', st'))
      | FallThrough want_exec_result =>
          do r <- dispatch method size i st want_exec_result;
          ret (Some r)
      end
  end.
End Dispatch.

(** *** Method entry, [acpi_exec_method]

    [run] is [acpi_exec_run]. The function returns its status and the
    state. *)

(** The loop over [supported_osi_strings], with its [break]. *)
Fixpoint osi_lookup (s : String.string) (table : list String.string) : Z :=
  match table with
  | [] => 0
  | t :: rest => if acpi_strcmp s t =? 0 then 0xFFFFFFFF else osi_lookup s rest
  end.

Definition acpi_exec_method_with
    (run : list Z -> Z -> acpi_state_t -> M W (Z * acpi_state_t))
    (st : acpi_state_t) : M W (Z * acpi_state_t) :=
  let st := set_local st (replicate 8 zero_object) in
  if acpi_strcmp (path (handle st)) "\._OSI" =? 0 then
    do arg0 <- defined (at_index (arg st) 0);
    do s <- defined (string arg0);
    let osi_return := osi_lookup s supported_osi_strings in
    do_ (if negb (truthy osi_return) && negb (truthy (acpi_strcmp s "Linux"))
         then acpi_warn "buggy BIOS requested _OSI('Linux'), ignoring..."
         else ret tt);
    let st1 := set_retvalue st (integer_result (retvalue st) osi_return) in
    do_ acpi_debug "_OSI('%s') returned 0x%08X";
    ret (0, st1)
  else if acpi_strcmp (path (handle st)) "\._OS_" =? 0 then
    let st1 := set_retvalue st (set_type (retvalue st) ACPI_STRING) in
    let buffer := acpi_malloc (acpi_strlen acpi_emulated_os) in
    do buffer <- acpi_strcpy buffer acpi_emulated_os;
    let st2 := set_retvalue st1 (set_string (retvalue st1) (Some (string_at buffer))) in
    do_ acpi_debug "_OS_ returned '%s'";
    ret (0, st2)
  else if acpi_strcmp (path (handle st)) "\._REV" =? 0 then
    let st1 := set_retvalue st (integer_result (retvalue st) acpi_implemented_version) in
    do_ acpi_debug "_REV returned %d";
    ret (0, st1)
  else
    do '(item, st1) <- acpi_exec_push_stack_or_die st;
    do st2 <- fill_stackitem st1 item LAI_METHOD_CONTEXT_STACKITEM;
    do '(status, st3) <- run (pointer (handle st2)) (size (handle st2)) st2;
    if truthy status then ret (status, st3)
    else if negb (opstack_ptr st3 =? 1) then
      acpi_panic "expected exactly one return value after method invocation"
    else
      do result <- acpi_exec_get_opstack st3 0;
      do o <- defined (at_index (opstack st3) result);
      let '(rv, o') := acpi_move_object (retvalue st3) o in
      let st4 := set_retvalue (update_opstack st3 result (fun _ => o')) rv in
      do st5 <- acpi_exec_pop_opstack st4 1;
      ret (0, st5).

(** *** The dispatcher, [acpi_exec_run]

    [fuel] bounds the iterations of the [while] and the depth of nested
    method calls. *)

Fixpoint acpi_exec_run_loop (fuel : nat) (method : list Z) (size i : Z)
    (st : acpi_state_t) : M W (Z * acpi_state_t) :=
  match fuel with
  | O => timeout
  | S fuel' =>
      do r <- acpi_exec_run_iter
                (acpi_methodinvoke
                   (acpi_exec_method_with
                      (fun m s st0 => acpi_exec_run_loop fuel' m s 0 st0)))
                method size i st;
      match r with
      | None => ret (0, st)
      | Some (i', st') => acpi_exec_run_loop fuel' method size i' st'
      end
  end.

Definition acpi_exec_run (fuel : nat) (method : list Z) (size : Z)
    (st : acpi_state_t) : M W (Z * acpi_state_t) :=
  acpi_exec_run_loop fuel method size 0 st.

Definition acpi_exec_method (fuel : nat) (st : acpi_state_t) : M W (Z * acpi_state_t) :=
  acpi_exec_method_with (acpi_exec_run fuel) st.

(** One iteration, as [acpi_exec_run] with [S fuel] performs it. *)
Definition acpi_exec_step (fuel : nat) (method : list Z) (size i : Z)
    (st : acpi_state_t) : M W (option (Z * acpi_state_t)) :=
  acpi_exec_run_iter (acpi_methodinvoke (acpi_exec_method fuel)) method size i st.

End Engine.

(** ** A reference instance of the collaborators *)

(** Modelled from the spec: a small instance of the collaborators, none of
    which is in exec.c, for running the engine on concrete AML. It follows
    the ACPI encoding the spec refers to: names begin with a backslash, a
    caret, an upper-case letter, an underscore or a dual/multi-name prefix; a
    package length has its byte count in the two high bits of the lead byte;
    integer literals are little-endian after their prefix. Expressions are
    the integer constants; a target is the null name or a local or argument
    slot. The namespace is empty and the outside world has no state. *)

Module Reference.

Definition is_name (b : Z) : bool :=
  (b =? 0x5C) || (b =? 0x5E) || ((0x41 <=? b) && (b <=? 0x5A)) || (b =? 0x5F)
  || (b =? 0x2E) || (b =? 0x2F).

Definition byte_at (method : list Z) (i : Z) : M unit Z := defined (at_index method i).

(** The little-endian integer of [n] bytes at offset [i]. *)
Fixpoint little_endian (n : nat) (method : list Z) (i : Z) : M unit Z :=
  match n with
  | O => ret 0
  | S n' =>
      do b <- byte_at method i;
      do rest <- little_endian n' method (i + 1);
      ret (Z.lor b (Z.shiftl rest 8))
  end.

Definition parse_pkgsize (method : list Z) (i : Z) : M unit (Z * Z) :=
  do lead <- byte_at method i;
  let n := Z.shiftr lead 6 in
  if n =? 0 then ret (1, Z.land lead 0x3F)
  else
    do rest <- little_endian (Z.to_nat n) method (i + 1);
    ret (n + 1, Z.lor (Z.land lead 0x0F) (Z.shiftl rest 4)).

Definition eval_integer (method : list Z) (i : Z) : M unit (Z * Z) :=
  do b <- byte_at method i;
  if b =? ZERO_OP then ret (1, 0)
  else if b =? ONE_OP then ret (1, 1)
  else if b =? ONES_OP then ret (1, 2 ^ 64 - 1)
  else if b =? BYTEPREFIX then do v <- little_endian 1 method (i + 1); ret (2, v)
  else if b =? WORDPREFIX then do v <- little_endian 2 method (i + 1); ret (3, v)
  else if b =? DWORDPREFIX then do v <- little_endian 4 method (i + 1); ret (5, v)
  else if b =? QWORDPREFIX then do v <- little_endian 8 method (i + 1); ret (9, v)
  else ret (0, 0).

Definition eval_object (st : acpi_state_t) (method : list Z) (i : Z)
    : M unit (Z * acpi_object_t * acpi_state_t) :=
  do '(n, v) <- eval_integer method i;
  if n =? 0 then acpi_panic "undefined opcode"
  else ret (n, integer_result zero_object v, st).

Definition write_object (method : list Z) (i : Z) (o : acpi_object_t)
    (st : acpi_state_t) : M unit (Z * acpi_state_t) :=
  do b <- byte_at method i;
  if b =? ZERO_OP then ret (1, st)
  else if (LOCAL0_OP <=? b) && (b <=? LOCAL7_OP) then
    do l <- defined (store_index (local st) (b - LOCAL0_OP) o);
    ret (1, set_local st l)
  else if (ARG0_OP <=? b) && (b <=? ARG6_OP) then
    do l <- defined (store_index (arg st) (b - ARG0_OP) o);
    ret (1, set_arg st l)
  else acpi_panic "undefined opcode".

Definition unsupported (method : list Z) (i : Z) (st : acpi_state_t)
    : M unit (Z * acpi_state_t) :=
  acpi_panic "undefined opcode".

Definition env : collaborators unit :=
  Build_collaborators unit
    is_name parse_pkgsize eval_integer eval_object write_object
    (fun _ _ _ => ret (4, EmptyString))
    (fun _ => ret None)
    (fun _ => acpi_panic "undefined field read")
    (fun _ _ _ => ret (0, []))
    unsupported unsupported unsupported unsupported
    unsupported unsupported unsupported
    (fun _ => zero_object).

Definition host : host_t unit := Build_host tt [].

(** A method node of the given path and body, and its call state. *)
Definition method_node (p : String.string) (body : list Z) : acpi_nsnode_t :=
  Build_nsnode p ACPI_NAMESPACE_METHOD zero_object body (Z.of_nat (length body)) 0.

Definition call_state (p : String.string) (body : list Z) : acpi_state_t :=
  acpi_init_call_state (method_node p body).

(** The return value of a run of the method, when it succeeds. *)
Definition run_method (fuel : nat) (p : String.string) (body : list Z)
    : outcome acpi_object_t :=
  match acpi_exec_method env fuel (call_state p body) host with
  | Ok ((_, st), _) => Ok (retvalue st)
  | Panic msg => Panic msg
  | Fault => Fault
  | Timeout => Timeout
  end.

End Reference.

(** * Specifications

    The notions in which the properties below are stated. *)

(** ** Native 64-bit arithmetic *)

(** The host's 64-bit unsigned operations, after the words of the
    specification: the result is the low 64 bits of the mathematical result
    (two's-complement wrapping), a bitwise operation acts on each of the 64
    bits, and a shift is logical. [bits_to_Z n f] is the number whose bit [i]
    is [f i] for [i < n] and whose other bits are clear. *)

Fixpoint bits_to_Z (n : nat) (f : Z -> bool) : Z :=
  match n with
  | O => 0
  | S n' => let low := bits_to_Z n' f in
            if f (Z.of_nat n') then Z.setbit low (Z.of_nat n') else low
  end.

Definition truncate64 (z : Z) : Z := bits_to_Z 64 (Z.testbit z).
Definition native_bitwise (op : bool -> bool -> bool) (a b : Z) : Z :=
  bits_to_Z 64 (fun i => op (Z.testbit a i) (Z.testbit b i)).
Definition native_not (a : Z) : Z := bits_to_Z 64 (fun i => negb (Z.testbit a i)).
Definition native_add (a b : Z) : Z := truncate64 (a + b).
Definition native_sub (a b : Z) : Z := truncate64 (a - b).
Definition native_mul (a b : Z) : Z := truncate64 (a * b).
Definition native_shl (a b : Z) : Z := truncate64 (a * 2 ^ b).
Definition native_shr (a b : Z) : Z := a / 2 ^ b.

(** The reducer on an operator whose operands hold [a] and [b]. *)
Definition reduces_to (opcode : Z) (operands : list acpi_object_t)
    (result : acpi_object_t) (v : Z) : Prop :=
  acpi_exec_reduce opcode operands result = Ok (operands, integer_result result v).

(** ** Traces, scopes and iterations *)

(** The warnings among the events of a trace. *)
Definition warnings (t : list event) : list String.string :=
  omap (fun e => match e with EvWarn msg => Some msg | _ => None end) t.

(** The scope [j] positions below the top of the execution stack. *)
Definition scope_at (st : acpi_state_t) (j : Z) : option acpi_stackitem_t :=
  at_index (stack st) (stack_ptr st - j).

(** [item], at depth [j], is the nearest scope of the wanted kind: every scope
    above it is of another kind. *)
Definition nearest (wanted : acpi_stackitem_t -> bool) (st : acpi_state_t)
    (j : Z) (item : acpi_stackitem_t) : Prop :=
  0 <= j <= stack_ptr st /\
  scope_at st j = Some item /\ wanted item = true /\
  forall k, 0 <= k < j -> exists other, scope_at st k = Some other /\ wanted other = false.

(** No scope of the wanted kind is on the execution stack. *)
Definition none_wanted (wanted : acpi_stackitem_t -> bool) (st : acpi_state_t) : Prop :=
  forall k, 0 <= k <= stack_ptr st ->
            exists other, scope_at st k = Some other /\ wanted other = false.

(** The iteration at [(i, st)] does not finalize its top scope: the
    scope-specific part falls through to the opcode at [i], with
    [want_exec_result]. *)
Definition reaches_opcode {W : Type} (env : collaborators W) (method : list Z)
    (size i : Z) (st : acpi_state_t) (h : host_t W) (want_exec_result : Z) : Prop :=
  exists item,
    acpi_exec_peek_stack_back st h = Ok (Some item, h) /\
    scope_prologue env method size i st item h = Ok (FallThrough want_exec_result, h) /\
    i <= size.

(** [n] iterations of the dispatcher from [(i, st)]; [None] once the loop has
    ended. *)
Fixpoint acpi_exec_steps {W : Type} (env : collaborators W) (fuel n : nat)
    (method : list Z) (size i : Z) (st : acpi_state_t)
    : M W (option (Z * acpi_state_t)) :=
  match n with
  | O => ret (Some (i, st))
  | S n' =>
      do r <- acpi_exec_step env fuel method size i st;
      match r with
      | None => ret None
      | Some (i', st') => acpi_exec_steps env fuel n' method size i' st'
      end
  end.

(** ** Call states and method bodies *)

(** The call state of a method once [acpi_exec_method] has pushed the method
    context, with the reference collaborators. *)
Definition entered_state (body : list Z) : acpi_state_t :=
  let st := Reference.call_state "\_SB_.TEST" body in
  set_stack_ptr (set_stack st (<[0%nat := LAI_METHOD_CONTEXT_STACKITEM]> (stack st))) 0.

(** A fresh call state of [method] with arguments [args] whose execution
    stack holds the given scopes, bottom first. *)
Definition scoped_state (method : acpi_nsnode_t) (args : list acpi_object_t)
    (scopes : list acpi_stackitem_t) : acpi_state_t :=
  let st := set_arg (acpi_init_call_state method) args in
  set_stack_ptr
    (set_stack st (scopes ++ replicate (16 - length scopes) LAI_ZEROED_STACKITEM))
    (Z.of_nat (length scopes) - 1).

(** The same for a method without arguments whose body is [body]. *)
Definition with_scopes (body : list Z) (scopes : list acpi_stackitem_t) : acpi_state_t :=
  scoped_state (Reference.method_node "\_SB_.TEST" body) (replicate 7 zero_object) scopes.

(** [While (One) { If (One) { Continue } }] and the same with [Break]: at
    offset 6 the execution stack holds the method context, the Loop (predicate
    at 2, end at 7) and the taken Cond (end at 7). *)
Definition while_if_continue : list Z := [0xA2; 0x06; 0x01; 0xA0; 0x03; 0x01; 0x9F].
Definition while_if_break : list Z := [0xA2; 0x06; 0x01; 0xA0; 0x03; 0x01; 0xA5].
Definition while_if_scopes : list acpi_stackitem_t :=
  [LAI_METHOD_CONTEXT_STACKITEM; LAI_LOOP_STACKITEM 2 7; LAI_COND_STACKITEM 1 7].

(** [If (Zero) { Return (One) } Else { Return (2) }]: the If spans offsets 1
    to 4, the Else opcode is at 5, its package length at 6, its body at 7 to
    9. *)
Definition if_else_body : list Z :=
  [0xA0; 0x04; 0x00; 0xA4; 0x01; 0xA1; 0x04; 0xA4; 0x0A; 0x02].
Definition if_else_scopes : list acpi_stackitem_t :=
  [LAI_METHOD_CONTEXT_STACKITEM; LAI_COND_STACKITEM 0 5].

(** A path that is none of the three reserved ones. *)
Definition not_reserved (p : String.string) : Prop :=
  p <> "\._OSI"%string /\ p <> "\._OS_"%string /\ p <> "\._REV"%string.

(** The call state that [acpi_methodinvoke] builds: a fresh state for the
    method with its arguments. *)
Definition fresh_call_state (method : acpi_nsnode_t) (args : list acpi_object_t)
    : acpi_state_t :=
  set_arg (acpi_init_call_state method) args.


(** The collaborators decode the constants of [if_else_body] as ACPI
    encodes them: the two package lengths take one byte and are 4, [Zero]
    at offset 2 is the Integer 0 in one byte, the byte constant at offset
    8 is the Integer 2 in two bytes, and neither evaluation changes the
    state. *)
Definition decodes_if_else {W : Type} (env : collaborators W) : Prop :=
  acpi_is_name env IF_OP = false /\
  acpi_is_name env RETURN_OP = false /\
  (forall h, acpi_parse_pkgsize env if_else_body 1 h = Ok ((1, 4), h)) /\
  (forall st h, acpi_eval_object env st if_else_body 2 h
                = Ok ((1, integer_result zero_object 0, st), h)) /\
  (forall h, acpi_parse_pkgsize env if_else_body 6 h = Ok ((1, 4), h)) /\
  (forall st h, acpi_eval_object env st if_else_body 8 h
                = Ok ((2, integer_result zero_object 2, st), h)).

(** ** Stack depths *)

(** (P1): the bounds of the two stack pointers. *)
Definition stack_bounds (st : acpi_state_t) : Prop :=
  0 <= opstack_ptr st <= 16 /\ -1 <= stack_ptr st <= 15.

(** A collaborator that is handed the state leaves the two stack pointers as
    they are. *)
Definition same_pointers (st st' : acpi_state_t) : Prop :=
  opstack_ptr st' = opstack_ptr st /\ stack_ptr st' = stack_ptr st.

Definition handler_keeps_pointers {W : Type}
    (f : list Z -> Z -> acpi_state_t -> M W (Z * acpi_state_t)) : Prop :=
  forall method i st h n st' h',
    f method i st h = Ok ((n, st'), h') -> same_pointers st st'.

Definition collaborators_keep_pointers {W : Type} (env : collaborators W) : Prop :=
  (forall st method i h n o st' h',
     acpi_eval_object env st method i h = Ok ((n, o, st'), h') -> same_pointers st st') /\
  (forall method i o st h n st' h',
     acpi_write_object env method i o st h = Ok ((n, st'), h') -> same_pointers st st') /\
  handler_keeps_pointers (acpi_exec_name env) /\
  handler_keeps_pointers (acpi_exec_bytefield env) /\
  handler_keeps_pointers (acpi_exec_wordfield env) /\
  handler_keeps_pointers (acpi_exec_dwordfield env) /\
  handler_keeps_pointers (acpi_exec_increment env) /\
  handler_keeps_pointers (acpi_exec_decrement env) /\
  handler_keeps_pointers (acpi_exec_divide env).

(** ** Frames *)

(** Two states agree on everything but the operand stack. *)
Definition same_outside_opstack (st st' : acpi_state_t) : Prop :=
  handle st' = handle st /\ arg st' = arg st /\ local st' = local st /\
  retvalue st' = retvalue st /\ stack st' = stack st /\ stack_ptr st' = stack_ptr st.

(** Two states agree on everything but the execution stack. *)
Definition same_outside_stack (st st' : acpi_state_t) : Prop :=
  handle st' = handle st /\ arg st' = arg st /\ local st' = local st /\
  retvalue st' = retvalue st /\ opstack st' = opstack st /\
  opstack_ptr st' = opstack_ptr st.

(** [acpi_exec_push_stack_or_die] followed by the caller's filling of the
    slot, as every caller in exec.c does. *)
Definition push_scope {W : Type} (st : acpi_state_t) (item : acpi_stackitem_t)
    : M W acpi_state_t :=
  do '(slot, st1) <- acpi_exec_push_stack_or_die st;
  fill_stackitem st1 slot item.

(** ** Operators *)

(** The number of operands of the operators that the dispatcher reduces on
    its own stacks. *)
Definition operator_arity (b : Z) : option Z :=
  if (b =? STORE_OP) || (b =? NOT_OP) then Some 1
  else if (b =? ADD_OP) || (b =? SUBTRACT_OP) || (b =? MULTIPLY_OP)
          || (b =? AND_OP) || (b =? OR_OP) || (b =? XOR_OP)
          || (b =? SHR_OP) || (b =? SHL_OP) then Some 2
  else None.

(** The state [st] with the operands [ops] on its operand stack, bottom
    first. *)
Definition with_operands (st : acpi_state_t) (ops : list acpi_object_t) : acpi_state_t :=
  set_opstack_ptr
    (set_opstack st (ops ++ replicate (16 - length ops) zero_object))
    (Z.of_nat (length ops)).

(** [Add (One, One, )] with the null target: the operands have been parsed
    and are on the operand stack as integers, the instruction pointer is at
    the target, offset 3. *)
Definition add_one_one : list Z := [0x72; 0x01; 0x01; 0x00].
Definition add_one_one_state : acpi_state_t :=
  with_operands
    (with_scopes add_one_one [LAI_METHOD_CONTEXT_STACKITEM; LAI_OP_STACKITEM ADD_OP 0 2 1])
    [integer_result zero_object 1; integer_result zero_object 1].

(** ** A namespace for the reference instance *)

(** The reference instance over a namespace in which every path resolves to
    [node]. *)
Definition env_resolving (node : acpi_nsnode_t) : collaborators unit :=
  Build_collaborators unit
    Reference.is_name Reference.parse_pkgsize Reference.eval_integer
    Reference.eval_object Reference.write_object
    (fun _ _ _ => ret (4, EmptyString))
    (fun _ => ret (Some node))
    (fun _ => acpi_panic "undefined field read")
    (fun _ _ _ => ret (0, []))
    Reference.unsupported Reference.unsupported Reference.unsupported
    Reference.unsupported Reference.unsupported Reference.unsupported
    Reference.unsupported
    (fun _ => zero_object).

(** The predefined method [\._REV], declared with one argument and the
    serialized flag, and an invocation of it with the argument [One]. *)
Definition rev_node : acpi_nsnode_t :=
  Build_nsnode "\._REV" ACPI_NAMESPACE_METHOD zero_object [] 0 0x09.
Definition rev_invocation : list Z := [0x5F; 0x52; 0x45; 0x56; 0x01].

(** The call state of a method invocation as [acpi_methodinvoke] hands it to
    [acpi_exec_method]: the state is the one of [acpi_init_call_state] but for
    the first [argc] argument slots. *)
Definition callee_state (method : acpi_nsnode_t) (argc : Z) (st : acpi_state_t) : Prop :=
  handle st = method /\
  length (arg st) = 7%nat /\
  (forall k, argc <= k < 7 -> at_index (arg st) k = Some zero_object) /\
  local st = replicate 8 zero_object /\
  retvalue st = zero_object /\
  opstack st = replicate 16 zero_object /\ opstack_ptr st = 0 /\
  stack st = replicate 16 LAI_ZEROED_STACKITEM /\ stack_ptr st = -1.

(** ** Values on the operand stack *)

(** [st'] is [st] with [v] pushed on the operand stack: the slot at the old
    top holds [v], every other slot and everything outside the operand stack
    is as before. *)
Definition pushes (st st' : acpi_state_t) (v : acpi_object_t) : Prop :=
  opstack_ptr st' = opstack_ptr st + 1 /\
  at_index (opstack st') (opstack_ptr st) = Some v /\
  (forall k, k <> opstack_ptr st -> at_index (opstack st') k = at_index (opstack st) k) /\
  same_outside_opstack st st'.

(** An opcode that yields [v]: the value is pushed when the result is wanted,
    and the state is untouched when it is not. *)
Definition yields (want_exec_result : Z) (st st' : acpi_state_t) (v : acpi_object_t)
    : Prop :=
  if want_exec_result =? 0 then st' = st else pushes st st' v.

(** The operand stack has room for one more value. *)
Definition opstack_room (st : acpi_state_t) : Prop :=
  length (opstack st) = 16%nat /\ 0 <= opstack_ptr st < 16.

(** The value of the one-byte opcodes that stand for a value: the constants
    Zero, One and Ones, the arguments and the locals. *)
Definition leaf_value (st : acpi_state_t) (b : Z) : option acpi_object_t :=
  if b =? ZERO_OP then Some (integer_result zero_object 0)
  else if b =? ONE_OP then Some (integer_result zero_object 1)
  else if b =? ONES_OP then Some (integer_result zero_object (2 ^ 64 - 1))
  else if (ARG0_OP <=? b) && (b <=? ARG6_OP) then at_index (arg st) (b - ARG0_OP)
  else if (LOCAL0_OP <=? b) && (b <=? LOCAL7_OP) then at_index (local st) (b - LOCAL0_OP)
  else None.

(** A Name node whose object is the integer 7, and a reference to it as the
    first operand of an Add. *)
Definition seven_node : acpi_nsnode_t :=
  Build_nsnode "\SEVN" ACPI_NAMESPACE_NAME (integer_result zero_object 7) [] 0 0.
Definition add_seven : list Z := [0x72; 0x53; 0x45; 0x56; 0x4E; 0x01; 0x00].
Definition add_seven_state : acpi_state_t :=
  with_scopes add_seven [LAI_METHOD_CONTEXT_STACKITEM; LAI_OP_STACKITEM ADD_OP 0 2 1].

(** ** The case labels of the opcode switch *)

(** The opcodes that the [switch] of [acpi_exec_run] has a case for. *)
Definition switch_case (opcode : Z) : bool :=
  (opcode =? NOP_OP) || (opcode =? ZERO_OP) || (opcode =? ONE_OP) || (opcode =? ONES_OP)
  || (opcode =? BYTEPREFIX) || (opcode =? WORDPREFIX)
  || (opcode =? DWORDPREFIX) || (opcode =? QWORDPREFIX)
  || (opcode =? PACKAGE_OP)
  || (opcode =? Z.lor (Z.shiftl EXTOP_PREFIX 8) SLEEP_OP)
  || (opcode =? RETURN_OP) || (opcode =? WHILE_OP) || (opcode =? CONTINUE_OP)
  || (opcode =? BREAK_OP) || (opcode =? IF_OP) || (opcode =? ELSE_OP)
  || (opcode =? NAME_OP) || (opcode =? BYTEFIELD_OP) || (opcode =? WORDFIELD_OP)
  || (opcode =? DWORDFIELD_OP)
  || (opcode =? ARG0_OP) || (opcode =? ARG1_OP) || (opcode =? ARG2_OP)
  || (opcode =? ARG3_OP) || (opcode =? ARG4_OP) || (opcode =? ARG5_OP)
  || (opcode =? ARG6_OP)
  || (opcode =? LOCAL0_OP) || (opcode =? LOCAL1_OP) || (opcode =? LOCAL2_OP)
  || (opcode =? LOCAL3_OP) || (opcode =? LOCAL4_OP) || (opcode =? LOCAL5_OP)
  || (opcode =? LOCAL6_OP) || (opcode =? LOCAL7_OP)
  || (opcode =? STORE_OP) || (opcode =? NOT_OP)
  || (opcode =? ADD_OP) || (opcode =? SUBTRACT_OP) || (opcode =? MULTIPLY_OP)
  || (opcode =? AND_OP) || (opcode =? OR_OP) || (opcode =? XOR_OP)
  || (opcode =? SHR_OP) || (opcode =? SHL_OP)
  || (opcode =? INCREMENT_OP) || (opcode =? DECREMENT_OP) || (opcode =? DIVIDE_OP).

(** The host after one debug message. *)
Definition debugged {W : Type} (msg : String.string) (h : host_t W) : host_t W :=
  Build_host (external h) (EvDebug msg :: trace h).

(** The reference instance in which every object evaluates to [o] and takes
    [n] bytes. *)
Definition env_evaluating (o : acpi_object_t) (n : Z) : collaborators unit :=
  Build_collaborators unit
    Reference.is_name Reference.parse_pkgsize Reference.eval_integer
    (fun st _ _ => ret (n, o, st)) Reference.write_object
    (fun _ _ _ => ret (4, EmptyString))
    (fun _ => ret None)
    (fun _ => acpi_panic "undefined field read")
    (fun _ _ _ => ret (0, []))
    Reference.unsupported Reference.unsupported Reference.unsupported
    Reference.unsupported Reference.unsupported Reference.unsupported
    Reference.unsupported
    (fun _ => zero_object).

(** The string literal ["A"], opcode 0x0D, which the switch has no case
    for, and the string object it stands for. *)
Definition string_literal : list Z := [0x0D; 0x41; 0x00].
Definition string_A : acpi_object_t :=
  set_string (set_type zero_object ACPI_STRING) (Some "A"%string).

(** [Add (One, One, Local0)] as a statement of a method. *)
Definition add_to_local : list Z := [0x72; 0x01; 0x01; 0x60].

(** * Properties *)

(** ** The reducer and native 64-bit arithmetic *)

Arguments bits_to_Z : simpl never.
Arguments wrap64 : simpl never.

Lemma bits_to_Z_testbit (n : nat) (f : Z -> bool) (i : Z) :
  0 <= i ->
  Z.testbit (bits_to_Z n f) i = if i <? Z.of_nat n then f i else false.
Proof.
  intros Hi. induction n as [|n IH].
  - change (bits_to_Z 0 f) with 0. change (Z.of_nat 0) with 0. rewrite Z.bits_0.
    destruct (i <? 0) eqn:E; [apply Z.ltb_lt in E; lia | reflexivity].
  - change (bits_to_Z (S n) f)
      with (if f (Z.of_nat n) then Z.setbit (bits_to_Z n f) (Z.of_nat n)
            else bits_to_Z n f).
    rewrite Nat2Z.inj_succ.
    destruct (Z.eq_dec i (Z.of_nat n)) as [->|Hne].
    + replace (Z.of_nat n <? Z.succ (Z.of_nat n)) with true
        by (symmetry; apply Z.ltb_lt; lia).
      destruct (f (Z.of_nat n)) eqn:Hf.
      * apply Z.setbit_eq; lia.
      * rewrite IH, Z.ltb_irrefl. reflexivity.
    + assert (Hlt : (i <? Z.succ (Z.of_nat n)) = (i <? Z.of_nat n)).
      { destruct (i <? Z.of_nat n) eqn:E.
        - apply Z.ltb_lt. apply Z.ltb_lt in E. lia.
        - apply Z.ltb_ge. apply Z.ltb_ge in E. lia. }
      rewrite Hlt.
      destruct (f (Z.of_nat n)).
      * rewrite Z.setbit_neq by lia. exact IH.
      * exact IH.
Qed.

Lemma testbit_above_64 (a i : Z) : 0 <= a < 2 ^ 64 -> 64 <= i -> Z.testbit a i = false.
Proof.
  intros Ha Hi. destruct (Z.eq_dec a 0) as [->|Hnz].
  - apply Z.bits_0.
  - apply Z.bits_above_log2; [lia|].
    assert (Z.log2 a < 64) by (apply Z.log2_lt_pow2; lia). lia.
Qed.

Lemma wrap64_truncate64 (z : Z) : wrap64 z = truncate64 z.
Proof.
  apply Z.bits_inj'. intros i Hi. unfold wrap64, truncate64.
  rewrite bits_to_Z_testbit by assumption. change (Z.of_nat 64) with 64.
  destruct (i <? 64) eqn:E.
  - apply Z.ltb_lt in E. apply Z.mod_pow2_bits_low. lia.
  - apply Z.ltb_ge in E. apply Z.mod_pow2_bits_high. lia.
Qed.

Lemma bitwise_native (op : bool -> bool -> bool) (f : Z -> Z -> Z) (a b : Z) :
  op false false = false ->
  (forall x y i, Z.testbit (f x y) i = op (Z.testbit x i) (Z.testbit y i)) ->
  0 <= a < 2 ^ 64 -> 0 <= b < 2 ^ 64 ->
  f a b = native_bitwise op a b.
Proof.
  intros Hop Hf Ha Hb. apply Z.bits_inj'. intros i Hi. unfold native_bitwise.
  rewrite bits_to_Z_testbit by assumption. change (Z.of_nat 64) with 64.
  rewrite Hf. destruct (i <? 64) eqn:E; [reflexivity|].
  apply Z.ltb_ge in E.
  rewrite (testbit_above_64 a i), (testbit_above_64 b i) by assumption.
  exact Hop.
Qed.

Lemma lnot_native (a : Z) : wrap64 (Z.lnot a) = native_not a.
Proof.
  apply Z.bits_inj'. intros i Hi. unfold wrap64, native_not.
  rewrite bits_to_Z_testbit by assumption. change (Z.of_nat 64) with 64.
  destruct (i <? 64) eqn:E.
  - apply Z.ltb_lt in E. rewrite Z.mod_pow2_bits_low by lia. apply Z.lnot_spec. lia.
  - apply Z.ltb_ge in E. apply Z.mod_pow2_bits_high. lia.
Qed.

Lemma shift_count_below_64 (b : Z) : 0 <= b < 64 -> shift_count b = b.
Proof.
  intros Hb. unfold shift_count. change 63 with (Z.ones 6).
  rewrite Z.land_ones by lia. apply Z.mod_small. lia.
Qed.

(** Where the reducer agrees with the native operations: for operands
    holding 64-bit values [a] and [b], it yields an Integer that is the
    native 64-bit wrapping or bitwise result, for ADD, SUBTRACT, MULTIPLY,
    AND, OR, XOR and NOT on every pair, and for SHL and SHR when the shift
    count [b] is below 64. *)
Theorem reduce_native (oa ob : acpi_object_t) (rest : list acpi_object_t)
    (result : acpi_object_t) :
  0 <= integer oa < 2 ^ 64 ->
  0 <= integer ob < 2 ^ 64 ->
  let a := integer oa in
  let b := integer ob in
  reduces_to ADD_OP (oa :: ob :: rest) result (native_add a b) /\
  reduces_to SUBTRACT_OP (oa :: ob :: rest) result (native_sub a b) /\
  reduces_to MULTIPLY_OP (oa :: ob :: rest) result (native_mul a b) /\
  reduces_to AND_OP (oa :: ob :: rest) result (native_bitwise andb a b) /\
  reduces_to OR_OP (oa :: ob :: rest) result (native_bitwise orb a b) /\
  reduces_to XOR_OP (oa :: ob :: rest) result (native_bitwise xorb a b) /\
  reduces_to NOT_OP (oa :: rest) result (native_not a) /\
  (b < 64 ->
   reduces_to SHL_OP (oa :: ob :: rest) result (native_shl a b) /\
   reduces_to SHR_OP (oa :: ob :: rest) result (native_shr a b)).
Proof.
  intros Ha Hb a b. unfold reduces_to.
  assert (Hbin : forall f, reduce_binary f (oa :: ob :: rest) result =
                 match f a b with
                 | Ok v => Ok (oa :: ob :: rest, integer_result result v)
                 | Panic msg => Panic msg
                 | Fault => Fault
                 | Timeout => Timeout
                 end) by reflexivity.
  repeat split.
  - change (acpi_exec_reduce ADD_OP (oa :: ob :: rest) result)
      with (reduce_binary (fun a b => Ok (wrap64 (a + b))) (oa :: ob :: rest) result).
    rewrite Hbin. unfold native_add. now rewrite wrap64_truncate64.
  - change (acpi_exec_reduce SUBTRACT_OP (oa :: ob :: rest) result)
      with (reduce_binary (fun a b => Ok (wrap64 (a - b))) (oa :: ob :: rest) result).
    rewrite Hbin. unfold native_sub. now rewrite wrap64_truncate64.
  - change (acpi_exec_reduce MULTIPLY_OP (oa :: ob :: rest) result)
      with (reduce_binary (fun a b => Ok (wrap64 (a * b))) (oa :: ob :: rest) result).
    rewrite Hbin. unfold native_mul. now rewrite wrap64_truncate64.
  - change (acpi_exec_reduce AND_OP (oa :: ob :: rest) result)
      with (reduce_binary (fun a b => Ok (Z.land a b)) (oa :: ob :: rest) result).
    rewrite Hbin.
    now rewrite (bitwise_native andb Z.land) by (auto using Z.land_spec).
  - change (acpi_exec_reduce OR_OP (oa :: ob :: rest) result)
      with (reduce_binary (fun a b => Ok (Z.lor a b)) (oa :: ob :: rest) result).
    rewrite Hbin.
    now rewrite (bitwise_native orb Z.lor) by (auto using Z.lor_spec).
  - change (acpi_exec_reduce XOR_OP (oa :: ob :: rest) result)
      with (reduce_binary (fun a b => Ok (Z.lxor a b)) (oa :: ob :: rest) result).
    rewrite Hbin.
    now rewrite (bitwise_native xorb Z.lxor) by (auto using Z.lxor_spec).
  - change (acpi_exec_reduce NOT_OP (oa :: rest) result)
      with (@Ok (list acpi_object_t * acpi_object_t)
              (oa :: rest, integer_result result (wrap64 (Z.lnot a)))).
    now rewrite lnot_native.
  - change (acpi_exec_reduce SHL_OP (oa :: ob :: rest) result)
      with (reduce_binary
              (fun a b => Ok (wrap64 (Z.shiftl a (shift_count b))))
              (oa :: ob :: rest) result).
    rewrite Hbin. rewrite shift_count_below_64 by (subst b; lia).
    unfold native_shl.
    rewrite <- wrap64_truncate64, Z.shiftl_mul_pow2 by (subst b; lia).
    reflexivity.
  - change (acpi_exec_reduce SHR_OP (oa :: ob :: rest) result)
      with (reduce_binary (fun a b => Ok (Z.shiftr a (shift_count b)))
              (oa :: ob :: rest) result).
    rewrite Hbin. rewrite shift_count_below_64 by (subst b; lia).
    unfold native_shr. rewrite Z.shiftr_div_pow2 by (subst b; lia).
    reflexivity.
Qed.

Lemma reduce_native_witness :
  let oa := integer_result zero_object (2 ^ 64 - 1) in
  let ob := integer_result zero_object 3 in
  reduces_to ADD_OP [oa; ob] zero_object 2 /\
  reduces_to SHL_OP [oa; ob] zero_object (2 ^ 64 - 8).
Proof.
  intros oa ob.
  assert (Ha : 0 <= integer oa < 2 ^ 64) by (cbn; lia).
  assert (Hb : 0 <= integer ob < 2 ^ 64) by (cbn; lia).
  destruct (reduce_native oa ob [] zero_object Ha Hb)
    as (Hadd & _ & _ & _ & _ & _ & _ & Hshift).
  destruct Hshift as (Hshl & _); [cbn; lia|].
  split; [exact Hadd | exact Hshl].
Defined.


(** ** Method entry: the reserved path [\._OSI] *)

Lemma osi_lookup_supported (s : String.string) (table : list String.string) :
  In s table -> osi_lookup s table = 0xFFFFFFFF.
Proof.
  induction table as [|t rest IH]; intros Hin; [destruct Hin|].
  cbn [osi_lookup]. unfold acpi_strcmp.
  destruct (String.eqb s t) eqn:E; [reflexivity|].
  destruct Hin as [->|Hin]; [rewrite String.eqb_refl in E; discriminate|].
  cbn. auto.
Qed.

Lemma osi_lookup_unsupported (s : String.string) (table : list String.string) :
  ~ In s table -> osi_lookup s table = 0.
Proof.
  induction table as [|t rest IH]; intros Hnin; [reflexivity|].
  cbn [osi_lookup]. unfold acpi_strcmp.
  destruct (String.eqb s t) eqn:E.
  - apply String.eqb_eq in E. subst t. exfalso. apply Hnin. left. reflexivity.
  - cbn. apply IH. intros Hin. apply Hnin. right. exact Hin.
Qed.

Lemma Linux_unsupported : ~ In "Linux"%string supported_osi_strings.
Proof.
  intros Hin. repeat (destruct Hin as [Hin|Hin]; [discriminate Hin|]). exact Hin.
Qed.

(** C6: on the path [\._OSI] with a string argument [s], method entry
    succeeds with [retvalue] the Integer 0xFFFFFFFF when [s] is one of the
    twelve supported strings and the Integer 0 when it is not; it emits one
    warning for "Linux" (which is not supported) and none otherwise. It does
    so whatever the dispatcher [run] would do and leaves both stacks as they
    were: no AML is executed. *)
Theorem osi_emulation {W : Type} (env : collaborators W)
    (run : list Z -> Z -> acpi_state_t -> M W (Z * acpi_state_t))
    (st : acpi_state_t) (arg0 : acpi_object_t) (s : String.string) (h : host_t W) :
  path (handle st) = "\._OSI"%string ->
  at_index (arg st) 0 = Some arg0 ->
  string arg0 = Some s ->
  exists st' h',
    acpi_exec_method_with env run st h = Ok ((0, st'), h') /\
    length supported_osi_strings = 12%nat /\
    (is_integer (retvalue st') 0xFFFFFFFF <-> In s supported_osi_strings) /\
    (~ In s supported_osi_strings -> is_integer (retvalue st') 0) /\
    (s = "Linux"%string ->
     is_integer (retvalue st') 0 /\
     warnings (trace h') =
       "buggy BIOS requested _OSI('Linux'), ignoring..."%string :: warnings (trace h)) /\
    (s <> "Linux"%string -> warnings (trace h') = warnings (trace h)) /\
    external h' = external h /\
    stack st' = stack st /\ stack_ptr st' = stack_ptr st /\
    opstack st' = opstack st /\ opstack_ptr st' = opstack_ptr st.
Proof.
  intros Hpath Harg Hstr.
  set (v := osi_lookup s supported_osi_strings).
  set (warned := negb (truthy v) && negb (truthy (acpi_strcmp s "Linux"))).
  set (st0 := set_local st (replicate 8 zero_object)).
  exists (set_retvalue st0 (integer_result (retvalue st0) v)).
  exists (Build_host (external h)
            (EvDebug "_OSI('%s') returned 0x%08X"
             :: (if warned
                 then EvWarn "buggy BIOS requested _OSI('Linux'), ignoring..." :: trace h
                 else trace h))).
  assert (Hrun : acpi_exec_method_with env run st h =
                 Ok ((0, set_retvalue st0 (integer_result (retvalue st0) v)),
                     Build_host (external h)
                       (EvDebug "_OSI('%s') returned 0x%08X"
                        :: (if warned
                            then EvWarn "buggy BIOS requested _OSI('Linux'), ignoring..."
                                 :: trace h
                            else trace h)))).
  { unfold acpi_exec_method_with. fold st0.
    change (path (handle st0)) with (path (handle st)). rewrite Hpath.
    change (arg st0) with (arg st).
    unfold bind, defined. rewrite Harg. unfold ret. rewrite Hstr.
    fold v. fold warned. cbn.
    destruct warned; reflexivity. }
  split; [exact Hrun|].
  assert (Hlinux : s = "Linux"%string -> v = 0 /\ warned = true).
  { intros ->. assert (Hv : v = 0) by (apply osi_lookup_unsupported, Linux_unsupported).
    split; [exact Hv|]. unfold warned. rewrite Hv. reflexivity. }
  assert (Hother : s <> "Linux"%string -> warned = false).
  { intros Hne. unfold warned, acpi_strcmp.
    destruct (String.eqb s "Linux") eqn:E.
    - apply String.eqb_eq in E. contradiction.
    - cbn. apply andb_false_r. }
  split; [reflexivity|].
  split.
  { split.
    - intros [_ Hv]. destruct (in_dec string_dec s supported_osi_strings) as [Hin|Hnin];
        [exact Hin|].
      change (v = 0xFFFFFFFF) in Hv. unfold v in Hv.
      rewrite osi_lookup_unsupported in Hv by exact Hnin. discriminate Hv.
    - intros Hin. split; [reflexivity|]. change (v = 0xFFFFFFFF). unfold v.
      now rewrite osi_lookup_supported. }
  repeat split.
  - unfold v. now rewrite osi_lookup_unsupported.
  - now destruct (Hlinux H) as [-> _].
  - destruct (Hlinux H) as [_ ->]. reflexivity.
  - intros Hne. rewrite (Hother Hne). reflexivity.
Qed.

Lemma osi_emulation_witness :
  let arg0 := set_string (set_type zero_object ACPI_STRING) (Some "Linux"%string) in
  let st := set_arg (Reference.call_state "\._OSI" []) (arg0 :: replicate 6 zero_object) in
  exists st' h',
    acpi_exec_method_with Reference.env (fun _ _ _ => fault) st Reference.host
      = Ok ((0, st'), h') /\
    is_integer (retvalue st') 0 /\
    warnings (trace h') = ["buggy BIOS requested _OSI('Linux'), ignoring..."%string].
Proof.
  intros arg0 st.
  destruct (osi_emulation Reference.env (fun _ _ _ => fault) st arg0 "Linux"
              Reference.host eq_refl eq_refl eq_refl)
    as (st' & h' & Hrun & _ & _ & _ & Hlinux & _).
  destruct (Hlinux eq_refl) as [Hret Hwarn].
  exists st', h'. split; [exact Hrun|]. split; [exact Hret | exact Hwarn].
Defined.

(** ** The dispatcher: iterations that reach the opcode switch *)

Section EngineFacts.
Context {W : Type} (env : collaborators W).

Lemma bind_Ok_inv {A B : Type} (m : M W A) (k : A -> M W B) (h : host_t W)
    (r : B * host_t W) :
  bind m k h = Ok r -> exists a h1, m h = Ok (a, h1) /\ k a h1 = Ok r.
Proof.
  unfold bind. destruct (m h) as [[a h1]| | |]; try discriminate.
  intros Hk. exists a, h1. split; [reflexivity | exact Hk].
Qed.

Lemma bind_Ok {A B : Type} (m : M W A) (k : A -> M W B) (h h1 : host_t W) (a : A) :
  m h = Ok (a, h1) -> bind m k h = k a h1.
Proof. intros Hm. unfold bind. rewrite Hm. reflexivity. Qed.

Lemma peek_stack_scope (st : acpi_state_t) (j : Z) (item : acpi_stackitem_t)
    (h : host_t W) :
  j <= stack_ptr st -> scope_at st j = Some item ->
  acpi_exec_peek_stack st j h = Ok (Some item, h).
Proof.
  intros Hj Hat. unfold acpi_exec_peek_stack.
  replace (stack_ptr st - j <? 0) with false by (symmetry; apply Z.ltb_ge; lia).
  unfold scope_at in Hat. unfold bind, defined. rewrite Hat. reflexivity.
Qed.

Lemma peek_stack_NULL (st : acpi_state_t) (j : Z) (h : host_t W) :
  stack_ptr st < j -> acpi_exec_peek_stack st j h = Ok (None, h).
Proof.
  intros Hj. unfold acpi_exec_peek_stack.
  replace (stack_ptr st - j <? 0) with true by (symmetry; apply Z.ltb_lt; lia).
  reflexivity.
Qed.

Lemma peek_stack_Ok (st : acpi_state_t) (j : Z) (r : option acpi_stackitem_t)
    (h h' : host_t W) :
  acpi_exec_peek_stack st j h = Ok (r, h') ->
  h' = h /\
  match r with
  | Some item => j <= stack_ptr st /\ scope_at st j = Some item
  | None => stack_ptr st < j
  end.
Proof.
  unfold acpi_exec_peek_stack, scope_at.
  destruct (stack_ptr st - j <? 0) eqn:E.
  - intros [= <- <-]. apply Z.ltb_lt in E. split; [reflexivity | lia].
  - apply Z.ltb_ge in E. unfold bind, defined.
    destruct (at_index (stack st) (stack_ptr st - j)) as [item|]; [|discriminate].
    intros [= <- <-]. split; [reflexivity|]. split; [lia | reflexivity].
Qed.

(** The search loop finds the nearest scope of the wanted kind ... *)
Lemma find_stackitem_nearest (wanted : acpi_stackitem_t -> bool) (msg : String.string)
    (st : acpi_state_t) (item : acpi_stackitem_t) (j : Z) (h : host_t W) (d : nat) :
  forall (fuel : nat) (j0 : Z),
    j = j0 + Z.of_nat d -> j <= stack_ptr st ->
    scope_at st j = Some item -> wanted item = true ->
    (forall k, j0 <= k < j ->
               exists other, scope_at st k = Some other /\ wanted other = false) ->
    (d <= fuel)%nat ->
    find_stackitem wanted msg fuel st j0 h = Ok ((j, item), h).
Proof.
  induction d as [|d IH]; intros fuel j0 Hj Hle Hat Hw Habove Hfuel.
  - assert (j0 = j) by lia. subst j0.
    destruct fuel; cbn [find_stackitem];
      rewrite (bind_Ok _ _ _ _ _ (peek_stack_scope st j item h Hle Hat)), Hw;
      reflexivity.
  - destruct (Habove j0) as (other & Hother & Hnw); [lia|].
    destruct fuel as [|fuel]; [lia|]. cbn [find_stackitem].
    rewrite (bind_Ok _ _ _ _ _ (peek_stack_scope st j0 other h ltac:(lia) Hother)), Hnw.
    apply IH; try assumption; try lia.
    intros k Hk. apply Habove. lia.
Qed.

(** ... and panics when there is none. *)
Lemma find_stackitem_none (wanted : acpi_stackitem_t -> bool) (msg : String.string)
    (st : acpi_state_t) (h : host_t W) (d : nat) :
  forall (fuel : nat) (j0 : Z),
    stack_ptr st + 1 = j0 + Z.of_nat d ->
    (forall k, j0 <= k <= stack_ptr st ->
               exists other, scope_at st k = Some other /\ wanted other = false) ->
    (d <= fuel)%nat ->
    find_stackitem wanted msg fuel st j0 h = Panic msg.
Proof.
  induction d as [|d IH]; intros fuel j0 Hj Hnone Hfuel.
  - destruct fuel; cbn [find_stackitem];
      rewrite (bind_Ok _ _ _ _ _ (peek_stack_NULL st j0 h ltac:(lia))); reflexivity.
  - destruct (Hnone j0) as (other & Hother & Hnw); [lia|].
    destruct fuel as [|fuel]; [lia|]. cbn [find_stackitem].
    rewrite (bind_Ok _ _ _ _ _ (peek_stack_scope st j0 other h ltac:(lia) Hother)), Hnw.
    apply IH; try lia.
    intros k Hk. apply Hnone. lia.
Qed.

(** What a successful search has found. *)
Lemma find_stackitem_Ok (wanted : acpi_stackitem_t -> bool) (msg : String.string)
    (st : acpi_state_t) (fuel : nat) :
  forall (j0 j : Z) (item : acpi_stackitem_t) (h h' : host_t W),
    find_stackitem wanted msg fuel st j0 h = Ok ((j, item), h') ->
    h' = h /\ j0 <= j <= stack_ptr st /\
    scope_at st j = Some item /\ wanted item = true /\
    (forall k, j0 <= k < j ->
               exists other, scope_at st k = Some other /\ wanted other = false).
Proof.
  induction fuel as [|fuel IH]; intros j0 j item h h' Hfind;
    cbn [find_stackitem] in Hfind;
    apply bind_Ok_inv in Hfind; destruct Hfind as (found & h1 & Hpeek & Hrest);
    apply peek_stack_Ok in Hpeek; destruct Hpeek as [-> Hfound];
    (destruct found as [it|]; [|discriminate Hrest]);
    destruct Hfound as [Hle Hat];
    destruct (wanted it) eqn:Hw.
  - injection Hrest as <- <- <-. repeat split; try assumption; try lia.
  - discriminate Hrest.
  - injection Hrest as <- <- <-. repeat split; try assumption; try lia.
  - apply IH in Hrest. destruct Hrest as (-> & Hj & Hat' & Hw' & Habove).
    repeat split; try assumption; try lia.
    intros k Hk. destruct (Z.eq_dec k j0) as [->|Hne].
    + exists it. split; assumption.
    + apply Habove. lia.
Qed.

(** An iteration that reaches the opcode switch at a byte that starts no
    name fetches the opcode and runs its case. *)
Lemma run_iter_opcode (invoke : list Z -> Z -> acpi_state_t -> acpi_object_t ->
                                M W (Z * acpi_state_t * acpi_object_t))
    (method : list Z) (size i : Z) (st : acpi_state_t) (h : host_t W)
    (want_exec_result b : Z) :
  reaches_opcode env method size i st h want_exec_result ->
  at_index method i = Some b ->
  acpi_is_name env b = false ->
  acpi_exec_run_iter env invoke method size i st h =
  bind (bind (fetch_opcode method size i b)
             (fun opcode => dispatch_opcode env method i st want_exec_result b opcode))
       (fun r => ret (Some r)) h.
Proof.
  intros (item & Hpeek & Hpro & Hsize) Hb Hname.
  unfold acpi_exec_run_iter.
  rewrite (bind_Ok _ _ _ _ _ Hpeek), (bind_Ok _ _ _ _ _ Hpro).
  unfold dispatch.
  replace (i >? size) with false by (symmetry; rewrite Z.gtb_ltb; apply Z.ltb_ge; lia).
  unfold bind at 1 2. unfold defined. rewrite Hb. unfold ret at 1. rewrite Hname.
  unfold bind. reflexivity.
Qed.

End EngineFacts.

Section OpcodeCases.
Context {W : Type} (env : collaborators W).

Lemma fetch_single_byte (method : list Z) (size i b : Z) (h : host_t W) :
  (b =? EXTOP_PREFIX) = false -> fetch_opcode method size i b h = Ok (b, h).
Proof. intros Hb. unfold fetch_opcode. rewrite Hb. reflexivity. Qed.

Lemma dispatch_continue (method : list Z) (i : Z) (st : acpi_state_t) (want b : Z) :
  dispatch_opcode env method i st want b CONTINUE_OP =
  bind (find_stackitem is_loop "Continue() outside of While()"
          (Z.to_nat (stack_ptr st + 1)) st 0)
       (fun x => match x with
                 | (j, LAI_LOOP_STACKITEM loop_pred _) =>
                     ret (loop_pred, acpi_exec_pop_stack st j)
                 | _ => fault
                 end).
Proof. reflexivity. Qed.

Lemma dispatch_break (method : list Z) (i : Z) (st : acpi_state_t) (want b : Z) :
  dispatch_opcode env method i st want b BREAK_OP =
  bind (find_stackitem is_loop "Break() outside of While()"
          (Z.to_nat (stack_ptr st + 1)) st 0)
       (fun x => match x with
                 | (j, LAI_LOOP_STACKITEM _ loop_end) =>
                     ret (loop_end, acpi_exec_pop_stack st (j + 1))
                 | _ => fault
                 end).
Proof. reflexivity. Qed.

Lemma dispatch_nop (method : list Z) (i : Z) (st : acpi_state_t) (want b : Z) :
  dispatch_opcode env method i st want b NOP_OP =
  bind (push_integer_if_wanted want st 0) (fun st1 => ret (i + 1 + 1, st1)).
Proof. reflexivity. Qed.

Lemma reaches_opcode_nonempty (method : list Z) (size i : Z) (st : acpi_state_t)
    (h : host_t W) (want : Z) :
  reaches_opcode env method size i st h want -> 0 <= stack_ptr st.
Proof.
  intros (item & Hpeek & _). apply peek_stack_Ok in Hpeek.
  destruct Hpeek as [_ [Hle _]]. lia.
Qed.

Lemma step_continue (fuel : nat) (method : list Z) (size i : Z) (st : acpi_state_t)
    (h : host_t W) (want : Z) :
  reaches_opcode env method size i st h want ->
  at_index method i = Some CONTINUE_OP ->
  acpi_is_name env CONTINUE_OP = false ->
  acpi_exec_step env fuel method size i st h =
  bind (dispatch_opcode env method i st want CONTINUE_OP CONTINUE_OP)
       (fun r => ret (Some r)) h.
Proof.
  intros Hreach Hb Hname. unfold acpi_exec_step.
  rewrite (run_iter_opcode env _ _ _ _ _ _ _ _ Hreach Hb Hname).
  unfold bind at 1 2. rewrite fetch_single_byte by reflexivity. reflexivity.
Qed.

Lemma step_break (fuel : nat) (method : list Z) (size i : Z) (st : acpi_state_t)
    (h : host_t W) (want : Z) :
  reaches_opcode env method size i st h want ->
  at_index method i = Some BREAK_OP ->
  acpi_is_name env BREAK_OP = false ->
  acpi_exec_step env fuel method size i st h =
  bind (dispatch_opcode env method i st want BREAK_OP BREAK_OP)
       (fun r => ret (Some r)) h.
Proof.
  intros Hreach Hb Hname. unfold acpi_exec_step.
  rewrite (run_iter_opcode env _ _ _ _ _ _ _ _ Hreach Hb Hname).
  unfold bind at 1 2. rewrite fetch_single_byte by reflexivity. reflexivity.
Qed.

End OpcodeCases.

Lemma strcmp_different (p q : String.string) : p <> q -> (acpi_strcmp p q =? 0) = false.
Proof.
  intros Hne. unfold acpi_strcmp. destruct (String.eqb p q) eqn:E; [|reflexivity].
  apply String.eqb_eq in E. contradiction.
Qed.

Section Running.
Context {W : Type} (env : collaborators W).

Lemma run_loop_step (fuel : nat) (method : list Z) (size i i' : Z)
    (st st' : acpi_state_t) (h h' : host_t W) :
  acpi_exec_step env fuel method size i st h = Ok (Some (i', st'), h') ->
  acpi_exec_run_loop env (S fuel) method size i st h
    = acpi_exec_run_loop env fuel method size i' st' h'.
Proof.
  intros Hstep. cbn [acpi_exec_run_loop].
  change (acpi_exec_run_iter env _ method size i st)
    with (acpi_exec_step env fuel method size i st).
  rewrite (bind_Ok _ _ _ _ _ Hstep). reflexivity.
Qed.

Lemma run_loop_done (fuel : nat) (method : list Z) (size i : Z)
    (st : acpi_state_t) (h h' : host_t W) :
  acpi_exec_step env fuel method size i st h = Ok (None, h') ->
  acpi_exec_run_loop env (S fuel) method size i st h = Ok ((0, st), h').
Proof.
  intros Hstep. cbn [acpi_exec_run_loop].
  change (acpi_exec_run_iter env _ method size i st)
    with (acpi_exec_step env fuel method size i st).
  rewrite (bind_Ok _ _ _ _ _ Hstep). reflexivity.
Qed.

Lemma dispatch_if (method : list Z) (i : Z) (st : acpi_state_t) (want b : Z) :
  dispatch_opcode env method i st want b IF_OP =
  bind (acpi_parse_pkgsize env method (i + 1))
    (fun x => let '(n, if_size) := x in
       bind (acpi_eval_object env st method (i + 1 + n))
         (fun y => let '(m, predicate, st1) := y in
            bind (acpi_exec_push_stack_or_die st1)
              (fun z => let '(cond_item, st2) := z in
                 bind (fill_stackitem st2 cond_item
                         (LAI_COND_STACKITEM (integer predicate) (i + 1 + if_size)))
                   (fun st3 =>
                      ret (if negb (truthy (integer predicate))
                           then i + 1 + if_size else i + 1 + n + m, st3))))).
Proof. reflexivity. Qed.

Lemma dispatch_return (method : list Z) (i : Z) (st : acpi_state_t) (want b : Z) :
  dispatch_opcode env method i st want b RETURN_OP =
  bind (acpi_eval_object env st method (i + 1))
    (fun x => let '(n, result, st1) := x in
       bind (find_stackitem is_method_context "Return() outside of control method()"
               (Z.to_nat (stack_ptr st1 + 1)) st1 0)
         (fun y => let '(j, _) := y in
            if truthy (opstack_ptr st1)
            then acpi_panic "opstack is not empty before return"
            else
              bind (acpi_exec_push_opstack_or_die st1)
                (fun z => let '(opstack_res, st2) := z in
                   ret (i + 1 + n,
                        acpi_exec_pop_stack
                          (update_opstack st2 opstack_res
                             (fun o => fst (acpi_move_object o result)))
                          (j + 1))))).
Proof. reflexivity. Qed.

Lemma step_cond_not_taken_else (fuel : nat) (method : list Z) (size i : Z)
    (st : acpi_state_t) (h h1 : host_t W) (cond_end n else_size : Z) :
  acpi_exec_peek_stack_back st h = Ok (Some (LAI_COND_STACKITEM 0 cond_end), h) ->
  at_index method i = Some ELSE_OP ->
  acpi_parse_pkgsize env method (i + 1) h = Ok ((n, else_size), h1) ->
  acpi_exec_step env fuel method size i st h
    = Ok (Some (i + 1 + n, acpi_exec_pop_stack_back st), h1).
Proof.
  intros Hpeek Hb Hpkg. unfold acpi_exec_step, acpi_exec_run_iter.
  rewrite (bind_Ok _ _ _ _ _ Hpeek).
  unfold scope_prologue. cbn [truthy Z.eqb negb].
  unfold bind, defined. rewrite Hb. unfold ret at 1.
  rewrite Z.eqb_refl. rewrite Hpkg. reflexivity.
Qed.

(** Method entry on a fresh call state of a method that is not reserved:
    the method context is pushed, the dispatcher runs on the body, and the
    single operand it leaves becomes [retvalue]. *)
Lemma exec_method_fresh
    (run : list Z -> Z -> acpi_state_t -> M W (Z * acpi_state_t))
    (method : acpi_nsnode_t) (args : list acpi_object_t) (h : host_t W) :
  not_reserved (path method) ->
  acpi_exec_method_with env run (fresh_call_state method args) h =
  bind (run (pointer method) (size method)
            (scoped_state method args [LAI_METHOD_CONTEXT_STACKITEM]))
    (fun x => let '(status, st3) := x in
       if truthy status then ret (status, st3)
       else if negb (opstack_ptr st3 =? 1) then
         acpi_panic "expected exactly one return value after method invocation"
       else
         bind (acpi_exec_get_opstack st3 0)
           (fun result =>
              bind (defined (at_index (opstack st3) result))
                (fun o =>
                   let '(rv, o') := acpi_move_object (retvalue st3) o in
                   let st4 := set_retvalue (update_opstack st3 result (fun _ => o')) rv in
                   bind (acpi_exec_pop_opstack env st4 1) (fun st5 => ret (0, st5))))) h.
Proof.
  intros (Hosi & Hos & Hrev).
  destruct method as [p t o ptr sz fl]. cbn in Hosi, Hos, Hrev.
  unfold acpi_exec_method_with, fresh_call_state.
  cbn [path handle set_local set_arg acpi_init_call_state].
  rewrite !strcmp_different by assumption.
  reflexivity.
Qed.

End Running.

(** ** Continue and Break *)

(** C7: an iteration that executes CONTINUE sets the instruction pointer to
    the predicate offset of the nearest Loop scope and pops the scopes above
    it, so that the Loop becomes the top; one that executes BREAK sets the
    instruction pointer to the end offset of the nearest Loop scope and pops
    that Loop and the scopes above it; with no Loop scope on the execution
    stack either panics. *)
Theorem continue_break_unwind {W : Type} (env : collaborators W) (fuel : nat)
    (method : list Z) (size i : Z) (st : acpi_state_t) (h : host_t W) (want : Z) :
  reaches_opcode env method size i st h want ->
  (at_index method i = Some CONTINUE_OP -> acpi_is_name env CONTINUE_OP = false ->
   (forall j loop_pred loop_end,
      nearest is_loop st j (LAI_LOOP_STACKITEM loop_pred loop_end) ->
      acpi_exec_step env fuel method size i st h
        = Ok (Some (loop_pred, acpi_exec_pop_stack st j), h) /\
      stack_ptr (acpi_exec_pop_stack st j) = stack_ptr st - j /\
      scope_at (acpi_exec_pop_stack st j) 0 = Some (LAI_LOOP_STACKITEM loop_pred loop_end)) /\
   (none_wanted is_loop st ->
      acpi_exec_step env fuel method size i st h = Panic "Continue() outside of While()")) /\
  (at_index method i = Some BREAK_OP -> acpi_is_name env BREAK_OP = false ->
   (forall j loop_pred loop_end,
      nearest is_loop st j (LAI_LOOP_STACKITEM loop_pred loop_end) ->
      acpi_exec_step env fuel method size i st h
        = Ok (Some (loop_end, acpi_exec_pop_stack st (j + 1)), h) /\
      stack_ptr (acpi_exec_pop_stack st (j + 1)) = stack_ptr st - j - 1) /\
   (none_wanted is_loop st ->
      acpi_exec_step env fuel method size i st h = Panic "Break() outside of While()")).
Proof.
  intros Hreach.
  pose proof (reaches_opcode_nonempty env _ _ _ _ _ _ Hreach) as Hsp.
  split; intros Hb Hname.
  - rewrite (step_continue env fuel _ _ _ _ _ _ Hreach Hb Hname), dispatch_continue.
    split.
    + intros j p e (Hj & Hat & Hw & Habove).
      split; [|split].
      * unfold bind at 1 2.
        rewrite (find_stackitem_nearest is_loop _ st (LAI_LOOP_STACKITEM p e) j h (Z.to_nat j));
          try assumption;
          try lia.
        reflexivity.
      * cbn. lia.
      * unfold scope_at in *. cbn. rewrite Z.sub_0_r. exact Hat.
    + intros Hnone. unfold bind at 1 2.
      rewrite (find_stackitem_none is_loop _ st h (Z.to_nat (stack_ptr st + 1)));
        try assumption; try lia.
      reflexivity.
  - rewrite (step_break env fuel _ _ _ _ _ _ Hreach Hb Hname), dispatch_break.
    split.
    + intros j p e (Hj & Hat & Hw & Habove).
      split.
      * unfold bind at 1 2.
        rewrite (find_stackitem_nearest is_loop _ st (LAI_LOOP_STACKITEM p e) j h (Z.to_nat j));
          try assumption;
          try lia.
        reflexivity.
      * cbn. lia.
    + intros Hnone. unfold bind at 1 2.
      rewrite (find_stackitem_none is_loop _ st h (Z.to_nat (stack_ptr st + 1)));
        try assumption; try lia.
      reflexivity.
Qed.

Lemma continue_break_unwind_witness :
  acpi_exec_step Reference.env 0 while_if_continue 7 6
      (with_scopes while_if_continue while_if_scopes) Reference.host
    = Ok (Some (2, acpi_exec_pop_stack (with_scopes while_if_continue while_if_scopes) 1),
          Reference.host) /\
  acpi_exec_step Reference.env 0 while_if_break 7 6
      (with_scopes while_if_break while_if_scopes) Reference.host
    = Ok (Some (7, acpi_exec_pop_stack (with_scopes while_if_break while_if_scopes) 2),
          Reference.host).
Proof.
  assert (Hreach : forall body,
             reaches_opcode Reference.env body 7 6 (with_scopes body while_if_scopes)
                            Reference.host 0).
  { intros body. exists (LAI_COND_STACKITEM 1 7).
    split; [reflexivity|]. split; [reflexivity | lia]. }
  assert (Hnear : forall body,
             nearest is_loop (with_scopes body while_if_scopes) 1 (LAI_LOOP_STACKITEM 2 7)).
  { intros body. split; [cbn; lia|]. split; [reflexivity|]. split; [reflexivity|].
    intros k Hk. assert (k = 0) by lia. subst k.
    exists (LAI_COND_STACKITEM 1 7). split; reflexivity. }
  split.
  - destruct (continue_break_unwind Reference.env 0 while_if_continue 7 6 _ _ 0
                (Hreach while_if_continue)) as [Hcontinue _].
    destruct (Hcontinue eq_refl eq_refl) as [Hloop _].
    destruct (Hloop 1 2 7 (Hnear while_if_continue)) as [Hstep _]. exact Hstep.
  - destruct (continue_break_unwind Reference.env 0 while_if_break 7 6 _ _ 0
                (Hreach while_if_break)) as [_ Hbreak].
    destruct (Hbreak eq_refl eq_refl) as [Hloop _].
    destruct (Hloop 1 2 7 (Hnear while_if_break)) as [Hstep _]. exact Hstep.
Defined.

(** C8, as amended: a successful CONTINUE leaves the nearest Loop scope as
    the new top of the execution stack, with the instruction pointer at its
    predicate; a successful BREAK removes the nearest Loop scope and the
    scopes above it, so the new top is the scope that was directly below
    that Loop (or the stack is empty). *)
Theorem continue_break_new_top {W : Type} (env : collaborators W) (fuel : nat)
    (method : list Z) (size i : Z) (st : acpi_state_t) (h : host_t W) (want : Z)
    (i' : Z) (st' : acpi_state_t) (h' : host_t W) :
  reaches_opcode env method size i st h want ->
  acpi_exec_step env fuel method size i st h = Ok (Some (i', st'), h') ->
  (at_index method i = Some CONTINUE_OP -> acpi_is_name env CONTINUE_OP = false ->
   exists j loop_pred loop_end,
     nearest is_loop st j (LAI_LOOP_STACKITEM loop_pred loop_end) /\
     i' = loop_pred /\ stack st' = stack st /\ stack_ptr st' = stack_ptr st - j /\
     scope_at st' 0 = Some (LAI_LOOP_STACKITEM loop_pred loop_end) /\
     forall k, 0 <= k -> scope_at st' k = scope_at st (j + k)) /\
  (at_index method i = Some BREAK_OP -> acpi_is_name env BREAK_OP = false ->
   exists j loop_pred loop_end,
     nearest is_loop st j (LAI_LOOP_STACKITEM loop_pred loop_end) /\
     i' = loop_end /\ stack st' = stack st /\ stack_ptr st' = stack_ptr st - j - 1 /\
     forall k, 0 <= k -> scope_at st' k = scope_at st (j + 1 + k)).
Proof.
  intros Hreach Hstep. split; intros Hb Hname.
  - rewrite (step_continue env fuel _ _ _ _ _ _ Hreach Hb Hname), dispatch_continue in Hstep.
    apply bind_Ok_inv in Hstep. destruct Hstep as ([i1 st1] & h1 & Hdisp & Hret).
    injection Hret as <- <- <-.
    apply bind_Ok_inv in Hdisp. destruct Hdisp as ([j item] & h2 & Hfind & Hret).
    apply find_stackitem_Ok in Hfind. destruct Hfind as (-> & Hj & Hat & Hw & Habove).
    destruct item as [| |? ? ? ?|p e|? ?]; try discriminate Hw.
    injection Hret as <- <- <-.
    exists j, p, e. split; [|split; [|split; [|split; [|split]]]].
    + split; [lia|]. split; [exact Hat|]. split; [reflexivity | exact Habove].
    + reflexivity.
    + reflexivity.
    + reflexivity.
    + unfold scope_at in *. cbn. rewrite Z.sub_0_r. exact Hat.
    + intros k Hk. unfold scope_at. cbn. f_equal. lia.
  - rewrite (step_break env fuel _ _ _ _ _ _ Hreach Hb Hname), dispatch_break in Hstep.
    apply bind_Ok_inv in Hstep. destruct Hstep as ([i1 st1] & h1 & Hdisp & Hret).
    injection Hret as <- <- <-.
    apply bind_Ok_inv in Hdisp. destruct Hdisp as ([j item] & h2 & Hfind & Hret).
    apply find_stackitem_Ok in Hfind. destruct Hfind as (-> & Hj & Hat & Hw & Habove).
    destruct item as [| |? ? ? ?|p e|? ?]; try discriminate Hw.
    injection Hret as <- <- <-.
    exists j, p, e. split; [|split; [|split; [|split]]].
    + split; [lia|]. split; [exact Hat|]. split; [reflexivity | exact Habove].
    + reflexivity.
    + reflexivity.
    + cbn. lia.
    + intros k Hk. unfold scope_at. cbn. f_equal. lia.
Qed.

Lemma continue_break_new_top_witness :
  scope_at (acpi_exec_pop_stack (with_scopes while_if_continue while_if_scopes) 1) 0
    = Some (LAI_LOOP_STACKITEM 2 7) /\
  scope_at (acpi_exec_pop_stack (with_scopes while_if_break while_if_scopes) 2) 0
    = Some LAI_METHOD_CONTEXT_STACKITEM.
Proof.
  assert (Hreach : forall body,
             reaches_opcode Reference.env body 7 6 (with_scopes body while_if_scopes)
                            Reference.host 0).
  { intros body. exists (LAI_COND_STACKITEM 1 7).
    split; [reflexivity|]. split; [reflexivity | lia]. }
  split.
  - destruct (continue_break_new_top Reference.env 0 while_if_continue 7 6 _ _ 0
                2 (acpi_exec_pop_stack (with_scopes while_if_continue while_if_scopes) 1)
                Reference.host (Hreach while_if_continue) eq_refl) as [Hcontinue _].
    destruct (Hcontinue eq_refl eq_refl) as (j & p & e & _ & _ & _ & _ & Htop & _).
    rewrite Htop. vm_compute in Htop. injection Htop as <- <-. reflexivity.
  - destruct (continue_break_new_top Reference.env 0 while_if_break 7 6 _ _ 0
                7 (acpi_exec_pop_stack (with_scopes while_if_break while_if_scopes) 2)
                Reference.host (Hreach while_if_break) eq_refl) as [_ Hbreak].
    destruct (Hbreak eq_refl eq_refl) as (j & p & e & _ & _ & _ & _ & Hbelow).
    reflexivity.
Defined.

(** C8, as stated, fails for BREAK: in [While (One) { Break }] the iteration
    that executes BREAK is reached from method entry in two iterations, it
    succeeds, and the new top of the execution stack is the method context,
    not a Loop. *)
Lemma break_leaves_no_loop_on_top :
  let body := [0xA2; 0x03; 0x01; 0xA5] in
  exists st st',
    acpi_exec_steps Reference.env 0 2 body 4 0 (entered_state body) Reference.host
      = Ok (Some (3, st), Reference.host) /\
    at_index body 3 = Some BREAK_OP /\
    scope_at st 0 = Some (LAI_LOOP_STACKITEM 2 4) /\
    acpi_exec_step Reference.env 0 body 4 3 st Reference.host
      = Ok (Some (4, st'), Reference.host) /\
    scope_at st' 0 = Some LAI_METHOD_CONTEXT_STACKITEM /\
    (forall loop_pred loop_end,
       scope_at st' 0 <> Some (LAI_LOOP_STACKITEM loop_pred loop_end)).
Proof.
  intros body.
  eexists. eexists.
  split; [vm_compute; reflexivity|].
  split; [reflexivity|].
  split; [reflexivity|].
  split; [vm_compute; reflexivity|].
  split; [reflexivity|].
  intros p e Habs. vm_compute in Habs. discriminate Habs.
Qed.

(** ** The extended-opcode prefix *)

(** C10: an iteration that reaches the opcode switch at the extended-opcode
    prefix 0x5B in the last byte of the body ([i + 1 = size]) panics; it does
    not read the byte after the body. *)
Theorem extop_prefix_on_boundary {W : Type} (env : collaborators W) (fuel : nat)
    (method : list Z) (size i : Z) (st : acpi_state_t) (h : host_t W) (want : Z) :
  reaches_opcode env method size i st h want ->
  at_index method i = Some EXTOP_PREFIX ->
  i + 1 = size ->
  acpi_is_name env EXTOP_PREFIX = false ->
  acpi_exec_step env fuel method size i st h = Panic "two-byte opcode on method boundary".
Proof.
  intros Hreach Hb Hlast Hname. unfold acpi_exec_step.
  rewrite (run_iter_opcode env _ _ _ _ _ _ _ _ Hreach Hb Hname).
  unfold bind, fetch_opcode.
  rewrite Z.eqb_refl. replace (i + 1 =? size) with true by (symmetry; apply Z.eqb_eq; lia).
  reflexivity.
Qed.

Lemma extop_prefix_on_boundary_witness :
  at_index [0x5B] 1 = None /\
  acpi_exec_step Reference.env 0 [0x5B] 1 0 (entered_state [0x5B]) Reference.host
    = Panic "two-byte opcode on method boundary".
Proof.
  split; [reflexivity|].
  apply (extop_prefix_on_boundary Reference.env 0 [0x5B] 1 0 _ _ 0).
  - exists LAI_METHOD_CONTEXT_STACKITEM. split; [reflexivity|]. split; [reflexivity | lia].
  - reflexivity.
  - reflexivity.
  - reflexivity.
Defined.

(** ** A conditional that was not taken *)

(** C3, as amended: an iteration whose top scope is a Cond that was not taken,
    with an Else opcode at the instruction pointer, parses the package length
    of the Else and sets the instruction pointer just past the Else opcode
    and the [n] bytes of its package-length encoding, that is to the first
    byte of the Else body, which is executed next; then it pops the Cond
    scope. *)
Theorem cond_not_taken_enters_else {W : Type} (env : collaborators W) (fuel : nat)
    (method : list Z) (size i : Z) (st : acpi_state_t) (h h1 : host_t W)
    (cond_end n else_size : Z) :
  acpi_exec_peek_stack_back st h = Ok (Some (LAI_COND_STACKITEM 0 cond_end), h) ->
  at_index method i = Some ELSE_OP ->
  acpi_parse_pkgsize env method (i + 1) h = Ok ((n, else_size), h1) ->
  acpi_exec_step env fuel method size i st h
    = Ok (Some (i + 1 + n, acpi_exec_pop_stack_back st), h1).
Proof.
  intros Hpeek Hb Hpkg. unfold acpi_exec_step, acpi_exec_run_iter.
  rewrite (bind_Ok _ _ _ _ _ Hpeek).
  unfold scope_prologue. cbn [truthy Z.eqb negb].
  unfold bind, defined. rewrite Hb. unfold ret at 1.
  rewrite Z.eqb_refl. rewrite Hpkg. reflexivity.
Qed.

Lemma cond_not_taken_enters_else_witness :
  acpi_exec_step Reference.env 0 if_else_body 10 5
      (with_scopes if_else_body if_else_scopes) Reference.host
    = Ok (Some (7, acpi_exec_pop_stack_back (with_scopes if_else_body if_else_scopes)),
          Reference.host).
Proof.
  apply (cond_not_taken_enters_else Reference.env 0 if_else_body 10 5 _ _ _ 5 1 4);
    reflexivity.
Defined.

(** C3, as stated, fails: after the not-taken If of [if_else_body] (one
    iteration from method entry), the Else at offset 5 has package length 4,
    so its body ends at offset 10; the iteration that finalizes the Cond
    leaves the instruction pointer at 7, inside the Else, and the next
    iteration executes the Return of the Else body. *)
Lemma else_body_is_not_skipped :
  exists st st' st'',
    acpi_exec_steps Reference.env 0 1 if_else_body 10 0 (entered_state if_else_body)
        Reference.host = Ok (Some (5, st), Reference.host) /\
    scope_at st 0 = Some (LAI_COND_STACKITEM 0 5) /\
    at_index if_else_body 5 = Some ELSE_OP /\
    Reference.parse_pkgsize if_else_body 6 Reference.host = Ok ((1, 4), Reference.host) /\
    acpi_exec_step Reference.env 0 if_else_body 10 5 st Reference.host
      = Ok (Some (7, st'), Reference.host) /\
    7 <> 6 + 4 /\
    stack_ptr st' = stack_ptr st - 1 /\
    acpi_exec_step Reference.env 0 if_else_body 10 7 st' Reference.host
      = Ok (Some (10, st''), Reference.host) /\
    at_index (opstack st'') 0 = Some (integer_result zero_object 2).
Proof.
  do 3 eexists.
  split; [vm_compute; reflexivity|].
  split; [reflexivity|].
  split; [reflexivity|].
  split; [reflexivity|].
  split; [vm_compute; reflexivity|].
  split; [lia|].
  split; [reflexivity|].
  split; [vm_compute; reflexivity|].
  reflexivity.
Qed.

(** ** Noop *)

Section Nop.
Context {W : Type} (env : collaborators W).

(** What an iteration that dispatches NOP does: the instruction pointer
    advances by two, and a zero is pushed when a result is wanted. *)
Lemma step_nop (fuel : nat) (method : list Z) (size i : Z) (st : acpi_state_t)
    (h : host_t W) (want : Z) :
  reaches_opcode env method size i st h want ->
  at_index method i = Some NOP_OP ->
  acpi_is_name env NOP_OP = false ->
  acpi_exec_step env fuel method size i st h =
  bind (push_integer_if_wanted want st 0) (fun st1 => ret (Some (i + 2, st1))) h.
Proof.
  intros Hreach Hb Hname. unfold acpi_exec_step.
  rewrite (run_iter_opcode env _ _ _ _ _ _ _ _ Hreach Hb Hname).
  unfold bind at 1 2. rewrite fetch_single_byte by reflexivity.
  rewrite dispatch_nop. unfold bind.
  destruct (push_integer_if_wanted want st 0 h) as [[st1 h1]| | |]; try reflexivity.
  unfold ret. do 3 f_equal. f_equal. lia.
Qed.
End Nop.

(** C1 fails on the code: the NOP case has no [break] and runs on into the
    ZERO case. In [Noop; Return (42)] the iteration that dispatches NOP
    leaves the instruction pointer at 2, not 1, and the method returns 0
    instead of 42; where a result is wanted (an operator waits for its
    operand) the iteration pushes the Integer 0 onto the operand stack. *)
Lemma nop_falls_through_into_zero :
  let body := [0xA3; 0xA4; 0x0A; 0x2A] in
  let pending := with_scopes [0x80; 0xA3; 0x00; 0x00]
                   [LAI_METHOD_CONTEXT_STACKITEM; LAI_OP_STACKITEM NOT_OP 0 1 0] in
  acpi_exec_step Reference.env 0 body 4 0 (entered_state body) Reference.host
    = Ok (Some (2, entered_state body), Reference.host) /\
  Reference.run_method 4 "\_SB_.TEST" body = Ok (integer_result zero_object 0) /\
  Reference.run_method 4 "\_SB_.TEST" [0xA4; 0x0A; 0x2A] = Ok (integer_result zero_object 42) /\
  exists st',
    acpi_exec_step Reference.env 0 [0x80; 0xA3; 0x00; 0x00] 4 1 pending Reference.host
      = Ok (Some (3, st'), Reference.host) /\
    opstack_ptr pending = 0 /\ opstack_ptr st' = 1 /\
    at_index (opstack st') 0 = Some (integer_result zero_object 0).
Proof.
  intros body pending.
  split; [vm_compute; reflexivity|].
  split; [vm_compute; reflexivity|].
  split; [vm_compute; reflexivity|].
  eexists. split; [vm_compute; reflexivity|].
  split; [reflexivity|]. split; reflexivity.
Qed.

(** ** Method entry: running a body *)




(** C2: executing the zero-argument method whose body is
    [If (Zero) { Return (One) } Else { Return (2) }] succeeds with [retvalue]
    the Integer 2, for collaborators that decode the constants of the body:
    the predicate is zero, so the Else body is executed. *)
Theorem if_zero_runs_else {W : Type} (env : collaborators W) (p : String.string)
    (fuel : nat) (h : host_t W) :
  not_reserved p ->
  decodes_if_else env ->
  (4 <= fuel)%nat ->
  exists st',
    acpi_exec_method env fuel
      (fresh_call_state (Reference.method_node p if_else_body) (replicate 7 zero_object)) h
      = Ok ((0, st'), h) /\
    retvalue st' = integer_result zero_object 2.
Proof.
  intros Hpath (Hif & Hret & Hpkg1 & Hzero & Hpkg2 & Htwo) Hfuel.
  destruct fuel as [|[|[|[|fuel]]]]; try lia.
  unfold acpi_exec_method. rewrite exec_method_fresh by exact Hpath.
  unfold bind at 1. unfold acpi_exec_run.
  change (pointer (Reference.method_node p if_else_body)) with if_else_body.
  change (size (Reference.method_node p if_else_body)) with 10.
  erewrite run_loop_step.
  2:{ unfold acpi_exec_step.
      erewrite run_iter_opcode with (b := IF_OP) (want_exec_result := 0);
        [| exists LAI_METHOD_CONTEXT_STACKITEM; split; [reflexivity|];
           split; [reflexivity | lia]
         | reflexivity | exact Hif].
      unfold bind at 1 2. rewrite fetch_single_byte by reflexivity.
      rewrite dispatch_if. unfold bind at 1 2. cbn [Z.add Pos.add Pos.succ].
      rewrite Hpkg1. cbv beta iota. cbn [Z.add Pos.add Pos.succ]. rewrite Hzero.
      vm_compute. reflexivity. }
  erewrite run_loop_step.
  2:{ eapply step_cond_not_taken_else with (cond_end := 5);
        [reflexivity | reflexivity | apply Hpkg2]. }
  cbn [Z.add Pos.add Pos.succ].
  erewrite run_loop_step.
  2:{ unfold acpi_exec_step.
      erewrite run_iter_opcode with (b := RETURN_OP) (want_exec_result := 0);
        [| exists LAI_METHOD_CONTEXT_STACKITEM; split; [reflexivity|];
           split; [reflexivity | lia]
         | reflexivity | exact Hret].
      unfold bind at 1 2. rewrite fetch_single_byte by reflexivity.
      rewrite dispatch_return. unfold bind at 1 2. cbn [Z.add Pos.add Pos.succ].
      rewrite Htwo. vm_compute. reflexivity. }
  erewrite run_loop_done; [|vm_compute; reflexivity].
  eexists. split; [vm_compute; reflexivity | reflexivity].
Qed.

Lemma if_zero_runs_else_witness :
  Reference.run_method 4 "\_SB_.TEST" if_else_body = Ok (integer_result zero_object 2).
Proof.
  destruct (if_zero_runs_else Reference.env "\_SB_.TEST" 4 Reference.host)
    as (st' & Hrun & Hret).
  - repeat split; discriminate.
  - repeat split; intros; reflexivity.
  - lia.
  - unfold Reference.run_method.
    change (Reference.call_state "\_SB_.TEST" if_else_body)
      with (fresh_call_state (Reference.method_node "\_SB_.TEST" if_else_body)
              (replicate 7 zero_object)).
    rewrite Hrun, Hret. reflexivity.
Defined.

(** ** The bounds of the stack pointers *)

Tactic Notation "inv_bind" hyp(H) "as" simple_intropattern(pat) ident(Hm) :=
  let h1 := fresh "h" in
  apply bind_Ok_inv in H; destruct H as (pat & h1 & Hm & H).

Section Bounds.
Context {W : Type} (env : collaborators W).
Hypothesis Hkeep : collaborators_keep_pointers env.

Lemma ret_Ok_inv {A : Type} (a : A) (h : host_t W) (r : A * host_t W) :
  ret a h = Ok r -> r = (a, h).
Proof. unfold ret. intros [= <-]. reflexivity. Qed.

Lemma defined_Ok_inv {A : Type} (o : option A) (h h' : host_t W) (a : A) :
  defined o h = Ok (a, h') -> o = Some a /\ h' = h.
Proof.
  unfold defined. destruct o as [x|]; [|discriminate].
  unfold ret. intros [= <- <-]. split; reflexivity.
Qed.

Lemma store_index_Some {A : Type} (l l' : list A) (n : Z) (x : A) :
  store_index l n x = Some l' -> 0 <= n < Z.of_nat (length l).
Proof.
  unfold store_index.
  destruct ((n <? 0) || (Z.of_nat (length l) <=? n)) eqn:E; [discriminate|].
  intros _. apply orb_false_iff in E. destruct E as [E1 E2].
  apply Z.ltb_ge in E1. apply Z.leb_gt in E2. lia.
Qed.

Lemma push_opstack_Ok (st st' : acpi_state_t) (k : Z) (h h' : host_t W) :
  acpi_exec_push_opstack_or_die st h = Ok ((k, st'), h') ->
  0 <= opstack_ptr st /\ opstack_ptr st <> 16 /\
  opstack_ptr st' = opstack_ptr st + 1 /\ stack_ptr st' = stack_ptr st.
Proof.
  unfold acpi_exec_push_opstack_or_die.
  destruct (opstack_ptr st =? 16) eqn:E; [discriminate|].
  apply Z.eqb_neq in E. intros H.
  apply bind_Ok_inv in H. destruct H as (l & h1 & Hl & H).
  apply defined_Ok_inv in Hl. destruct Hl as [Hl ->].
  apply store_index_Some in Hl.
  apply ret_Ok_inv in H. inversion H; subst; clear H.
  cbn. repeat split; try lia; assumption.
Qed.

Lemma pop_opstack_Ok (st st' : acpi_state_t) (n : Z) (h h' : host_t W) :
  acpi_exec_pop_opstack env st n h = Ok (st', h') ->
  opstack_ptr st' = opstack_ptr st - n /\ stack_ptr st' = stack_ptr st.
Proof.
  unfold acpi_exec_pop_opstack. intros H.
  apply bind_Ok_inv in H. destruct H as (l & h1 & Hl & H).
  apply ret_Ok_inv in H. inversion H; subst; clear H. split; reflexivity.
Qed.

Lemma push_stack_Ok (st st' : acpi_state_t) (k : Z) (h h' : host_t W) :
  acpi_exec_push_stack_or_die st h = Ok ((k, st'), h') ->
  stack_ptr st + 1 <> 16 /\
  stack_ptr st' = stack_ptr st + 1 /\ opstack_ptr st' = opstack_ptr st.
Proof.
  unfold acpi_exec_push_stack_or_die. cbn [stack_ptr set_stack_ptr].
  destruct (stack_ptr st + 1 =? 16) eqn:E; [discriminate|].
  apply Z.eqb_neq in E. intros H.
  apply ret_Ok_inv in H. inversion H; subst; clear H.
  repeat split; assumption.
Qed.

Lemma fill_stackitem_Ok (st st' : acpi_state_t) (slot : Z) (item : acpi_stackitem_t)
    (h h' : host_t W) :
  fill_stackitem st slot item h = Ok (st', h') -> same_pointers st st'.
Proof.
  unfold fill_stackitem. intros H.
  apply bind_Ok_inv in H. destruct H as (l & h1 & Hl & H).
  apply ret_Ok_inv in H. inversion H; subst; clear H. split; reflexivity.
Qed.

Lemma push_integer_if_wanted_Ok (want : Z) (st st' : acpi_state_t) (v : Z)
    (h h' : host_t W) :
  stack_bounds st ->
  push_integer_if_wanted want st v h = Ok (st', h') -> stack_bounds st'.
Proof.
  unfold push_integer_if_wanted, stack_bounds. intros Hb H.
  destruct (truthy want).
  - apply bind_Ok_inv in H. destruct H as ([k st1] & h1 & Hpush & H).
    apply push_opstack_Ok in Hpush. apply ret_Ok_inv in H. inversion H; subst; clear H.
    cbn. lia.
  - apply ret_Ok_inv in H. inversion H; subst; clear H. exact Hb.
Qed.

Lemma push_copy_if_wanted_Ok (want : Z) (st st' : acpi_state_t)
    (slots : list acpi_object_t) (n : Z) (h h' : host_t W) :
  stack_bounds st ->
  push_copy_if_wanted want st slots n h = Ok (st', h') -> stack_bounds st'.
Proof.
  unfold push_copy_if_wanted, stack_bounds. intros Hb H.
  destruct (truthy want).
  - apply bind_Ok_inv in H. destruct H as ([k st1] & h1 & Hpush & H).
    apply push_opstack_Ok in Hpush.
    apply bind_Ok_inv in H. destruct H as (src & h2 & _ & H).
    apply ret_Ok_inv in H. inversion H; subst; clear H.
    cbn. lia.
  - apply ret_Ok_inv in H. inversion H; subst; clear H. exact Hb.
Qed.

Lemma push_op_Ok (st st' : acpi_state_t) (b n want : Z) (h h' : host_t W) :
  stack_bounds st ->
  push_op st b n want h = Ok (st', h') -> stack_bounds st'.
Proof.
  unfold push_op, stack_bounds. intros Hb H.
  apply bind_Ok_inv in H. destruct H as ([k st1] & h1 & Hpush & H).
  apply push_stack_Ok in Hpush. apply fill_stackitem_Ok in H.
  destruct H as [H1 H2]. lia.
Qed.

Ltac inv_ret H := apply ret_Ok_inv in H; inversion H; subst; clear H.

Lemma eval_object_keeps (st st' : acpi_state_t) (method : list Z) (i n : Z)
    (o : acpi_object_t) (h h' : host_t W) :
  acpi_eval_object env st method i h = Ok ((n, o, st'), h') -> same_pointers st st'.
Proof. destruct Hkeep as (He & _). apply He. Qed.

Lemma write_object_keeps (st st' : acpi_state_t) (method : list Z) (i n : Z)
    (o : acpi_object_t) (h h' : host_t W) :
  acpi_write_object env method i o st h = Ok ((n, st'), h') -> same_pointers st st'.
Proof. destruct Hkeep as (_ & Hw & _). apply Hw. Qed.

Lemma exec_sleep_keeps (st st' : acpi_state_t) (data : list Z) (i n : Z)
    (h h' : host_t W) :
  acpi_exec_sleep env data i st h = Ok ((n, st'), h') -> same_pointers st st'.
Proof.
  unfold acpi_exec_sleep. intros H.
  inv_bind H as [[m time] st1] Heval. apply eval_object_keeps in Heval.
  inv_bind H as u Hsleep. inv_ret H. exact Heval.
Qed.

Lemma eval_arguments_keeps (count : nat) :
  forall (current_argc : Z) (data : list Z) (p return_size : Z)
         (state old_state : acpi_state_t) (h : host_t W)
         (r : Z) (state' old_state' : acpi_state_t) (h' : host_t W),
    eval_arguments env count current_argc data p return_size state old_state h
      = Ok ((r, state', old_state'), h') ->
    same_pointers old_state old_state'.
Proof.
  induction count as [|count IH]; intros cur data p rs state old h r state' old' h' H;
    cbn [eval_arguments] in H.
  - inv_ret H. split; reflexivity.
  - inv_bind H as [[arg_size o] old1] Heval. apply eval_object_keeps in Heval.
    inv_bind H as args Hargs. apply IH in H. destruct Heval, H. split; congruence.
Qed.

Lemma methodinvoke_keeps
    (exec_method : acpi_state_t -> M W (Z * acpi_state_t))
    (data : list Z) (i : Z) (old_state : acpi_state_t) (method_return : acpi_object_t)
    (h : host_t W) (n : Z) (old_state' : acpi_state_t) (r : acpi_object_t)
    (h' : host_t W) :
  acpi_methodinvoke env exec_method data i old_state method_return h
    = Ok ((n, old_state', r), h') ->
  same_pointers old_state old_state'.
Proof.
  unfold acpi_methodinvoke. intros H.
  inv_bind H as [name_size path0] Hpath.
  inv_bind H as [method|] Hres; [|discriminate H].
  inv_bind H as [[rs state] old1] Hargs. apply eval_arguments_keeps in Hargs.
  inv_bind H as [status state2] Hexec.
  inv_ret H. exact Hargs.
Qed.

(** The scope-specific part of an iteration keeps the bounds. *)
Lemma scope_prologue_bounds (method : list Z) (size i : Z) (st : acpi_state_t)
    (item : acpi_stackitem_t) (h h' : host_t W) (i' : Z) (st' : acpi_state_t) :
  stack_bounds st -> 0 <= stack_ptr st ->
  scope_prologue env method size i st item h = Ok (Continue i' st', h') ->
  stack_bounds st'.
Proof.
  unfold stack_bounds. intros Hb Htop H.
  destruct item as [| |c b n w|lp le|ct ce]; cbn [scope_prologue] in H.
  - discriminate H.
  - destruct (i =? size); [|discriminate H].
    destruct (truthy (opstack_ptr st)); [discriminate H|].
    inv_bind H as [k st1] Hpush. apply push_opstack_Ok in Hpush.
    inv_ret H. cbn. lia.
  - destruct (opstack_ptr st =? b + n) eqn:E; [|discriminate H].
    apply Z.eqb_eq in E.
    inv_bind H as operands Hget. unfold acpi_exec_get_opstack in Hget.
    destruct (b >=? opstack_ptr st) eqn:Ege; [discriminate Hget|].
    inv_ret Hget. rewrite Z.geb_leb in Ege. apply Z.leb_gt in Ege.
    destruct (b <? 0) eqn:Eneg; [discriminate H|]. apply Z.ltb_ge in Eneg.
    inv_bind H as [operands' result] Hreduce.
    inv_bind H as st2 Hpop. apply pop_opstack_Ok in Hpop. cbn in Hpop.
    inv_bind H as st3 Hres.
    assert (Hst3 : 0 <= opstack_ptr st3 <= 16 /\ stack_ptr st3 = stack_ptr st2).
    { destruct (truthy w).
      - inv_bind Hres as [k s] Hpush. apply push_opstack_Ok in Hpush.
        inv_ret Hres. cbn. lia.
      - inv_ret Hres. lia. }
    inv_bind H as [m st4] Hwrite. apply write_object_keeps in Hwrite.
    destruct Hwrite as [H1 H2]. inv_ret H. cbn. lia.
  - destruct (i =? lp).
    + inv_bind H as [[m predicate] st1] Heval. apply eval_object_keeps in Heval.
      destruct Heval as [H1 H2].
      destruct (negb (truthy (integer predicate))); inv_ret H; cbn; lia.
    + destruct (i =? le); [inv_ret H; lia|].
      destruct (i >? le); discriminate H.
  - destruct (negb (truthy ct)).
    + inv_bind H as b Hb0. inv_bind H as i1 Hi1. inv_ret H. cbn. lia.
    + destruct (i =? ce); [|discriminate H].
      inv_bind H as b Hb0. inv_bind H as i1 Hi1. inv_ret H. cbn. lia.
Qed.

Lemma same_pointers_bounds (st st' : acpi_state_t) :
  same_pointers st st' -> stack_bounds st -> stack_bounds st'.
Proof. unfold same_pointers, stack_bounds. intros [H1 H2] Hb. lia. Qed.

Lemma handler_bounds (f : list Z -> Z -> acpi_state_t -> M W (Z * acpi_state_t))
    (method : list Z) (i : Z) (st : acpi_state_t) (h h' : host_t W)
    (r : Z * acpi_state_t) :
  handler_keeps_pointers f -> stack_bounds st ->
  bind (f method i st) (fun x => let '(n, st1) := x in ret (i + n, st1)) h = Ok (r, h') ->
  stack_bounds (snd r).
Proof.
  intros Hf Hb H. inv_bind H as [n st1] Hcall. apply Hf in Hcall.
  inv_ret H. cbn. exact (same_pointers_bounds _ _ Hcall Hb).
Qed.

(** The opcode switch keeps the bounds. *)
Lemma dispatch_opcode_bounds (method : list Z) (i : Z) (st : acpi_state_t)
    (want b opcode : Z) (h h' : host_t W) (i' : Z) (st' : acpi_state_t) :
  stack_bounds st ->
  dispatch_opcode env method i st want b opcode h = Ok ((i', st'), h') ->
  stack_bounds st'.
Proof.
  intros Hb H.
  destruct Hkeep as (He & Hw & Hname & Hbyte & Hword & Hdword & Hinc & Hdec & Hdiv).
  unfold dispatch_opcode in H.
  destruct (opcode =? NOP_OP).
  { inv_bind H as st1 Hpush. inv_ret H.
    exact (push_integer_if_wanted_Ok _ _ _ _ _ _ Hb Hpush). }
  destruct (opcode =? ZERO_OP).
  { inv_bind H as st1 Hpush. inv_ret H.
    exact (push_integer_if_wanted_Ok _ _ _ _ _ _ Hb Hpush). }
  destruct (opcode =? ONE_OP).
  { inv_bind H as st1 Hpush. inv_ret H.
    exact (push_integer_if_wanted_Ok _ _ _ _ _ _ Hb Hpush). }
  destruct (opcode =? ONES_OP).
  { inv_bind H as st1 Hpush. inv_ret H.
    exact (push_integer_if_wanted_Ok _ _ _ _ _ _ Hb Hpush). }
  destruct ((opcode =? BYTEPREFIX) || (opcode =? WORDPREFIX)
            || (opcode =? DWORDPREFIX) || (opcode =? QWORDPREFIX)).
  { inv_bind H as [integer_size v] Hint.
    destruct (negb (truthy integer_size)); [discriminate H|].
    inv_bind H as st1 Hpush. inv_ret H.
    exact (push_integer_if_wanted_Ok _ _ _ _ _ _ Hb Hpush). }
  destruct (opcode =? PACKAGE_OP).
  { inv_bind H as [n0 encoded_size] Hpkg.
    inv_bind H as st1 Hpush. inv_ret H.
    destruct (truthy want).
    - inv_bind Hpush as [result s] Hp. apply push_opstack_Ok in Hp.
      inv_bind Hpush as [n entries] Hcreate. inv_ret Hpush.
      unfold stack_bounds in *. cbn. lia.
    - inv_ret Hpush. exact Hb. }
  destruct (opcode =? Z.lor (Z.shiftl EXTOP_PREFIX 8) SLEEP_OP).
  { inv_bind H as [n st1] Hsleep. apply exec_sleep_keeps in Hsleep.
    inv_ret H. exact (same_pointers_bounds _ _ Hsleep Hb). }
  destruct (opcode =? RETURN_OP).
  { inv_bind H as [[n result] st1] Heval. apply He in Heval.
    inv_bind H as [j item] Hfind. apply find_stackitem_Ok in Hfind.
    destruct Hfind as (-> & Hj & _).
    destruct (truthy (opstack_ptr st1)); [discriminate H|].
    inv_bind H as [opstack_res st2] Hpush. apply push_opstack_Ok in Hpush.
    inv_ret H. destruct Heval as [H1 H2].
    unfold stack_bounds in *. cbn. lia. }
  destruct (opcode =? WHILE_OP).
  { inv_bind H as [n loop_size] Hpkg.
    inv_bind H as [loop_item st1] Hpush. apply push_stack_Ok in Hpush.
    inv_bind H as st2 Hfill. apply fill_stackitem_Ok in Hfill.
    inv_ret H. destruct Hfill as [H1 H2]. unfold stack_bounds in *. lia. }
  destruct (opcode =? CONTINUE_OP).
  { inv_bind H as [j item] Hfind. apply find_stackitem_Ok in Hfind.
    destruct Hfind as (-> & Hj & _).
    destruct item; try discriminate H. inv_ret H.
    unfold stack_bounds in *. cbn. lia. }
  destruct (opcode =? BREAK_OP).
  { inv_bind H as [j item] Hfind. apply find_stackitem_Ok in Hfind.
    destruct Hfind as (-> & Hj & _).
    destruct item; try discriminate H. inv_ret H.
    unfold stack_bounds in *. cbn. lia. }
  destruct (opcode =? IF_OP).
  { inv_bind H as [n if_size] Hpkg.
    inv_bind H as [[m predicate] st1] Heval. apply He in Heval.
    inv_bind H as [cond_item st2] Hpush. apply push_stack_Ok in Hpush.
    inv_bind H as st3 Hfill. apply fill_stackitem_Ok in Hfill.
    inv_ret H. destruct Heval as [H1 H2]. destruct Hfill as [H3 H4].
    unfold stack_bounds in *. lia. }
  destruct (opcode =? ELSE_OP); [discriminate H|].
  destruct (opcode =? NAME_OP).
  { exact (handler_bounds _ _ _ _ _ _ (i', st') Hname Hb H). }
  destruct (opcode =? BYTEFIELD_OP).
  { exact (handler_bounds _ _ _ _ _ _ (i', st') Hbyte Hb H). }
  destruct (opcode =? WORDFIELD_OP).
  { exact (handler_bounds _ _ _ _ _ _ (i', st') Hword Hb H). }
  destruct (opcode =? DWORDFIELD_OP).
  { exact (handler_bounds _ _ _ _ _ _ (i', st') Hdword Hb H). }
  match type of H with (if ?c then _ else _) _ = _ => destruct c end.
  { inv_bind H as st1 Hpush. inv_ret H.
    exact (push_copy_if_wanted_Ok _ _ _ _ _ _ _ Hb Hpush). }
  match type of H with (if ?c then _ else _) _ = _ => destruct c end.
  { inv_bind H as st1 Hpush. inv_ret H.
    exact (push_copy_if_wanted_Ok _ _ _ _ _ _ _ Hb Hpush). }
  match type of H with (if ?c then _ else _) _ = _ => destruct c end.
  { inv_bind H as st1 Hpush. inv_ret H.
    exact (push_op_Ok _ _ _ _ _ _ _ Hb Hpush). }
  match type of H with (if ?c then _ else _) _ = _ => destruct c end.
  { inv_bind H as st1 Hpush. inv_ret H.
    exact (push_op_Ok _ _ _ _ _ _ _ Hb Hpush). }
  destruct (opcode =? INCREMENT_OP).
  { exact (handler_bounds _ _ _ _ _ _ (i', st') Hinc Hb H). }
  destruct (opcode =? DECREMENT_OP).
  { exact (handler_bounds _ _ _ _ _ _ (i', st') Hdec Hb H). }
  destruct (opcode =? DIVIDE_OP).
  { exact (handler_bounds _ _ _ _ _ _ (i', st') Hdiv Hb H). }
  inv_bind H as u Hdebug.
  destruct (truthy want).
  - inv_bind H as [operand st1] Hpush. apply push_opstack_Ok in Hpush.
    inv_bind H as [[n o] st2] Heval. apply He in Heval.
    inv_ret H. destruct Heval as [H1 H2].
    unfold stack_bounds in *. cbn. lia.
  - inv_bind H as [[n o] st1] Heval. apply He in Heval.
    inv_ret H. exact (same_pointers_bounds _ _ Heval Hb).
Qed.

(** Names keep the bounds, when the method call does. *)
Lemma dispatch_name_bounds
    (invoke : list Z -> Z -> acpi_state_t -> acpi_object_t ->
              M W (Z * acpi_state_t * acpi_object_t))
    (method : list Z) (i : Z) (st : acpi_state_t) (want : Z) (h h' : host_t W)
    (i' : Z) (st' : acpi_state_t) :
  (forall m j s r h0 n s' r' h1,
     invoke m j s r h0 = Ok ((n, s', r'), h1) -> same_pointers s s') ->
  stack_bounds st ->
  dispatch_name env invoke method i st want h = Ok ((i', st'), h') ->
  stack_bounds st'.
Proof.
  intros Hinvoke Hb H. unfold dispatch_name in H.
  inv_bind H as [name_size name] Hpath.
  inv_bind H as [node|] Hres; [|discriminate H].
  inv_bind H as [[i1 result] st1] Hnode.
  assert (Hst1 : same_pointers st st1).
  { destruct (node_type node).
    - inv_ret Hnode. split; reflexivity.
    - inv_bind Hnode as [[n s] r] Hcall. apply Hinvoke in Hcall.
      inv_ret Hnode. exact Hcall.
    - inv_bind Hnode as r Hread. inv_ret Hnode. split; reflexivity.
    - inv_bind Hnode as r Hread. inv_ret Hnode. split; reflexivity.
    - discriminate Hnode. }
  inv_bind H as st2 Hpush. inv_ret H.
  pose proof (same_pointers_bounds _ _ Hst1 Hb) as Hb1.
  destruct (truthy want).
  - inv_bind Hpush as [opstack_res s] Hp. apply push_opstack_Ok in Hp.
    inv_ret Hpush. unfold stack_bounds in *. cbn. lia.
  - inv_ret Hpush. exact Hb1.
Qed.

(** One iteration keeps the bounds. *)
Lemma step_bounds (fuel : nat) (method : list Z) (size i : Z) (st : acpi_state_t)
    (h h' : host_t W) (i' : Z) (st' : acpi_state_t) :
  stack_bounds st ->
  acpi_exec_step env fuel method size i st h = Ok (Some (i', st'), h') ->
  stack_bounds st'.
Proof.
  intros Hb H. unfold acpi_exec_step, acpi_exec_run_iter in H.
  inv_bind H as top Hpeek. apply peek_stack_Ok in Hpeek. destruct Hpeek as [-> Htop].
  destruct top as [item|]; [|inv_ret H].
  destruct Htop as [Htop _].
  inv_bind H as p Hpro. destruct p as [i1 st1|want].
  - inv_ret H. apply (scope_prologue_bounds _ _ _ _ _ _ _ _ _ Hb ltac:(lia) Hpro).
  - inv_bind H as [i1 st1] Hdisp. inv_ret H. unfold dispatch in Hdisp.
    destruct (i >? size); [discriminate Hdisp|].
    inv_bind Hdisp as b Hbyte.
    destruct (acpi_is_name env b).
    + apply (dispatch_name_bounds _ _ _ _ _ _ _ _ _ (methodinvoke_keeps _) Hb Hdisp).
    + inv_bind Hdisp as opcode Hfetch.
      apply (dispatch_opcode_bounds _ _ _ _ _ _ _ _ _ _ Hb Hdisp).
Qed.

(** Any number of iterations keeps the bounds. *)
Lemma steps_bounds (fuel n : nat) (method : list Z) (size : Z) :
  forall (i : Z) (st : acpi_state_t) (h h' : host_t W) (i' : Z) (st' : acpi_state_t),
    stack_bounds st ->
    acpi_exec_steps env fuel n method size i st h = Ok (Some (i', st'), h') ->
    stack_bounds st'.
Proof.
  induction n as [|n IH]; intros i st h h' i' st' Hb H; cbn [acpi_exec_steps] in H.
  - inv_ret H. exact Hb.
  - inv_bind H as r Hstep. destruct r as [[i1 st1]|]; [|inv_ret H].
    apply (IH _ _ _ _ _ _ (step_bounds _ _ _ _ _ _ _ _ _ Hb Hstep) H).
Qed.

End Bounds.

Lemma reference_keeps_pointers : collaborators_keep_pointers Reference.env.
Proof.
  assert (Hunsupported : handler_keeps_pointers Reference.unsupported).
  { intros method i st h n st' h' H. discriminate H. }
  split; [|split; [|do 6 (split; [exact Hunsupported|]); exact Hunsupported]].
  - intros st method i h n o st' h' H. cbn [acpi_eval_object Reference.env] in H.
    unfold Reference.eval_object in H.
    inv_bind H as [m v] Hint.
    destruct (m =? 0); [discriminate H|].
    apply ret_Ok_inv in H. inversion H; subst. split; reflexivity.
  - intros method i o st h n st' h' H. cbn [acpi_write_object Reference.env] in H.
    unfold Reference.write_object in H.
    inv_bind H as b Hb.
    destruct (b =? ZERO_OP).
    { apply ret_Ok_inv in H. inversion H; subst. split; reflexivity. }
    destruct ((LOCAL0_OP <=? b) && (b <=? LOCAL7_OP)).
    { inv_bind H as l Hl. apply ret_Ok_inv in H. inversion H; subst. split; reflexivity. }
    destruct ((ARG0_OP <=? b) && (b <=? ARG6_OP)); [|discriminate H].
    inv_bind H as l Hl. apply ret_Ok_inv in H. inversion H; subst. split; reflexivity.
Qed.

(** C9: the dispatcher starts within the bounds [0 <= opstack_ptr <= 16] and
    [-1 <= stack_ptr <= 15], and any number of iterations from a state within
    the bounds ends within them, for collaborators that leave the two stack
    pointers alone; a push onto a full operand stack ([opstack_ptr = 16]) and
    a push onto a full execution stack (16 scopes, [stack_ptr = 15]) panic. *)
Theorem stack_depths_bounded {W : Type} (env : collaborators W) (fuel n : nat)
    (method : list Z) (size i : Z) (st : acpi_state_t) (h : host_t W) :
  collaborators_keep_pointers env ->
  (forall node args, stack_bounds (scoped_state node args [LAI_METHOD_CONTEXT_STACKITEM])) /\
  (stack_bounds st ->
   forall i' st' h',
     acpi_exec_steps env fuel n method size i st h = Ok (Some (i', st'), h') ->
     stack_bounds st') /\
  (opstack_ptr st = 16 ->
   acpi_exec_push_opstack_or_die st h = Panic "operand stack overflow") /\
  (stack_ptr st = 15 ->
   acpi_exec_push_stack_or_die st h = Panic "execution engine stack overflow").
Proof.
  intros Hkeep. split; [|split; [|split]].
  - intros node args. unfold stack_bounds. cbn. lia.
  - intros Hb i' st' h' H. exact (steps_bounds env Hkeep _ _ _ _ _ _ _ _ _ _ Hb H).
  - intros Hfull. unfold acpi_exec_push_opstack_or_die. rewrite Hfull. reflexivity.
  - intros Hfull. unfold acpi_exec_push_stack_or_die. cbn [stack_ptr set_stack_ptr].
    rewrite Hfull. reflexivity.
Qed.

Lemma stack_depths_bounded_witness :
  exists i st,
    acpi_exec_steps Reference.env 0 3 if_else_body 10 0 (entered_state if_else_body)
      Reference.host = Ok (Some (i, st), Reference.host) /\
    stack_bounds st.
Proof.
  eexists. eexists. split; [vm_compute; reflexivity|].
  destruct (stack_depths_bounded Reference.env 0 3 if_else_body 10 0
              (entered_state if_else_body) Reference.host reference_keeps_pointers)
    as (Hentry & Hsteps & _).
  eapply Hsteps.
  - apply (Hentry (Reference.method_node "\_SB_.TEST" if_else_body)
                  (replicate 7 zero_object)).
  - vm_compute. reflexivity.
Defined.

(** * Further properties of exec.c *)

Ltac ok_inv H := apply ret_Ok_inv in H; inversion H; subst; clear H.

(** ** The two stacks as data structures *)

Section Arrays.
Context {A : Type}.

Lemma store_index_length (l l' : list A) (n : Z) (x : A) :
  store_index l n x = Some l' -> length l' = length l.
Proof.
  unfold store_index.
  destruct ((n <? 0) || (Z.of_nat (length l) <=? n)); [discriminate|].
  intros [= <-]. apply length_insert.
Qed.

Lemma at_index_store_eq (l l' : list A) (n : Z) (x : A) :
  store_index l n x = Some l' -> at_index l' n = Some x.
Proof.
  intros H. pose proof (store_index_Some _ _ _ _ H) as Hn.
  unfold store_index in H.
  destruct ((n <? 0) || (Z.of_nat (length l) <=? n)); [discriminate|].
  injection H as <-. unfold at_index.
  replace (n <? 0) with false by (symmetry; apply Z.ltb_ge; lia).
  apply list_lookup_insert_eq. lia.
Qed.

Lemma at_index_store_ne (l l' : list A) (n m : Z) (x : A) :
  store_index l n x = Some l' -> m <> n -> at_index l' m = at_index l m.
Proof.
  intros H Hne. pose proof (store_index_Some _ _ _ _ H) as Hn.
  unfold store_index in H.
  destruct ((n <? 0) || (Z.of_nat (length l) <=? n)); [discriminate|].
  injection H as <-. unfold at_index.
  destruct (m <? 0) eqn:E; [reflexivity|]. apply Z.ltb_ge in E.
  apply list_lookup_insert_ne. lia.
Qed.

Lemma at_index_Some_range (l : list A) (n : Z) (x : A) :
  at_index l n = Some x -> 0 <= n < Z.of_nat (length l).
Proof.
  unfold at_index. destruct (n <? 0) eqn:E; [discriminate|]. apply Z.ltb_ge in E.
  intros H. apply lookup_lt_Some in H. lia.
Qed.

Lemma store_index_in_range (l : list A) (n : Z) (x : A) :
  0 <= n < Z.of_nat (length l) -> exists l', store_index l n x = Some l'.
Proof.
  intros Hn. unfold store_index.
  replace (n <? 0) with false by (symmetry; apply Z.ltb_ge; lia).
  replace (Z.of_nat (length l) <=? n) with false by (symmetry; apply Z.leb_gt; lia).
  eexists. reflexivity.
Qed.

Lemma at_index_in_range (l : list A) (n : Z) :
  0 <= n < Z.of_nat (length l) -> exists x, at_index l n = Some x.
Proof.
  intros Hn. unfold at_index.
  replace (n <? 0) with false by (symmetry; apply Z.ltb_ge; lia).
  destruct (lookup_lt_is_Some_2 l (Z.to_nat n)) as [x Hx]; [lia|].
  exists x. exact Hx.
Qed.

End Arrays.

Section StackData.
Context {W : Type} (env : collaborators W).

(** Freeing [count] slots from [ptr - k - 1] downwards keeps the length of the
    array and every slot below them. *)
Lemma free_opstack_slots_below (count : nat) :
  forall (k ptr : Z) (l l' : list acpi_object_t),
    free_opstack_slots env count k ptr l = Some l' ->
    length l' = length l /\
    forall m, m < ptr - k - Z.of_nat count -> at_index l' m = at_index l m.
Proof.
  induction count as [|count IH]; intros k ptr l l' H; cbn [free_opstack_slots] in H.
  - injection H as <-. split; [reflexivity | intros; reflexivity].
  - destruct (at_index l (ptr - k - 1)) as [o|] eqn:Ho; [|discriminate H].
    destruct (store_index l (ptr - k - 1) (acpi_free_object env o)) as [l1|] eqn:Hs;
      [|discriminate H].
    apply IH in H. destruct H as [Hlen Hbelow].
    split.
    + rewrite Hlen. exact (store_index_length _ _ _ _ Hs).
    + intros m Hm. rewrite Hbelow by lia.
      apply (at_index_store_ne _ _ _ _ _ Hs). lia.
Qed.

(** Freeing succeeds when the slots exist. *)
Lemma free_opstack_slots_defined (count : nat) :
  forall (k ptr : Z) (l : list acpi_object_t),
    0 <= ptr - k - Z.of_nat count -> ptr - k <= Z.of_nat (length l) ->
    exists l', free_opstack_slots env count k ptr l = Some l'.
Proof.
  induction count as [|count IH]; intros k ptr l Hlo Hhi; cbn [free_opstack_slots].
  - eexists. reflexivity.
  - destruct (at_index_in_range l (ptr - k - 1)) as [o Ho]; [lia|]. rewrite Ho.
    destruct (store_index_in_range l (ptr - k - 1) (acpi_free_object env o)) as [l1 Hs];
      [lia|].
    rewrite Hs. apply IH; [lia|].
    rewrite (store_index_length _ _ _ _ Hs). lia.
Qed.

End StackData.

(** X1: a successful push onto the operand stack returns the slot at the old
    [opstack_ptr], zero-filled, and changes nothing else; popping [n >= 0]
    values moves [opstack_ptr] down by [n] and leaves every slot below the
    new [opstack_ptr] and the rest of the state as they were; so a pop of one
    value after a push restores the operand stack as the code can see it. *)
Theorem opstack_push_pop {W : Type} (env : collaborators W) (st : acpi_state_t)
    (h : host_t W) :
  (forall k st1 h1,
     acpi_exec_push_opstack_or_die st h = Ok ((k, st1), h1) ->
     h1 = h /\ k = opstack_ptr st /\ opstack_ptr st1 = opstack_ptr st + 1 /\
     at_index (opstack st1) k = Some zero_object /\
     (forall m, m <> k -> at_index (opstack st1) m = at_index (opstack st) m) /\
     same_outside_opstack st st1 /\
     exists st2,
       acpi_exec_pop_opstack env st1 1 h = Ok (st2, h) /\
       opstack_ptr st2 = opstack_ptr st /\
       (forall m, m < opstack_ptr st -> at_index (opstack st2) m = at_index (opstack st) m) /\
       same_outside_opstack st st2) /\
  (forall n st' h',
     0 <= n ->
     acpi_exec_pop_opstack env st n h = Ok (st', h') ->
     h' = h /\ opstack_ptr st' = opstack_ptr st - n /\
     length (opstack st') = length (opstack st) /\
     (forall m, m < opstack_ptr st - n -> at_index (opstack st') m = at_index (opstack st) m) /\
     same_outside_opstack st st').
Proof.
  split.
  - intros k st1 h1 H. unfold acpi_exec_push_opstack_or_die in H.
    destruct (opstack_ptr st =? 16); [discriminate H|].
    inv_bind H as l Hl. apply defined_Ok_inv in Hl. destruct Hl as [Hl ->].
    ok_inv H.
    pose proof (store_index_Some _ _ _ _ Hl) as Hrange.
    split; [reflexivity|]. split; [reflexivity|]. split; [reflexivity|].
    split; [exact (at_index_store_eq _ _ _ _ Hl)|].
    split; [intros m Hm; exact (at_index_store_ne _ _ _ _ _ Hl Hm)|].
    split; [repeat split|].
    destruct (free_opstack_slots_defined env 1 0 (opstack_ptr st + 1) l) as [l2 Hfree].
    { cbn. lia. }
    { rewrite (store_index_length _ _ _ _ Hl). lia. }
    exists (set_opstack_ptr
              (set_opstack (set_opstack_ptr (set_opstack st l) (opstack_ptr st + 1)) l2)
              (opstack_ptr st + 1 - 1)).
    split.
    { unfold acpi_exec_pop_opstack.
      cbn [opstack opstack_ptr set_opstack set_opstack_ptr].
      change (Z.to_nat 1) with 1%nat. unfold bind, defined.
      rewrite Hfree. reflexivity. }
    split; [cbn; lia|]. split; [|repeat split].
    intros m Hm. cbn [opstack set_opstack set_opstack_ptr].
    destruct (free_opstack_slots_below env 1 0 (opstack_ptr st + 1) l l2 Hfree)
      as [_ Hbelow].
    rewrite Hbelow by (cbn; lia).
    apply (at_index_store_ne _ _ _ _ _ Hl). lia.
  - intros n st' h' Hn H. unfold acpi_exec_pop_opstack in H.
    inv_bind H as l Hl. apply defined_Ok_inv in Hl. destruct Hl as [Hl ->].
    ok_inv H.
    destruct (free_opstack_slots_below env _ _ _ _ _ Hl) as [Hlen Hbelow].
    split; [reflexivity|]. split; [reflexivity|]. split; [exact Hlen|].
    split; [|repeat split].
    intros m Hm. cbn [opstack set_opstack set_opstack_ptr].
    apply Hbelow. rewrite Z2Nat.id by lia. lia.
Qed.

Lemma opstack_push_pop_witness :
  exists st2,
    acpi_exec_pop_opstack Reference.env
      (set_opstack_ptr (entered_state []) 1) 1 Reference.host = Ok (st2, Reference.host) /\
    opstack_ptr st2 = 0.
Proof.
  destruct (opstack_push_pop Reference.env (entered_state []) Reference.host)
    as [Hpush _].
  destruct (Hpush 0 (set_opstack_ptr (entered_state []) 1) Reference.host eq_refl)
    as (_ & _ & _ & _ & _ & _ & st2 & Hpop & Hptr & _).
  exists st2. split; [exact Hpop | exact Hptr].
Defined.

Section ScopeStack.
Context {W : Type}.

Lemma push_scope_Ok (st : acpi_state_t) (item : acpi_stackitem_t) (h : host_t W) :
  -1 <= stack_ptr st -> stack_ptr st + 1 < Z.of_nat (length (stack st)) ->
  stack_ptr st + 1 <> 16 ->
  exists l,
    store_index (stack st) (stack_ptr st + 1) item = Some l /\
    push_scope st item h
      = Ok (set_stack (set_stack_ptr st (stack_ptr st + 1)) l, h).
Proof.
  intros Hlo Hhi Hfull.
  destruct (store_index_in_range (stack st) (stack_ptr st + 1) item) as [l Hl]; [lia|].
  exists l. split; [exact Hl|].
  unfold push_scope, acpi_exec_push_stack_or_die, bind.
  cbn [stack_ptr set_stack_ptr].
  replace (stack_ptr st + 1 =? 16) with false by (symmetry; apply Z.eqb_neq; exact Hfull).
  unfold ret at 1. unfold fill_stackitem, bind, defined.
  cbn [stack set_stack_ptr]. rewrite Hl. reflexivity.
Qed.

End ScopeStack.

(** X2: pushing a scope onto an execution stack that is not full makes it the
    top: [peek_stack_back] returns it, the scope [n >= 1] positions down is
    the one that was [n - 1] positions down, and nothing else changes;
    popping it again gives back every scope the code can see. *)
Theorem stack_push_peek_pop {W : Type} (st : acpi_state_t) (item : acpi_stackitem_t)
    (h : host_t W) :
  -1 <= stack_ptr st -> stack_ptr st + 1 < Z.of_nat (length (stack st)) ->
  stack_ptr st + 1 <> 16 ->
  exists st2,
    push_scope st item h = Ok (st2, h) /\
    stack_ptr st2 = stack_ptr st + 1 /\
    acpi_exec_peek_stack_back st2 h = Ok (Some item, h) /\
    (forall n, 1 <= n -> acpi_exec_peek_stack st2 n h = acpi_exec_peek_stack st (n - 1) h) /\
    (forall n, 0 <= n ->
       acpi_exec_peek_stack (acpi_exec_pop_stack_back st2) n h = acpi_exec_peek_stack st n h) /\
    stack_ptr (acpi_exec_pop_stack_back st2) = stack_ptr st /\
    same_outside_stack st st2.
Proof.
  intros Hlo Hhi Hfull.
  destruct (push_scope_Ok st item h Hlo Hhi Hfull) as (l & Hl & Hpush).
  eexists. split; [exact Hpush|].
  split; [reflexivity|].
  assert (Hother : forall idx, idx <> stack_ptr st + 1 ->
                               at_index l idx = at_index (stack st) idx).
  { intros idx Hidx. exact (at_index_store_ne _ _ _ _ _ Hl Hidx). }
  split.
  { unfold acpi_exec_peek_stack_back, acpi_exec_peek_stack.
    cbn [stack stack_ptr set_stack set_stack_ptr].
    replace (stack_ptr st + 1 - 0 <? 0) with false by (symmetry; apply Z.ltb_ge; lia).
    unfold bind, defined. rewrite Z.sub_0_r, (at_index_store_eq _ _ _ _ Hl). reflexivity. }
  split.
  { intros n Hn. unfold acpi_exec_peek_stack.
    cbn [stack stack_ptr set_stack set_stack_ptr].
    replace (stack_ptr st + 1 - n) with (stack_ptr st - (n - 1)) by lia.
    destruct (stack_ptr st - (n - 1) <? 0); [reflexivity|].
    rewrite Hother by lia. reflexivity. }
  split.
  { intros n Hn. unfold acpi_exec_peek_stack, acpi_exec_pop_stack_back, acpi_exec_pop_stack.
    cbn [stack stack_ptr set_stack set_stack_ptr].
    replace (stack_ptr st + 1 - 1 - n) with (stack_ptr st - n) by lia.
    destruct (stack_ptr st - n <? 0); [reflexivity|].
    rewrite Hother by lia. reflexivity. }
  split; [cbn; lia|]. repeat split.
Qed.

Lemma stack_push_peek_pop_witness :
  exists st2,
    push_scope (entered_state []) (LAI_LOOP_STACKITEM 2 7) Reference.host
      = Ok (st2, Reference.host) /\
    acpi_exec_peek_stack_back st2 Reference.host
      = Ok (Some (LAI_LOOP_STACKITEM 2 7), Reference.host) /\
    acpi_exec_peek_stack st2 1 Reference.host
      = Ok (Some LAI_METHOD_CONTEXT_STACKITEM, Reference.host).
Proof.
  destruct (stack_push_peek_pop (entered_state []) (LAI_LOOP_STACKITEM 2 7) Reference.host)
    as (st2 & Hpush & _ & Htop & Hbelow & _).
  - cbn. lia.
  - cbn. lia.
  - cbn. lia.
  - exists st2. split; [exact Hpush|]. split; [exact Htop|].
    rewrite (Hbelow 1) by lia. reflexivity.
Defined.

(** ** How the dispatcher ends *)

Section RunEnds.
Context {W : Type} (env : collaborators W).

(** The loop ends exactly when the execution stack is empty. *)
Lemma run_iter_None
    (invoke : list Z -> Z -> acpi_state_t -> acpi_object_t ->
              M W (Z * acpi_state_t * acpi_object_t))
    (method : list Z) (size i : Z) (st : acpi_state_t) (h h' : host_t W) :
  acpi_exec_run_iter env invoke method size i st h = Ok (None, h') ->
  stack_ptr st < 0 /\ h' = h.
Proof.
  unfold acpi_exec_run_iter. intros H.
  inv_bind H as top Hpeek. apply peek_stack_Ok in Hpeek. destruct Hpeek as [-> Htop].
  destruct top as [item|].
  - inv_bind H as p Hpro. destruct p as [i1 st1|want].
    + apply ret_Ok_inv in H. discriminate H.
    + inv_bind H as r Hdisp. apply ret_Ok_inv in H. discriminate H.
  - ok_inv H. split; [lia | reflexivity].
Qed.

Lemma run_iter_empty
    (invoke : list Z -> Z -> acpi_state_t -> acpi_object_t ->
              M W (Z * acpi_state_t * acpi_object_t))
    (method : list Z) (size i : Z) (st : acpi_state_t) (h : host_t W) :
  stack_ptr st < 0 ->
  acpi_exec_run_iter env invoke method size i st h = Ok (None, h).
Proof.
  intros Hempty. unfold acpi_exec_run_iter, acpi_exec_peek_stack_back.
  rewrite (bind_Ok _ _ _ _ _ (peek_stack_NULL st 0 h ltac:(lia))). reflexivity.
Qed.

End RunEnds.

(** X3: [acpi_exec_run] returns at once, with status 0 and the state as it is,
    when the execution stack is empty, whatever the AML; and whenever it
    returns, the status is 0 and the execution stack is empty, so the
    [if(status) return status] of [acpi_exec_method] never fires. *)
Theorem run_ends_with_empty_stack {W : Type} (env : collaborators W) (fuel : nat)
    (method : list Z) (size i : Z) (st : acpi_state_t) (h : host_t W) :
  (stack_ptr st < 0 ->
   acpi_exec_run_loop env (S fuel) method size i st h = Ok ((0, st), h)) /\
  (forall status st' h',
     acpi_exec_run_loop env fuel method size i st h = Ok ((status, st'), h') ->
     status = 0 /\ stack_ptr st' < 0).
Proof.
  split.
  - intros Hempty. cbn [acpi_exec_run_loop].
    rewrite (bind_Ok _ _ _ _ _ (run_iter_empty env _ method size i st h Hempty)).
    reflexivity.
  - revert i st h. induction fuel as [|fuel IH]; intros i st h status st' h' H;
      cbn [acpi_exec_run_loop] in H; [discriminate H|].
    inv_bind H as r Hstep. destruct r as [[i1 st1]|].
    + exact (IH _ _ _ _ _ _ H).
    + apply run_iter_None in Hstep. destruct Hstep as [Hempty ->].
      ok_inv H. split; [reflexivity | exact Hempty].
Qed.

Lemma run_ends_with_empty_stack_witness :
  acpi_exec_run_loop Reference.env 1 [0xA4; 0x0A; 0x2A] 3 0
    (Reference.call_state "\_SB_.TEST" [0xA4; 0x0A; 0x2A]) Reference.host
  = Ok ((0, Reference.call_state "\_SB_.TEST" [0xA4; 0x0A; 0x2A]), Reference.host).
Proof.
  destruct (run_ends_with_empty_stack Reference.env 0 [0xA4; 0x0A; 0x2A] 3 0
              (Reference.call_state "\_SB_.TEST" [0xA4; 0x0A; 0x2A]) Reference.host)
    as [Hempty _].
  apply Hempty. cbn. lia.
Defined.

(** ** Method exit *)

(** X4: once the dispatcher has returned from the body of a method that is
    not reserved, [acpi_exec_method] passes on a nonzero status, panics
    unless exactly one operand is left, and otherwise moves that operand into
    [retvalue] and empties the operand stack, leaving the arguments, the
    locals and the execution stack as the dispatcher left them. *)
Theorem method_exit_collects {W : Type} (env : collaborators W)
    (run : list Z -> Z -> acpi_state_t -> M W (Z * acpi_state_t))
    (method : acpi_nsnode_t) (args : list acpi_object_t) (h h3 : host_t W)
    (status : Z) (st3 : acpi_state_t) :
  not_reserved (path method) ->
  run (pointer method) (size method)
      (scoped_state method args [LAI_METHOD_CONTEXT_STACKITEM]) h = Ok ((status, st3), h3) ->
  (status <> 0 ->
   acpi_exec_method_with env run (fresh_call_state method args) h = Ok ((status, st3), h3)) /\
  (status = 0 -> opstack_ptr st3 <> 1 ->
   acpi_exec_method_with env run (fresh_call_state method args) h
     = Panic "expected exactly one return value after method invocation") /\
  (status = 0 -> opstack_ptr st3 = 1 ->
   forall o, at_index (opstack st3) 0 = Some o ->
     exists st5,
       acpi_exec_method_with env run (fresh_call_state method args) h = Ok ((0, st5), h3) /\
       retvalue st5 = o /\ opstack_ptr st5 = 0 /\
       arg st5 = arg st3 /\ local st5 = local st3 /\
       stack st5 = stack st3 /\ stack_ptr st5 = stack_ptr st3).
Proof.
  intros Hpath Hrun.
  rewrite (exec_method_fresh env run method args h Hpath).
  rewrite (bind_Ok _ _ _ _ _ Hrun). cbv beta iota.
  split; [|split].
  - intros Hs. unfold truthy.
    replace (status =? 0) with false by (symmetry; apply Z.eqb_neq; exact Hs).
    reflexivity.
  - intros -> Hn. cbn [truthy Z.eqb negb].
    replace (opstack_ptr st3 =? 1) with false by (symmetry; apply Z.eqb_neq; exact Hn).
    reflexivity.
  - intros -> Hone o Ho. cbn [truthy Z.eqb negb]. rewrite Hone. cbn [Z.eqb Pos.eqb negb].
    unfold acpi_exec_get_opstack. rewrite Hone. cbn [Z.geb Z.compare].
    unfold bind at 1. unfold ret at 1. unfold bind at 1. unfold defined. rewrite Ho.
    unfold ret at 1. cbn [acpi_move_object].
    pose proof (at_index_Some_range _ _ _ Ho) as Hrange.
    destruct (free_opstack_slots_defined env 1 0 1
                (alter (fun _ : acpi_object_t => zero_object) (Z.to_nat 0) (opstack st3)))
      as [l Hl].
    { cbn. lia. }
    { rewrite length_alter. lia. }
    eexists. split.
    { unfold bind, acpi_exec_pop_opstack, bind, defined, update_opstack.
      cbn [opstack opstack_ptr set_opstack set_retvalue].
      rewrite Hone. change (Z.to_nat 1) with 1%nat. rewrite Hl. reflexivity. }
    repeat split.
Qed.

Lemma method_exit_collects_witness :
  exists st5,
    acpi_exec_method_with Reference.env
      (fun _ _ st =>
         ret (0, acpi_exec_pop_stack_back
                   (set_opstack_ptr
                      (set_opstack st (<[0%nat := integer_result zero_object 7]> (opstack st)))
                      1)))
      (fresh_call_state (Reference.method_node "\_SB_.TEST" []) (replicate 7 zero_object))
      Reference.host = Ok ((0, st5), Reference.host) /\
    retvalue st5 = integer_result zero_object 7.
Proof.
  destruct (method_exit_collects Reference.env
              (fun _ _ st =>
                 ret (0, acpi_exec_pop_stack_back
                           (set_opstack_ptr
                              (set_opstack st
                                 (<[0%nat := integer_result zero_object 7]> (opstack st)))
                              1)))
              (Reference.method_node "\_SB_.TEST" []) (replicate 7 zero_object)
              Reference.host Reference.host 0 _ ltac:(repeat split; discriminate) eq_refl)
    as (_ & _ & Hone).
  destruct (Hone eq_refl eq_refl (integer_result zero_object 7) eq_refl)
    as (st5 & Hexec & Hret & _).
  exists st5. split; [exact Hexec | exact Hret].
Defined.

Section WholeMethod.
Context {W : Type} (env : collaborators W).
Hypothesis Hkeep : collaborators_keep_pointers env.

(** The dispatcher keeps the bounds to its end, where the status is 0 and the
    execution stack is empty. *)
Lemma run_loop_Ok_bounds (fuel : nat) (method : list Z) (size : Z) :
  forall (i : Z) (st : acpi_state_t) (h h' : host_t W) (status : Z) (st' : acpi_state_t),
    stack_bounds st ->
    acpi_exec_run_loop env fuel method size i st h = Ok ((status, st'), h') ->
    stack_bounds st' /\ status = 0 /\ stack_ptr st' < 0.
Proof.
  induction fuel as [|fuel IH]; intros i st h h' status st' Hb H;
    cbn [acpi_exec_run_loop] in H; [discriminate H|].
  change (acpi_exec_run_iter env _ method size i st)
    with (acpi_exec_step env fuel method size i st) in H.
  inv_bind H as r Hstep. destruct r as [[i1 st1]|].
  - exact (IH _ _ _ _ _ _ (step_bounds env Hkeep _ _ _ _ _ _ _ _ _ Hb Hstep) H).
  - apply run_iter_None in Hstep. destruct Hstep as [Hempty ->].
    ok_inv H. split; [exact Hb|]. split; [reflexivity | exact Hempty].
Qed.

End WholeMethod.

(** X5: when [acpi_exec_method] succeeds on a fresh call state of a method
    that is not reserved, the status is 0 and both stacks are empty
    ([opstack_ptr = 0], [stack_ptr = -1]), for collaborators that leave the
    two stack pointers alone. *)
Theorem method_leaves_stacks_empty {W : Type} (env : collaborators W) (fuel : nat)
    (method : acpi_nsnode_t) (args : list acpi_object_t) (h h' : host_t W)
    (status : Z) (st' : acpi_state_t) :
  collaborators_keep_pointers env ->
  not_reserved (path method) ->
  acpi_exec_method env fuel (fresh_call_state method args) h = Ok ((status, st'), h') ->
  status = 0 /\ opstack_ptr st' = 0 /\ stack_ptr st' = -1.
Proof.
  intros Hkeep Hpath H. unfold acpi_exec_method in H.
  rewrite (exec_method_fresh env _ method args h Hpath) in H.
  inv_bind H as [s st3] Hrun. unfold acpi_exec_run in Hrun.
  apply (run_loop_Ok_bounds env Hkeep) in Hrun; [|unfold stack_bounds; cbn; lia].
  destruct Hrun as ([Hop Hsp] & -> & Hempty).
  cbn [truthy Z.eqb negb] in H.
  destruct (opstack_ptr st3 =? 1) eqn:Hone; [|discriminate H].
  cbn [negb] in H.
  inv_bind H as result Hget. inv_bind H as o Ho.
  cbn [acpi_move_object] in H.
  inv_bind H as st5 Hpop. ok_inv H.
  unfold acpi_exec_pop_opstack in Hpop.
  inv_bind Hpop as l Hl. ok_inv Hpop.
  apply Z.eqb_eq in Hone. cbn. split; [reflexivity|]. split; lia.
Qed.

Lemma method_leaves_stacks_empty_witness :
  exists st',
    acpi_exec_method Reference.env 3
      (fresh_call_state (Reference.method_node "\_SB_.TEST" [0xA4; 0x0A; 0x2A])
         (replicate 7 zero_object)) Reference.host = Ok ((0, st'), Reference.host) /\
    opstack_ptr st' = 0 /\ stack_ptr st' = -1.
Proof.
  eexists. split; [vm_compute; reflexivity|].
  destruct (method_leaves_stacks_empty Reference.env 3
              (Reference.method_node "\_SB_.TEST" [0xA4; 0x0A; 0x2A])
              (replicate 7 zero_object) Reference.host Reference.host 0 _
              reference_keeps_pointers ltac:(repeat split; discriminate)
              ltac:(vm_compute; reflexivity))
    as (_ & Hop & Hsp).
  split; [exact Hop | exact Hsp].
Defined.

(** ** Method entry: the reserved paths [\._OS_] and [\._REV] *)

(** Copying a string from offset [k] into a destination that ends where the
    characters end leaves no slot for the terminating zero byte. *)
Lemma strcpy_at_overflows (src : String.string) :
  forall (dest : list Z) (k : Z),
    0 <= k ->
    Z.of_nat (length dest) = k + Z.of_nat (String.length src) ->
    strcpy_at dest k src = None.
Proof.
  induction src as [|c rest IH]; intros dest k Hk Hlen; cbn [strcpy_at String.length] in *.
  - unfold store_index.
    replace (Z.of_nat (length dest) <=? k) with true by (symmetry; apply Z.leb_le; lia).
    rewrite orb_true_r. reflexivity.
  - destruct (store_index dest k (Z.of_nat (Ascii.nat_of_ascii c))) as [dest'|] eqn:Hstore;
      [|reflexivity].
    apply IH; [lia|].
    rewrite (store_index_length _ _ _ _ Hstore). lia.
Qed.

Lemma malloc_length (n : Z) : 0 <= n -> Z.of_nat (length (acpi_malloc n)) = n.
Proof. intros Hn. unfold acpi_malloc. rewrite length_replicate. lia. Qed.

(** X6: on the path [\._REV] method entry returns the Integer 2, zeroes the
    eight locals, emits one debug message and no warning, leaves the stacks
    and the arguments alone, and does so whatever the dispatcher [run] would
    do: no AML is executed. On the path [\._OS_] it allocates as many bytes
    as the emulated OS string has characters and copies the string with its
    terminating zero byte into them: such a copy writes the terminator one
    byte past the allocation, whatever the string, so method entry has no
    defined result there; an allocation of one byte more would hold the
    string "Microsoft Windows NT". *)
Theorem os_rev_emulation {W : Type} (env : collaborators W)
    (run : list Z -> Z -> acpi_state_t -> M W (Z * acpi_state_t))
    (st : acpi_state_t) (h : host_t W) :
  (forall s : String.string, acpi_strcpy (acpi_malloc (acpi_strlen s)) s h = Fault) /\
  (exists buffer,
     acpi_strcpy (acpi_malloc (acpi_strlen acpi_emulated_os + 1)) acpi_emulated_os h
       = Ok (buffer, h) /\
     string_at buffer = "Microsoft Windows NT"%string) /\
  (path (handle st) = "\._OS_"%string -> acpi_exec_method_with env run st h = Fault) /\
  (path (handle st) = "\._REV"%string ->
   exists st',
     acpi_exec_method_with env run st h
       = Ok ((0, st'), Build_host (external h) (EvDebug "_REV returned %d" :: trace h)) /\
     is_integer (retvalue st') 2 /\
     local st' = replicate 8 zero_object /\ arg st' = arg st /\
     opstack st' = opstack st /\ opstack_ptr st' = opstack_ptr st /\
     stack st' = stack st /\ stack_ptr st' = stack_ptr st).
Proof.
  assert (Hcopy : forall s : String.string,
             acpi_strcpy (acpi_malloc (acpi_strlen s)) s h = Fault).
  { intros s. unfold acpi_strcpy.
    rewrite (strcpy_at_overflows s (acpi_malloc (acpi_strlen s)) 0); [reflexivity | lia |].
    rewrite malloc_length by (unfold acpi_strlen; lia). reflexivity. }
  split; [exact Hcopy|]. split; [|split].
  - eexists. split.
    + unfold acpi_strcpy. vm_compute strcpy_at. reflexivity.
    + vm_compute. reflexivity.
  - intros Hpath. unfold acpi_exec_method_with.
    change (path (handle (set_local st (replicate 8 zero_object))))
      with (path (handle st)).
    rewrite Hpath.
    change (acpi_strcmp "\._OS_" "\._OSI" =? 0) with false.
    change (acpi_strcmp "\._OS_" "\._OS_" =? 0) with true.
    cbv iota zeta. unfold bind at 1. rewrite Hcopy. reflexivity.
  - intros Hpath. eexists. split.
    + unfold acpi_exec_method_with.
      change (path (handle (set_local st (replicate 8 zero_object))))
        with (path (handle st)).
      rewrite Hpath. reflexivity.
    + repeat split.
Qed.

Lemma os_rev_emulation_witness :
  (exists st',
     acpi_exec_method_with Reference.env (fun _ _ _ => fault)
       (Reference.call_state "\._REV" [0xA4; 0x01]) Reference.host
       = Ok ((0, st'), Build_host tt [EvDebug "_REV returned %d"]) /\
     is_integer (retvalue st') 2) /\
  acpi_exec_method_with Reference.env (fun _ _ _ => fault)
    (Reference.call_state "\._OS_" [0xA4; 0x01]) Reference.host = Fault.
Proof.
  split.
  - destruct (os_rev_emulation Reference.env (fun _ _ _ => fault)
                (Reference.call_state "\._REV" [0xA4; 0x01]) Reference.host)
      as (_ & _ & _ & Hrev).
    destruct (Hrev eq_refl) as (st' & Hexec & Hret & _).
    exists st'. split; [exact Hexec | exact Hret].
  - destruct (os_rev_emulation Reference.env (fun _ _ _ => fault)
                (Reference.call_state "\._OS_" [0xA4; 0x01]) Reference.host)
      as (_ & _ & Hos & _).
    exact (Hos eq_refl).
Defined.

(** ** Return *)

Section OpcodeSteps.
Context {W : Type} (env : collaborators W).

(** An iteration that reaches the opcode switch at a one-byte opcode runs the
    case of that opcode. *)
Lemma step_single_byte (fuel : nat) (method : list Z) (size i : Z) (st : acpi_state_t)
    (h : host_t W) (want b : Z) :
  reaches_opcode env method size i st h want ->
  at_index method i = Some b ->
  acpi_is_name env b = false ->
  (b =? EXTOP_PREFIX) = false ->
  acpi_exec_step env fuel method size i st h =
  bind (dispatch_opcode env method i st want b b) (fun r => ret (Some r)) h.
Proof.
  intros Hreach Hb Hname Hext. unfold acpi_exec_step.
  rewrite (run_iter_opcode env _ _ _ _ _ _ _ _ Hreach Hb Hname).
  unfold bind at 1 2. rewrite fetch_single_byte by exact Hext. reflexivity.
Qed.

Lemma bind_Panic {A B : Type} (m : M W A) (k : A -> M W B) (h : host_t W)
    (msg : String.string) :
  m h = Panic msg -> bind m k h = Panic msg.
Proof. intros Hm. unfold bind. rewrite Hm. reflexivity. Qed.

Lemma bind_bind {A B C : Type} (m : M W A) (k1 : A -> M W B) (k2 : B -> M W C)
    (h : host_t W) :
  bind (bind m k1) k2 h = bind m (fun a => bind (k1 a) k2) h.
Proof. unfold bind. destruct (m h) as [[a h1]| | |]; reflexivity. Qed.

End OpcodeSteps.

(** X7: an iteration that executes RETURN evaluates the expression after the
    opcode and then looks for the nearest method context: with none on the
    execution stack it panics; with one at depth [j] it panics unless the
    operand stack is empty, and otherwise leaves the value as the only
    operand and pops the method context with the [j] scopes above it,
    whatever their kinds. *)
Theorem return_unwinds {W : Type} (env : collaborators W) (fuel : nat)
    (method : list Z) (size i : Z) (st : acpi_state_t) (h h1 : host_t W) (want : Z)
    (n : Z) (result : acpi_object_t) (st1 : acpi_state_t) :
  reaches_opcode env method size i st h want ->
  at_index method i = Some RETURN_OP ->
  acpi_is_name env RETURN_OP = false ->
  acpi_eval_object env st method (i + 1) h = Ok ((n, result, st1), h1) ->
  (-1 <= stack_ptr st1 -> none_wanted is_method_context st1 ->
   acpi_exec_step env fuel method size i st h
     = Panic "Return() outside of control method()") /\
  (forall j,
     nearest is_method_context st1 j LAI_METHOD_CONTEXT_STACKITEM ->
     (opstack_ptr st1 <> 0 ->
      acpi_exec_step env fuel method size i st h
        = Panic "opstack is not empty before return") /\
     (opstack_ptr st1 = 0 ->
      forall l, store_index (opstack st1) 0 zero_object = Some l ->
        exists st',
          acpi_exec_step env fuel method size i st h = Ok (Some (i + 1 + n, st'), h1) /\
          opstack_ptr st' = 1 /\ at_index (opstack st') 0 = Some result /\
          stack_ptr st' = stack_ptr st1 - j - 1 /\ stack st' = stack st1 /\
          arg st' = arg st1 /\ local st' = local st1 /\ retvalue st' = retvalue st1)).
Proof.
  intros Hreach Hb Hname Heval.
  rewrite (step_single_byte env fuel _ _ _ _ _ _ _ Hreach Hb Hname eq_refl), dispatch_return.
  rewrite bind_bind, (bind_Ok _ _ _ _ _ Heval). cbv beta iota. rewrite bind_bind.
  split.
  - intros Hsp Hnone.
    apply bind_Panic.
    apply (find_stackitem_none is_method_context _ st1 h1 (Z.to_nat (stack_ptr st1 + 1)));
      try assumption; lia.
  - intros j (Hj & Hat & Hw & Habove).
    rewrite (bind_Ok _ _ _ _ _
               (find_stackitem_nearest is_method_context
                  "Return() outside of control method()" st1
                  LAI_METHOD_CONTEXT_STACKITEM j h1 (Z.to_nat j)
                  (Z.to_nat (stack_ptr st1 + 1)) 0
                  ltac:(lia) ltac:(lia) Hat Hw Habove ltac:(lia))).
    cbv beta iota.
    split.
    + intros Hne. unfold truthy.
      replace (opstack_ptr st1 =? 0) with false by (symmetry; apply Z.eqb_neq; exact Hne).
      reflexivity.
    + intros Hempty l Hl. unfold truthy. rewrite Hempty. cbn [Z.eqb negb].
      unfold acpi_exec_push_opstack_or_die. rewrite Hempty. cbn [Z.eqb].
      unfold bind, defined. rewrite Hl. unfold ret.
      eexists. split; [reflexivity|].
      split; [reflexivity|]. split; [|cbn; repeat split; lia].
      unfold update_opstack, at_index.
      cbn [opstack set_opstack set_opstack_ptr acpi_exec_pop_stack set_stack_ptr
           Z.ltb Z.compare Z.to_nat].
      pose proof (store_index_Some _ _ _ _ Hl) as Hrange.
      unfold store_index in Hl.
      destruct ((0 <? 0) || (Z.of_nat (length (opstack st1)) <=? 0)); [discriminate Hl|].
      injection Hl as <-.
      rewrite list_lookup_alter, list_lookup_insert_eq by lia. reflexivity.
Qed.

(** [While (One) { If (One) { Return (2) } }]: at offset 6 the execution stack
    holds the method context, the Loop and the taken Cond. *)
Lemma return_unwinds_witness :
  exists st',
    acpi_exec_step Reference.env 0 [0xA2; 0x08; 0x01; 0xA0; 0x05; 0x01; 0xA4; 0x0A; 0x02] 9 6
      (with_scopes [0xA2; 0x08; 0x01; 0xA0; 0x05; 0x01; 0xA4; 0x0A; 0x02]
         [LAI_METHOD_CONTEXT_STACKITEM; LAI_LOOP_STACKITEM 2 9; LAI_COND_STACKITEM 1 9])
      Reference.host = Ok (Some (9, st'), Reference.host) /\
    opstack_ptr st' = 1 /\
    at_index (opstack st') 0 = Some (integer_result zero_object 2) /\
    stack_ptr st' = -1.
Proof.
  set (body := [0xA2; 0x08; 0x01; 0xA0; 0x05; 0x01; 0xA4; 0x0A; 0x02]).
  set (st := with_scopes body
               [LAI_METHOD_CONTEXT_STACKITEM; LAI_LOOP_STACKITEM 2 9;
                LAI_COND_STACKITEM 1 9]).
  destruct (return_unwinds Reference.env 0 body 9 6 st Reference.host Reference.host
              0 2 (integer_result zero_object 2) st)
    as [_ Hfound].
  - exists (LAI_COND_STACKITEM 1 9). split; [reflexivity|]. split; [reflexivity | lia].
  - reflexivity.
  - reflexivity.
  - reflexivity.
  - destruct (Hfound 2) as [_ Hok].
    + split; [cbn; lia|]. split; [reflexivity|]. split; [reflexivity|].
      intros k Hk. assert (Hcases : k = 0 \/ k = 1) by lia.
      destruct Hcases as [-> | ->]; eexists; split; reflexivity.
    + destruct (Hok eq_refl _ eq_refl) as (st' & Hstep & Hptr & Htop & Hsp & _).
      exists st'. split; [exact Hstep|]. split; [exact Hptr|]. split; [exact Htop|].
      rewrite Hsp. reflexivity.
Defined.

(** ** While *)

Section LoopSteps.
Context {W : Type} (env : collaborators W).




End LoopSteps.



Section PushedScope.
Context {W : Type} (env : collaborators W).

(** The state after a scope has been pushed: the scope is on top and the
    scopes below are the ones that were there. *)
Lemma push_scope_facts (st : acpi_state_t) (item : acpi_stackitem_t) (h : host_t W) :
  -1 <= stack_ptr st -> stack_ptr st + 1 < Z.of_nat (length (stack st)) ->
  stack_ptr st + 1 <> 16 ->
  exists st1,
    push_scope st item h = Ok (st1, h) /\
    acpi_exec_peek_stack_back st1 h = Ok (Some item, h) /\
    stack_ptr st1 = stack_ptr st + 1 /\
    (forall k, 0 <= k -> scope_at (acpi_exec_pop_stack_back st1) k = scope_at st k) /\
    same_outside_stack st st1.
Proof.
  intros Hlo Hhi Hfull.
  destruct (push_scope_Ok st item h Hlo Hhi Hfull) as (l & Hl & Hpush).
  eexists. split; [exact Hpush|].
  split.
  { unfold acpi_exec_peek_stack_back, acpi_exec_peek_stack.
    cbn [stack stack_ptr set_stack set_stack_ptr].
    replace (stack_ptr st + 1 - 0 <? 0) with false by (symmetry; apply Z.ltb_ge; lia).
    unfold bind, defined. rewrite Z.sub_0_r, (at_index_store_eq _ _ _ _ Hl). reflexivity. }
  split; [reflexivity|]. split; [|repeat split].
  intros k Hk. unfold scope_at, acpi_exec_pop_stack_back, acpi_exec_pop_stack.
  cbn [stack stack_ptr set_stack set_stack_ptr].
  replace (stack_ptr st + 1 - 1 - k) with (stack_ptr st - k) by lia.
  apply (at_index_store_ne _ _ _ _ _ Hl). lia.
Qed.

End PushedScope.



(** ** If and Else *)

Section CondSteps.
Context {W : Type} (env : collaborators W).

Lemma dispatch_if_scope (method : list Z) (i : Z) (st : acpi_state_t) (want b : Z)
    (h : host_t W) :
  dispatch_opcode env method i st want b IF_OP h =
  bind (acpi_parse_pkgsize env method (i + 1))
    (fun x => let '(n, if_size) := x in
       bind (acpi_eval_object env st method (i + 1 + n))
         (fun y => let '(m, predicate, st1) := y in
            bind (push_scope st1 (LAI_COND_STACKITEM (integer predicate) (i + 1 + if_size)))
              (fun st3 =>
                 ret (if negb (truthy (integer predicate))
                      then i + 1 + if_size else i + 1 + n + m, st3)))) h.
Proof.
  rewrite dispatch_if. unfold push_scope, bind.
  destruct (acpi_parse_pkgsize env method (i + 1) h) as [[[n ls] h1]| | |];
    try reflexivity.
  destruct (acpi_eval_object env st method (i + 1 + n) h1) as [[[[m p] st1] h2]| | |];
    try reflexivity.
  destruct (acpi_exec_push_stack_or_die st1 h2) as [[[k st2] h3]| | |]; reflexivity.
Qed.


End CondSteps.



(** X11: an iteration that executes IF evaluates the predicate and pushes a
    Cond scope whose end is the package length added to the offset of its
    encoding. With a nonzero predicate the body is entered with the Cond on
    top. With a zero predicate the instruction pointer is set to the end of
    the If and the next iteration pops the Cond again: before an Else it
    enters the Else body, before any other byte it leaves the execution stack
    as it was after the predicate. *)
Theorem if_enters_or_skips {W : Type} (env : collaborators W) (fuel : nat)
    (method : list Z) (size i : Z) (st st1 : acpi_state_t) (h h1 : host_t W) (want : Z)
    (n if_size m : Z) (predicate : acpi_object_t) :
  reaches_opcode env method size i st h want ->
  at_index method i = Some IF_OP ->
  acpi_is_name env IF_OP = false ->
  acpi_parse_pkgsize env method (i + 1) h = Ok ((n, if_size), h) ->
  acpi_eval_object env st method (i + 1 + n) h = Ok ((m, predicate, st1), h1) ->
  -1 <= stack_ptr st1 ->
  stack_ptr st1 + 1 < Z.of_nat (length (stack st1)) ->
  stack_ptr st1 + 1 <> 16 ->
  exists st2,
    push_scope st1 (LAI_COND_STACKITEM (integer predicate) (i + 1 + if_size)) h1
      = Ok (st2, h1) /\
    (forall k, 0 <= k -> scope_at (acpi_exec_pop_stack_back st2) k = scope_at st1 k) /\
    stack_ptr (acpi_exec_pop_stack_back st2) = stack_ptr st1 /\
    same_outside_stack st1 st2 /\
    (integer predicate <> 0 ->
     acpi_exec_step env fuel method size i st h = Ok (Some (i + 1 + n + m, st2), h1)) /\
    (integer predicate = 0 ->
     acpi_exec_step env fuel method size i st h = Ok (Some (i + 1 + if_size, st2), h1) /\
     (forall b, at_index method (i + 1 + if_size) = Some b -> b <> ELSE_OP ->
        acpi_exec_steps env fuel 2 method size i st h
          = Ok (Some (i + 1 + if_size, acpi_exec_pop_stack_back st2), h1)) /\
     (at_index method (i + 1 + if_size) = Some ELSE_OP ->
      forall k else_size h2,
        acpi_parse_pkgsize env method (i + 1 + if_size + 1) h1 = Ok ((k, else_size), h2) ->
        acpi_exec_steps env fuel 2 method size i st h
          = Ok (Some (i + 1 + if_size + 1 + k, acpi_exec_pop_stack_back st2), h2))).
Proof.
  intros Hreach Hb Hname Hpkg Heval Hlo Hlen Hfull.
  destruct (push_scope_facts st1 (LAI_COND_STACKITEM (integer predicate) (i + 1 + if_size)) h1
              Hlo Hlen Hfull) as (st2 & Hpush & Hpeek & Hptr & Hbelow & Hsame).
  exists st2. split; [exact Hpush|]. split; [exact Hbelow|].
  split; [cbn; lia|]. split; [exact Hsame|].
  assert (Hstep : acpi_exec_step env fuel method size i st h =
                  Ok (Some (if negb (truthy (integer predicate))
                            then i + 1 + if_size else i + 1 + n + m, st2), h1)).
  { rewrite (step_single_byte env fuel _ _ _ _ _ _ _ Hreach Hb Hname eq_refl).
    unfold bind at 1. rewrite dispatch_if_scope.
    rewrite (bind_Ok _ _ _ _ _ Hpkg). cbv beta iota.
    rewrite (bind_Ok _ _ _ _ _ Heval). cbv beta iota.
    rewrite (bind_Ok _ _ _ _ _ Hpush). reflexivity. }
  split.
  - intros Hnz. rewrite Hstep. unfold truthy.
    replace (integer predicate =? 0) with false by (symmetry; apply Z.eqb_neq; exact Hnz).
    reflexivity.
  - intros Hz. rewrite Hz in Hstep, Hpeek. cbn [truthy Z.eqb negb] in Hstep.
    split; [exact Hstep|]. split.
    + intros b Hbyte Hne. cbn [acpi_exec_steps]. rewrite (bind_Ok _ _ _ _ _ Hstep).
      cbv beta iota.
      assert (Hstep2 : acpi_exec_step env fuel method size (i + 1 + if_size) st2 h1 =
                       Ok (Some (i + 1 + if_size, acpi_exec_pop_stack_back st2), h1)).
      { unfold acpi_exec_step, acpi_exec_run_iter.
        rewrite (bind_Ok _ _ _ _ _ Hpeek). cbn [scope_prologue truthy Z.eqb negb].
        unfold bind, defined. rewrite Hbyte. unfold ret at 1.
        replace (b =? ELSE_OP) with false by (symmetry; apply Z.eqb_neq; exact Hne).
        reflexivity. }
      rewrite (bind_Ok _ _ _ _ _ Hstep2). reflexivity.
    + intros Hbyte k else_size h2 Hpkg2. cbn [acpi_exec_steps].
      rewrite (bind_Ok _ _ _ _ _ Hstep).
      rewrite (bind_Ok _ _ _ _ _
                 (step_cond_not_taken_else env fuel method size _ st2 h1 h2 _ _ _
                    Hpeek Hbyte Hpkg2)).
      reflexivity.
Qed.

(** [If (Zero) { Return (One) } Return (2)]: the If is skipped in two
    iterations. *)
Lemma if_enters_or_skips_witness :
  exists st2,
    acpi_exec_steps Reference.env 0 2 [0xA0; 0x04; 0x00; 0xA4; 0x01; 0xA4; 0x0A; 0x02] 8 0
      (entered_state [0xA0; 0x04; 0x00; 0xA4; 0x01; 0xA4; 0x0A; 0x02]) Reference.host
      = Ok (Some (5, acpi_exec_pop_stack_back st2), Reference.host) /\
    stack_ptr (acpi_exec_pop_stack_back st2) = 0.
Proof.
  set (body := [0xA0; 0x04; 0x00; 0xA4; 0x01; 0xA4; 0x0A; 0x02]).
  destruct (if_enters_or_skips Reference.env 0 body 8 0 (entered_state body)
              (entered_state body) Reference.host Reference.host 0 1 4 1
              (integer_result zero_object 0))
    as (st2 & _ & _ & Hptr & _ & _ & Hzero).
  - exists LAI_METHOD_CONTEXT_STACKITEM. split; [reflexivity|]. split; [reflexivity | lia].
  - reflexivity.
  - reflexivity.
  - reflexivity.
  - reflexivity.
  - cbn. lia.
  - cbn. lia.
  - cbn. lia.
  - destruct (Hzero eq_refl) as (_ & Hskip & _).
    exists st2. split; [|exact Hptr].
    exact (Hskip RETURN_OP eq_refl ltac:(discriminate)).
Defined.

(** ** Operator scopes *)

Section OperatorSteps.
Context {W : Type} (env : collaborators W).

Lemma operator_arity_cases (b a : Z) :
  operator_arity b = Some a ->
  (a = 1 /\ (b = STORE_OP \/ b = NOT_OP)) \/
  (a = 2 /\ (b = ADD_OP \/ b = SUBTRACT_OP \/ b = MULTIPLY_OP \/ b = AND_OP \/
             b = OR_OP \/ b = XOR_OP \/ b = SHR_OP \/ b = SHL_OP)).
Proof.
  unfold operator_arity.
  destruct (b =? STORE_OP) eqn:E1; [apply Z.eqb_eq in E1; intros [= <-]; auto|].
  destruct (b =? NOT_OP) eqn:E2; [apply Z.eqb_eq in E2; intros [= <-]; auto|].
  cbn [orb].
  destruct (b =? ADD_OP) eqn:E3; [apply Z.eqb_eq in E3; intros [= <-]; auto 10|].
  destruct (b =? SUBTRACT_OP) eqn:E4; [apply Z.eqb_eq in E4; intros [= <-]; auto 10|].
  destruct (b =? MULTIPLY_OP) eqn:E5; [apply Z.eqb_eq in E5; intros [= <-]; auto 10|].
  destruct (b =? AND_OP) eqn:E6; [apply Z.eqb_eq in E6; intros [= <-]; auto 10|].
  destruct (b =? OR_OP) eqn:E7; [apply Z.eqb_eq in E7; intros [= <-]; auto 10|].
  destruct (b =? XOR_OP) eqn:E8; [apply Z.eqb_eq in E8; intros [= <-]; auto 10|].
  destruct (b =? SHR_OP) eqn:E9; [apply Z.eqb_eq in E9; intros [= <-]; auto 12|].
  destruct (b =? SHL_OP) eqn:E10; [apply Z.eqb_eq in E10; intros [= <-]; auto 12|].
  discriminate.
Qed.

(** The case of an operator opcode pushes its scope. *)
Lemma dispatch_operator (method : list Z) (i : Z) (st : acpi_state_t) (want b a : Z)
    (h : host_t W) :
  operator_arity b = Some a ->
  (b =? EXTOP_PREFIX) = false /\
  dispatch_opcode env method i st want b b h =
  bind (push_scope st (LAI_OP_STACKITEM b (opstack_ptr st) a want))
       (fun st1 => ret (i + 1, st1)) h.
Proof.
  intros Ha.
  assert (Hpush : forall c n,
             bind (push_op st c n want) (fun st1 => ret (i + 1, st1)) h =
             bind (push_scope st (LAI_OP_STACKITEM c (opstack_ptr st) n want))
                  (fun st1 => ret (i + 1, st1)) h).
  { intros c n. unfold push_op, push_scope, acpi_exec_push_stack_or_die, bind.
    cbn [stack_ptr set_stack_ptr opstack_ptr].
    destruct (stack_ptr st + 1 =? 16); reflexivity. }
  destruct (operator_arity_cases b a Ha) as [[-> Hb] | [-> Hb]];
    repeat (destruct Hb as [Hb | Hb]); subst b;
    (split; [reflexivity | exact (Hpush _ _)]).
Qed.

End OperatorSteps.

(** X12: an iteration that executes STORE or NOT pushes an operator scope for
    one operand, one that executes ADD, SUBTRACT, MULTIPLY, AND, OR, XOR, SHL
    or SHR one for two operands; the scope records the opcode, the current
    [opstack_ptr] as its base and whether its own result is wanted, and the
    instruction pointer advances by one. While the operands are missing, the
    following iterations want the result of what they execute. *)
Theorem operator_scope_pushed {W : Type} (env : collaborators W) (fuel : nat)
    (method : list Z) (size i : Z) (st : acpi_state_t) (h : host_t W) (want b a : Z) :
  reaches_opcode env method size i st h want ->
  at_index method i = Some b ->
  acpi_is_name env b = false ->
  operator_arity b = Some a ->
  stack_ptr st + 1 < Z.of_nat (length (stack st)) ->
  stack_ptr st + 1 <> 16 ->
  exists st1,
    push_scope st (LAI_OP_STACKITEM b (opstack_ptr st) a want) h = Ok (st1, h) /\
    acpi_exec_step env fuel method size i st h = Ok (Some (i + 1, st1), h) /\
    stack_ptr st1 = stack_ptr st + 1 /\
    same_outside_stack st st1 /\
    (forall j, j <= size -> reaches_opcode env method size j st1 h 1).
Proof.
  intros Hreach Hb Hname Ha Hlen Hfull.
  pose proof (reaches_opcode_nonempty env _ _ _ _ _ _ Hreach) as Hsp.
  destruct (dispatch_operator env method i st want b a h Ha) as [Hext Hdisp].
  destruct (push_scope_facts st (LAI_OP_STACKITEM b (opstack_ptr st) a want) h
              ltac:(lia) Hlen Hfull) as (st1 & Hpush & Hpeek & Hptr & _ & Hsame).
  exists st1. split; [exact Hpush|]. split; [|split; [exact Hptr|split; [exact Hsame|]]].
  - rewrite (step_single_byte env fuel _ _ _ _ _ _ _ Hreach Hb Hname Hext).
    unfold bind at 1. rewrite Hdisp, (bind_Ok _ _ _ _ _ Hpush). reflexivity.
  - intros j Hj. exists (LAI_OP_STACKITEM b (opstack_ptr st) a want).
    split; [exact Hpeek|]. split; [|exact Hj].
    cbn [scope_prologue].
    destruct Hsame as (_ & _ & _ & _ & _ & Hop). rewrite Hop.
    replace (opstack_ptr st =? opstack_ptr st + a) with false; [reflexivity|].
    symmetry. apply Z.eqb_neq.
    destruct (operator_arity_cases b a Ha) as [[-> _] | [-> _]]; lia.
Qed.

(** [Add (One, One, Zero)] as a statement. *)
Lemma operator_scope_pushed_witness :
  exists st1,
    acpi_exec_step Reference.env 0 [0x72; 0x01; 0x01; 0x00] 4 0
      (entered_state [0x72; 0x01; 0x01; 0x00]) Reference.host
      = Ok (Some (1, st1), Reference.host) /\
    acpi_exec_peek_stack_back st1 Reference.host
      = Ok (Some (LAI_OP_STACKITEM ADD_OP 0 2 0), Reference.host).
Proof.
  destruct (operator_scope_pushed Reference.env 0 [0x72; 0x01; 0x01; 0x00] 4 0
              (entered_state [0x72; 0x01; 0x01; 0x00]) Reference.host 0 ADD_OP 2)
    as (st1 & Hpush & Hstep & _).
  - exists LAI_METHOD_CONTEXT_STACKITEM. split; [reflexivity|]. split; [reflexivity | lia].
  - reflexivity.
  - reflexivity.
  - reflexivity.
  - cbn. lia.
  - cbn. lia.
  - exists st1. split; [exact Hstep|].
    vm_compute in Hpush. injection Hpush as <-. reflexivity.
Defined.

Section Reduction.
Context {W : Type} (env : collaborators W).

(** The reducer returns as many operand slots as it was given. *)
Lemma reduce_length (c : Z) (ops ops' : list acpi_object_t) (r r' : acpi_object_t) :
  acpi_exec_reduce c ops r = Ok (ops', r') -> length ops' = length ops.
Proof.
  assert (Hbin : forall f, reduce_binary f ops r = Ok (ops', r') -> length ops' = length ops).
  { intros f. unfold reduce_binary.
    destruct (operand_integer ops 0) as [a| | |]; try discriminate.
    destruct (operand_integer ops 1) as [b| | |]; try discriminate.
    destruct (f a b) as [v| | |]; try discriminate.
    intros [= <- _]. reflexivity. }
  unfold acpi_exec_reduce.
  destruct (c =? STORE_OP).
  { destruct ops as [|o rest]; [discriminate|]. cbn. intros [= <- _]. reflexivity. }
  destruct (c =? NOT_OP).
  { destruct (operand_integer ops 0) as [a| | |]; try discriminate.
    intros [= <- _]. reflexivity. }
  repeat match goal with
         | |- (if ?b then _ else _) = _ -> _ => destruct b; [apply Hbin|]
         end.
  discriminate.
Qed.

(** The scope-specific part of an iteration whose operator scope has all its
    operands. *)
Lemma prologue_operator_complete (method : list Z) (size i : Z) (st : acpi_state_t)
    (h : host_t W) (c base n w : Z) (ops' : list acpi_object_t) (result : acpi_object_t) :
  length (opstack st) = 16%nat ->
  0 <= base -> 0 < n -> opstack_ptr st = base + n -> base + n <= 16 ->
  acpi_exec_reduce c (drop (Z.to_nat base) (opstack st)) zero_object = Ok (ops', result) ->
  exists st3,
    scope_prologue env method size i st (LAI_OP_STACKITEM c base n w) h =
      bind (acpi_write_object env method i result st3)
           (fun x => let '(m, st4) := x in
                     ret (Continue (i + m) (acpi_exec_pop_stack_back st4))) h /\
    opstack_ptr st3 = (if w =? 0 then base else base + 1) /\
    (w <> 0 -> at_index (opstack st3) base = Some result) /\
    (forall k, k < base -> at_index (opstack st3) k = at_index (opstack st) k) /\
    same_outside_opstack st st3.
Proof.
  intros Hlen Hbase Hn Hptr Hfit Hreduce.
  set (l1 := take (Z.to_nat base) (opstack st) ++ ops').
  assert (Hlen1 : length l1 = 16%nat).
  { unfold l1. rewrite length_app, length_take, (reduce_length _ _ _ _ _ Hreduce),
      length_drop. lia. }
  assert (Hl1 : forall k, k < base -> at_index l1 k = at_index (opstack st) k).
  { intros k Hk. unfold at_index, l1. destruct (k <? 0) eqn:E; [reflexivity|].
    apply Z.ltb_ge in E.
    rewrite lookup_app_l by (rewrite length_take; lia).
    apply lookup_take_lt. lia. }
  destruct (free_opstack_slots_defined env (Z.to_nat n) 0 (base + n) l1) as [l2 Hfree];
    [lia | lia |].
  destruct (free_opstack_slots_below env _ _ _ _ _ Hfree) as [Hlen2 Hl2].
  assert (Hpro : scope_prologue env method size i st (LAI_OP_STACKITEM c base n w) h =
                 bind (if truthy w
                       then bind (acpi_exec_push_opstack_or_die
                                    (set_opstack_ptr (set_opstack (set_opstack st l1) l2) base))
                              (fun x => let '(opstack_res, s) := x in
                                 ret (update_opstack s opstack_res
                                        (fun o => acpi_copy_object o result)))
                       else ret (set_opstack_ptr (set_opstack (set_opstack st l1) l2) base))
                   (fun st3 =>
                      bind (acpi_write_object env method i result st3)
                        (fun x => let '(m, st4) := x in
                           ret (Continue (i + m) (acpi_exec_pop_stack_back st4)))) h).
  { cbn [scope_prologue]. rewrite Hptr, Z.eqb_refl.
    unfold acpi_exec_get_opstack. rewrite Hptr.
    replace (base >=? base + n) with false
      by (symmetry; rewrite Z.geb_leb; apply Z.leb_gt; lia).
    unfold bind at 1. unfold ret at 1.
    replace (base <? 0) with false by (symmetry; apply Z.ltb_ge; lia).
    unfold bind at 1. unfold lift. rewrite Hreduce. fold l1.
    unfold bind at 1. unfold acpi_exec_pop_opstack at 1. unfold bind at 1.
    cbn [opstack opstack_ptr set_opstack]. rewrite Hptr. unfold defined at 1.
    rewrite Hfree. unfold ret at 1 2.
    replace (base + n - n) with base by lia. reflexivity. }
  destruct (truthy w) eqn:Hw.
  - destruct (store_index_in_range l2 base zero_object) as [l3 Hl3]; [lia|].
    exists (update_opstack
              (set_opstack_ptr
                 (set_opstack (set_opstack_ptr (set_opstack (set_opstack st l1) l2) base) l3)
                 (base + 1))
              base (fun o => acpi_copy_object o result)).
    assert (Hw0 : (w =? 0) = false).
    { unfold truthy in Hw. destruct (w =? 0); [discriminate Hw | reflexivity]. }
    split.
    { rewrite Hpro. unfold acpi_exec_push_opstack_or_die.
      cbn [opstack opstack_ptr set_opstack set_opstack_ptr].
      replace (base =? 16) with false by (symmetry; apply Z.eqb_neq; lia).
      unfold bind, defined. rewrite Hl3. reflexivity. }
    rewrite Hw0. split; [reflexivity|]. split; [|split; [|repeat split]].
    + intros _. unfold update_opstack, at_index.
      cbn [opstack set_opstack set_opstack_ptr].
      replace (base <? 0) with false by (symmetry; apply Z.ltb_ge; lia).
      rewrite list_lookup_alter_eq.
      pose proof (at_index_store_eq _ _ _ _ Hl3) as Hat. unfold at_index in Hat.
      replace (base <? 0) with false in Hat by (symmetry; apply Z.ltb_ge; lia).
      rewrite Hat. reflexivity.
    + intros k Hk. unfold update_opstack, at_index.
      cbn [opstack set_opstack set_opstack_ptr].
      destruct (k <? 0) eqn:E; [reflexivity|]. pose proof E as E'. apply Z.ltb_ge in E'.
      rewrite list_lookup_alter_ne by lia.
      pose proof (at_index_store_ne _ _ _ k _ Hl3 ltac:(lia)) as Hat.
      unfold at_index in Hat. rewrite E in Hat. rewrite Hat.
      pose proof (Hl2 k ltac:(lia)) as Hat2. unfold at_index in Hat2. rewrite E in Hat2.
      rewrite Hat2.
      pose proof (Hl1 k Hk) as Hat1. unfold at_index in Hat1. rewrite E in Hat1.
      exact Hat1.
  - exists (set_opstack_ptr (set_opstack (set_opstack st l1) l2) base).
    assert (Hw0 : (w =? 0) = true).
    { unfold truthy in Hw. destruct (w =? 0); [reflexivity | discriminate Hw]. }
    split; [rewrite Hpro; reflexivity|].
    rewrite Hw0. split; [reflexivity|]. split; [|split; [|repeat split]].
    + intros Hne. apply Z.eqb_eq in Hw0. contradiction.
    + intros k Hk. cbn [opstack set_opstack set_opstack_ptr].
      rewrite Hl2 by lia. exact (Hl1 k Hk).
Qed.

End Reduction.

(** X13 (exec.c, the operator scope of [acpi_exec_run]): while operands are
    missing the next opcode is dispatched with its result wanted. Once the
    operand stack holds all [n] operands above [base], the operator is
    reduced, the operands are popped, a copy of the result is pushed exactly
    when it is wanted, so the operand stack ends at [base] or [base + 1] with
    the slots below [base] as they were, the result goes to the target at
    the instruction pointer, and the scope is popped. *)
Theorem operator_reduces {W : Type} (env : collaborators W) (fuel : nat)
    (method : list Z) (size i : Z) (st : acpi_state_t) (h : host_t W)
    (c base n w : Z) (ops' : list acpi_object_t) (result : acpi_object_t) :
  acpi_exec_peek_stack_back st h = Ok (Some (LAI_OP_STACKITEM c base n w), h) ->
  length (opstack st) = 16%nat ->
  0 <= base -> 0 < n -> base + n <= 16 ->
  acpi_exec_reduce c (drop (Z.to_nat base) (opstack st)) zero_object = Ok (ops', result) ->
  (opstack_ptr st <> base + n -> i <= size ->
   reaches_opcode env method size i st h 1) /\
  (opstack_ptr st = base + n ->
   exists st3,
     acpi_exec_step env fuel method size i st h =
       bind (acpi_write_object env method i result st3)
            (fun x => let '(m, st4) := x in
                      ret (Some (i + m, acpi_exec_pop_stack_back st4))) h /\
     opstack_ptr st3 = (if w =? 0 then base else base + 1) /\
     (w <> 0 -> at_index (opstack st3) base = Some result) /\
     (forall k, k < base -> at_index (opstack st3) k = at_index (opstack st) k) /\
     same_outside_opstack st st3).
Proof.
  intros Hpeek Hlen Hbase Hn Hfit Hreduce. split.
  - intros Hne Hi. exists (LAI_OP_STACKITEM c base n w).
    split; [exact Hpeek|]. split; [|exact Hi].
    cbn [scope_prologue].
    replace (opstack_ptr st =? base + n) with false
      by (symmetry; apply Z.eqb_neq; exact Hne).
    reflexivity.
  - intros Hptr.
    destruct (prologue_operator_complete env method size i st h c base n w ops' result
                Hlen Hbase Hn Hptr Hfit Hreduce)
      as (st3 & Hpro & Hp & Hslot & Hbelow & Hsame).
    exists st3. split; [|auto].
    unfold acpi_exec_step, acpi_exec_run_iter.
    rewrite (bind_Ok _ _ _ _ _ Hpeek). cbv beta iota.
    unfold bind at 1. rewrite Hpro. unfold bind.
    destruct (acpi_write_object env method i result st3 h) as [[[m st4] h']| | |];
      reflexivity.
Qed.

Lemma operator_reduces_witness :
  exists st',
    acpi_exec_step Reference.env 0 add_one_one 4 3 add_one_one_state Reference.host
      = Ok (Some (4, st'), Reference.host) /\
    opstack_ptr st' = 1 /\
    at_index (opstack st') 0 = Some (integer_result zero_object 2) /\
    stack_ptr st' = 0.
Proof.
  destruct (operator_reduces Reference.env 0 add_one_one 4 3 add_one_one_state
              Reference.host ADD_OP 0 2 1 (opstack add_one_one_state)
              (integer_result zero_object 2)) as [_ Hdone];
    [reflexivity | reflexivity | lia | lia | lia | vm_compute; reflexivity |].
  destruct (Hdone eq_refl) as (st3 & Hstep & Hp & Hslot & _ & Hsame).
  destruct Hsame as (_ & _ & _ & _ & _ & Hsp).
  exists (acpi_exec_pop_stack_back st3). split; [|split; [|split]].
  - rewrite Hstep. reflexivity.
  - exact Hp.
  - apply Hslot. lia.
  - unfold acpi_exec_pop_stack_back. cbn. rewrite Hsp. reflexivity.
Defined.

(** ** Sleep *)

Section SleepSteps.
Context {W : Type} (env : collaborators W).

Lemma dispatch_sleep (method : list Z) (i : Z) (st : acpi_state_t) (want : Z) :
  dispatch_opcode env method i st want EXTOP_PREFIX
                  (Z.lor (Z.shiftl EXTOP_PREFIX 8) SLEEP_OP) =
  bind (acpi_exec_sleep env method i st) (fun x => let '(n, st1) := x in ret (i + n, st1)).
Proof. reflexivity. Qed.

Lemma exec_sleep_Ok (data : list Z) (i n : Z) (st st1 : acpi_state_t) (h h1 : host_t W)
    (time : acpi_object_t) :
  acpi_eval_object env st data (i + 2) h = Ok ((n, time, st1), h1) ->
  acpi_exec_sleep env data i st h =
    Ok ((2 + n, st1),
        Build_host (external h1)
          (EvSleep (if integer time =? 0 then 1 else integer time) :: trace h1)).
Proof.
  intros Heval. unfold acpi_exec_sleep.
  rewrite (bind_Ok _ _ _ _ _ Heval). cbv beta iota.
  destruct (integer time =? 0); reflexivity.
Qed.

End SleepSteps.

(** X14 (exec.c, [acpi_exec_sleep] and the Sleep case of [acpi_exec_run]): an
    iteration that executes the two-byte Sleep opcode evaluates the object
    after the two opcode bytes, sleeps once, for the value of that object and
    for one millisecond when the value is zero, so never for zero
    milliseconds, and moves the instruction pointer past the opcode and the
    object. The interpreter state is the one the evaluation left. *)
Theorem sleep_waits {W : Type} (env : collaborators W) (fuel : nat)
    (method : list Z) (size i n : Z) (st st1 : acpi_state_t) (h h1 : host_t W)
    (want : Z) (time : acpi_object_t) :
  reaches_opcode env method size i st h want ->
  at_index method i = Some EXTOP_PREFIX ->
  at_index method (i + 1) = Some SLEEP_OP ->
  i + 1 <> size ->
  acpi_is_name env EXTOP_PREFIX = false ->
  acpi_eval_object env st method (i + 2) h = Ok ((n, time, st1), h1) ->
  exists ms,
    acpi_exec_step env fuel method size i st h =
      Ok (Some (i + (2 + n), st1), Build_host (external h1) (EvSleep ms :: trace h1)) /\
    ms <> 0 /\
    (integer time <> 0 -> ms = integer time) /\
    (integer time = 0 -> ms = 1).
Proof.
  intros Hreach Hb Hb2 Hlast Hname Heval.
  exists (if integer time =? 0 then 1 else integer time). split.
  - unfold acpi_exec_step.
    rewrite (run_iter_opcode env _ _ _ _ _ _ _ _ Hreach Hb Hname).
    assert (Hfetch : fetch_opcode method size i EXTOP_PREFIX h =
                     Ok (Z.lor (Z.shiftl EXTOP_PREFIX 8) SLEEP_OP, h)).
    { unfold fetch_opcode. rewrite Z.eqb_refl.
      replace (i + 1 =? size) with false by (symmetry; apply Z.eqb_neq; exact Hlast).
      unfold bind, defined. rewrite Hb2. reflexivity. }
    rewrite bind_bind. rewrite (bind_Ok _ _ _ _ _ Hfetch). cbv beta.
    rewrite dispatch_sleep. rewrite bind_bind.
    rewrite (bind_Ok _ _ _ _ _ (exec_sleep_Ok env _ _ _ _ _ _ _ _ Heval)).
    reflexivity.
  - destruct (integer time =? 0) eqn:E.
    + apply Z.eqb_eq in E. split; [lia|]. split; [intros Hne; contradiction | reflexivity].
    + apply Z.eqb_neq in E. split; [exact E|]. split; [reflexivity | intros H0; contradiction].
Qed.

Lemma sleep_waits_witness :
  acpi_exec_step Reference.env 0 [0x5B; 0x22; 0x00] 3 0
    (entered_state [0x5B; 0x22; 0x00]) Reference.host
  = Ok (Some (3, entered_state [0x5B; 0x22; 0x00]), Build_host tt [EvSleep 1]).
Proof.
  destruct (sleep_waits Reference.env 0 [0x5B; 0x22; 0x00] 3 0 1
              (entered_state [0x5B; 0x22; 0x00]) (entered_state [0x5B; 0x22; 0x00])
              Reference.host Reference.host 0 (integer_result zero_object 0))
    as (ms & Hstep & _ & _ & Hone).
  - exists LAI_METHOD_CONTEXT_STACKITEM. split; [reflexivity|]. split; [reflexivity | lia].
  - reflexivity.
  - reflexivity.
  - lia.
  - reflexivity.
  - reflexivity.
  - rewrite Hstep, (Hone eq_refl). reflexivity.
Defined.

(** ** Method invocation *)

Section Invocation.
Context {W : Type} (env : collaborators W).

(** The argument loop writes argument slots [current_argc] to
    [current_argc + count - 1] of the callee's state and nothing else of
    it. *)
Lemma eval_arguments_state (count : nat) :
  forall (current_argc : Z) (data : list Z) (p return_size : Z)
         (state old_state : acpi_state_t) (h : host_t W)
         (r : Z) (state' old_state' : acpi_state_t) (h' : host_t W),
    0 <= current_argc ->
    eval_arguments env count current_argc data p return_size state old_state h
      = Ok ((r, state', old_state'), h') ->
    handle state' = handle state /\
    length (arg state') = length (arg state) /\
    (forall k, k < current_argc \/ current_argc + Z.of_nat count <= k ->
               at_index (arg state') k = at_index (arg state) k) /\
    local state' = local state /\ retvalue state' = retvalue state /\
    opstack state' = opstack state /\ opstack_ptr state' = opstack_ptr state /\
    stack state' = stack state /\ stack_ptr state' = stack_ptr state.
Proof.
  induction count as [|count IH]; intros cur data p rs state old h r state' old' h' Hcur H;
    cbn [eval_arguments] in H.
  - ok_inv H. repeat split; reflexivity.
  - inv_bind H as [[arg_size o] old1] Heval.
    inv_bind H as args Hargs. apply defined_Ok_inv in Hargs. destruct Hargs as [Hargs ->].
    apply IH in H; [|lia].
    destruct H as (Hh & Hlen & Hslots & Hl & Hr & Ho & Hop & Hs & Hsp).
    cbn in Hh, Hlen, Hslots, Hl, Hr, Ho, Hop, Hs, Hsp.
    split; [exact Hh|]. split.
    { rewrite Hlen. exact (store_index_length _ _ _ _ Hargs). }
    split; [|auto 10].
    intros k Hk. rewrite Hslots by lia.
    apply (at_index_store_ne _ _ _ _ _ Hargs). lia.
Qed.

(** With at most seven arguments, the argument loop does not leave the
    argument array. *)
Lemma argc_range (flags : Z) : 0 <= Z.land flags METHOD_ARGC_MASK <= 7.
Proof.
  unfold METHOD_ARGC_MASK. split.
  - apply Z.land_nonneg. right. lia.
  - change 7 with (Z.ones 3). rewrite Z.land_ones by lia.
    pose proof (Z.mod_pos_bound flags (2 ^ 3) ltac:(lia)). change (Z.ones 3) with 7. lia.
Qed.

End Invocation.

(** X15 (exec.c, [acpi_methodinvoke]): an invocation of a name that resolves
    to no method panics. Otherwise the callee runs in a state of its own: it
    is the state of [acpi_init_call_state] for the resolved method in which
    only the first [argc] argument slots have been written, [argc] being the
    low three bits of the method's flags, so at most seven. The invocation
    yields the callee's return value, the size that the argument loop has
    summed up from the name size on, and the caller's state as the
    evaluation of the arguments left it. *)
Theorem methodinvoke_calls {W : Type} (env : collaborators W) (fuel : nat)
    (data : list Z) (i name_size : Z) (path0 : String.string)
    (old_state : acpi_state_t) (method_return : acpi_object_t) (h h1 : host_t W) :
  acpins_resolve_path env (handle old_state) data i h = Ok ((name_size, path0), h1) ->
  (forall h2, acpi_exec_resolve env path0 h1 = Ok (None, h2) ->
     acpi_methodinvoke env (acpi_exec_method env fuel) data i old_state method_return h
       = Panic "undefined MethodInvokation %s") /\
  (forall method h2 return_size state old_state' h3 status state' h4,
     acpi_exec_resolve env path0 h1 = Ok (Some method, h2) ->
     eval_arguments env (Z.to_nat (Z.land (method_flags method) METHOD_ARGC_MASK)) 0
       data (i + name_size) name_size (acpi_init_call_state method) old_state h2
       = Ok ((return_size, state, old_state'), h3) ->
     acpi_exec_method env fuel state h3 = Ok ((status, state'), h4) ->
     acpi_methodinvoke env (acpi_exec_method env fuel) data i old_state method_return h
       = Ok ((return_size, old_state', retvalue state'), h4) /\
     0 <= Z.land (method_flags method) METHOD_ARGC_MASK <= 7 /\
     callee_state method (Z.land (method_flags method) METHOD_ARGC_MASK) state).
Proof.
  intros Hpath. split.
  - intros h2 Hres. unfold acpi_methodinvoke.
    rewrite (bind_Ok _ _ _ _ _ Hpath). cbv beta iota.
    rewrite (bind_Ok _ _ _ _ _ Hres). reflexivity.
  - intros method h2 rs state old' h3 status state' h4 Hres Hargs Hexec.
    pose proof (argc_range (method_flags method)) as Hargc.
    split; [|split; [exact Hargc|]].
    + unfold acpi_methodinvoke.
      rewrite (bind_Ok _ _ _ _ _ Hpath). cbv beta iota.
      rewrite (bind_Ok _ _ _ _ _ Hres). cbv beta iota zeta.
      change (0 + name_size) with name_size.
      rewrite (bind_Ok _ _ _ _ _ Hargs). cbv beta iota.
      rewrite (bind_Ok _ _ _ _ _ Hexec). reflexivity.
    + apply eval_arguments_state in Hargs; [|lia].
      destruct Hargs as (Hh & Hlen & Hslots & Hl & Hr & Ho & Hop & Hs & Hsp).
      unfold callee_state.
      split; [exact Hh|]. split; [rewrite Hlen; reflexivity|].
      split; [|auto 10].
      intros k Hk. rewrite Hslots by lia.
      unfold at_index. replace (k <? 0) with false by (symmetry; apply Z.ltb_ge; lia).
      cbn [arg acpi_init_call_state]. apply lookup_replicate_2. lia.
Qed.

Lemma methodinvoke_calls_witness :
  exists st,
    acpi_methodinvoke (env_resolving rev_node) (acpi_exec_method (env_resolving rev_node) 0)
      rev_invocation 0 (entered_state rev_invocation) zero_object Reference.host
    = Ok ((5, entered_state rev_invocation,
           integer_result zero_object acpi_implemented_version),
          Build_host tt [EvDebug "_REV returned %d"]) /\
    callee_state rev_node 1 st /\
    at_index (arg st) 0 = Some (integer_result zero_object 1).
Proof.
  destruct (methodinvoke_calls (env_resolving rev_node) 0 rev_invocation 0 4 EmptyString
              (entered_state rev_invocation) zero_object Reference.host Reference.host
              eq_refl) as [_ Hcall].
  eexists.
  destruct (Hcall rev_node Reference.host 5 _ (entered_state rev_invocation) Reference.host
              0 _ (Build_host tt [EvDebug "_REV returned %d"]) eq_refl eq_refl eq_refl)
    as (Hrun & _ & Hstate).
  split; [exact Hrun|]. split; [exact Hstate | reflexivity].
Defined.

(** ** Opcodes that stand for a value *)

Section Values.
Context {W : Type} (env : collaborators W).

Lemma push_opstack_room (st : acpi_state_t) (h : host_t W) :
  opstack_room st ->
  exists l,
    store_index (opstack st) (opstack_ptr st) zero_object = Some l /\
    acpi_exec_push_opstack_or_die st h =
      Ok ((opstack_ptr st, set_opstack_ptr (set_opstack st l) (opstack_ptr st + 1)), h).
Proof.
  intros [Hlen Hptr].
  destruct (store_index_in_range (opstack st) (opstack_ptr st) zero_object) as [l Hl];
    [lia|].
  exists l. split; [exact Hl|].
  unfold acpi_exec_push_opstack_or_die.
  replace (opstack_ptr st =? 16) with false by (symmetry; apply Z.eqb_neq; lia).
  unfold bind, defined. rewrite Hl. reflexivity.
Qed.

Lemma pushes_update (st : acpi_state_t) (l : list acpi_object_t)
    (f : acpi_object_t -> acpi_object_t) :
  0 <= opstack_ptr st ->
  store_index (opstack st) (opstack_ptr st) zero_object = Some l ->
  pushes st
    (update_opstack (set_opstack_ptr (set_opstack st l) (opstack_ptr st + 1))
                    (opstack_ptr st) f)
    (f zero_object).
Proof.
  intros Hptr Hl. unfold pushes. split; [reflexivity|]. split; [|split].
  - unfold update_opstack, at_index. cbn [opstack set_opstack set_opstack_ptr].
    replace (opstack_ptr st <? 0) with false by (symmetry; apply Z.ltb_ge; lia).
    rewrite list_lookup_alter_eq.
    pose proof (at_index_store_eq _ _ _ _ Hl) as Hat. unfold at_index in Hat.
    replace (opstack_ptr st <? 0) with false in Hat by (symmetry; apply Z.ltb_ge; lia).
    rewrite Hat. reflexivity.
  - intros k Hk. unfold update_opstack, at_index.
    cbn [opstack set_opstack set_opstack_ptr].
    destruct (k <? 0) eqn:E; [reflexivity|]. pose proof E as E'. apply Z.ltb_ge in E'.
    rewrite list_lookup_alter_ne by lia.
    pose proof (at_index_store_ne _ _ _ k _ Hl ltac:(lia)) as Hat.
    unfold at_index in Hat. rewrite E in Hat. exact Hat.
  - repeat split.
Qed.

Lemma push_integer_yields (want : Z) (st : acpi_state_t) (v : Z) (h : host_t W) :
  (want <> 0 -> opstack_room st) ->
  exists st',
    push_integer_if_wanted want st v h = Ok (st', h) /\
    yields want st st' (integer_result zero_object v).
Proof.
  intros Hroom. unfold push_integer_if_wanted, yields, truthy.
  destruct (want =? 0) eqn:Hw; cbn [negb].
  - exists st. split; reflexivity.
  - apply Z.eqb_neq in Hw. specialize (Hroom Hw).
    destruct (push_opstack_room st h Hroom) as (l & Hl & Hpush).
    eexists. split.
    + rewrite (bind_Ok _ _ _ _ _ Hpush). reflexivity.
    + apply (pushes_update st l (fun o => integer_result o v)); [apply Hroom | exact Hl].
Qed.

Lemma push_copy_yields (want : Z) (st : acpi_state_t) (slots : list acpi_object_t)
    (n : Z) (src : acpi_object_t) (h : host_t W) :
  (want <> 0 -> opstack_room st) ->
  at_index slots n = Some src ->
  exists st',
    push_copy_if_wanted want st slots n h = Ok (st', h) /\ yields want st st' src.
Proof.
  intros Hroom Hsrc. unfold push_copy_if_wanted, yields, truthy.
  destruct (want =? 0) eqn:Hw; cbn [negb].
  - exists st. split; reflexivity.
  - apply Z.eqb_neq in Hw. specialize (Hroom Hw).
    destruct (push_opstack_room st h Hroom) as (l & Hl & Hpush).
    eexists. split.
    + rewrite (bind_Ok _ _ _ _ _ Hpush). cbv beta iota.
      unfold bind, defined. rewrite Hsrc. reflexivity.
    + apply (pushes_update st l (fun o => acpi_copy_object o src)); [apply Hroom | exact Hl].
Qed.

(** The case of the switch that an opcode with a value runs. *)
Lemma dispatch_leaf_case (method : list Z) (i : Z) (st : acpi_state_t) (want b : Z)
    (v : acpi_object_t) :
  leaf_value st b = Some v ->
  (exists x, v = integer_result zero_object x /\
     dispatch_opcode env method i st want b b =
       bind (push_integer_if_wanted want st x) (fun st1 => ret (i + 1, st1))) \/
  (exists slots n, at_index slots n = Some v /\
     dispatch_opcode env method i st want b b =
       bind (push_copy_if_wanted want st slots n) (fun st1 => ret (i + 1, st1))).
Proof.
  intros Hv. unfold leaf_value in Hv.
  destruct (b =? ZERO_OP) eqn:E0.
  { apply Z.eqb_eq in E0. subst b. injection Hv as <-.
    left. exists 0. split; reflexivity. }
  destruct (b =? ONE_OP) eqn:E1.
  { apply Z.eqb_eq in E1. subst b. injection Hv as <-.
    left. exists 1. split; reflexivity. }
  destruct (b =? ONES_OP) eqn:E2.
  { apply Z.eqb_eq in E2. subst b. injection Hv as <-.
    left. exists (wrap64 (Z.lnot 0)). split; reflexivity. }
  destruct ((ARG0_OP <=? b) && (b <=? ARG6_OP)) eqn:Ea.
  { apply andb_true_iff in Ea. destruct Ea as [Hlo Hhi].
    apply Z.leb_le in Hlo, Hhi. unfold ARG0_OP, ARG6_OP in Hlo, Hhi.
    right. exists (arg st), (b - ARG0_OP). split; [exact Hv|].
    assert (Hb : b = ARG0_OP \/ b = ARG1_OP \/ b = ARG2_OP \/ b = ARG3_OP \/
                 b = ARG4_OP \/ b = ARG5_OP \/ b = ARG6_OP)
      by (unfold ARG0_OP, ARG1_OP, ARG2_OP, ARG3_OP, ARG4_OP, ARG5_OP, ARG6_OP; lia).
    repeat (destruct Hb as [->|Hb]; [reflexivity|]). subst b. reflexivity. }
  destruct ((LOCAL0_OP <=? b) && (b <=? LOCAL7_OP)) eqn:El; [|discriminate Hv].
  apply andb_true_iff in El. destruct El as [Hlo Hhi].
  apply Z.leb_le in Hlo, Hhi. unfold LOCAL0_OP, LOCAL7_OP in Hlo, Hhi.
  right. exists (local st), (b - LOCAL0_OP). split; [exact Hv|].
  assert (Hb : b = LOCAL0_OP \/ b = LOCAL1_OP \/ b = LOCAL2_OP \/ b = LOCAL3_OP \/
               b = LOCAL4_OP \/ b = LOCAL5_OP \/ b = LOCAL6_OP \/ b = LOCAL7_OP)
    by (unfold LOCAL0_OP, LOCAL1_OP, LOCAL2_OP, LOCAL3_OP, LOCAL4_OP, LOCAL5_OP,
          LOCAL6_OP, LOCAL7_OP; lia).
  repeat (destruct Hb as [->|Hb]; [reflexivity|]). subst b. reflexivity.
Qed.

Lemma leaf_value_single_byte (st : acpi_state_t) (b : Z) (v : acpi_object_t) :
  leaf_value st b = Some v -> (b =? EXTOP_PREFIX) = false.
Proof.
  unfold leaf_value. intros Hv. apply Z.eqb_neq. intros ->.
  discriminate Hv.
Qed.


Lemma dispatch_leaf (method : list Z) (i : Z) (st : acpi_state_t) (want b : Z)
    (v : acpi_object_t) (h : host_t W) :
  leaf_value st b = Some v ->
  (want <> 0 -> opstack_room st) ->
  exists st',
    dispatch_opcode env method i st want b b h = Ok ((i + 1, st'), h) /\
    yields want st st' v.
Proof.
  intros Hv Hroom.
  destruct (dispatch_leaf_case method i st want b v Hv)
    as [(x & -> & Hcase) | (slots & n & Hsrc & Hcase)]; rewrite Hcase.
  - destruct (push_integer_yields want st x h Hroom) as (st' & Hpush & Hy).
    exists st'. split; [|exact Hy]. rewrite (bind_Ok _ _ _ _ _ Hpush). reflexivity.
  - destruct (push_copy_yields want st slots n v h Hroom Hsrc) as (st' & Hpush & Hy).
    exists st'. split; [|exact Hy]. rewrite (bind_Ok _ _ _ _ _ Hpush). reflexivity.
Qed.


End Values.



(** ** Names *)

Section Names.
Context {W : Type} (env : collaborators W).

Lemma run_iter_name (invoke : list Z -> Z -> acpi_state_t -> acpi_object_t ->
                              M W (Z * acpi_state_t * acpi_object_t))
    (method : list Z) (size i : Z) (st : acpi_state_t) (h : host_t W) (want b : Z) :
  reaches_opcode env method size i st h want ->
  at_index method i = Some b ->
  acpi_is_name env b = true ->
  acpi_exec_run_iter env invoke method size i st h =
  bind (dispatch_name env invoke method i st want) (fun r => ret (Some r)) h.
Proof.
  intros (item & Hpeek & Hpro & Hsize) Hb Hname.
  unfold acpi_exec_run_iter.
  rewrite (bind_Ok _ _ _ _ _ Hpeek), (bind_Ok _ _ _ _ _ Hpro).
  unfold dispatch.
  replace (i >? size) with false by (symmetry; rewrite Z.gtb_ltb; apply Z.ltb_ge; lia).
  unfold bind at 1 2. unfold defined. rewrite Hb. unfold ret at 1. rewrite Hname.
  unfold bind. reflexivity.
Qed.

Lemma push_move_yields (want : Z) (st : acpi_state_t) (result : acpi_object_t)
    (h : host_t W) :
  (want <> 0 -> opstack_room st) ->
  exists st',
    (if truthy want
     then bind (acpi_exec_push_opstack_or_die st)
            (fun x => let '(opstack_res, s) := x in
               ret (update_opstack s opstack_res
                      (fun o => fst (acpi_move_object o result))))
     else ret st) h = Ok (st', h) /\
    yields want st st' result.
Proof.
  intros Hroom. unfold yields, truthy.
  destruct (want =? 0) eqn:Hw; cbn [negb].
  - exists st. split; reflexivity.
  - apply Z.eqb_neq in Hw. specialize (Hroom Hw).
    destruct (push_opstack_room st h Hroom) as (l & Hl & Hpush).
    eexists. split.
    + rewrite (bind_Ok _ _ _ _ _ Hpush). reflexivity.
    + apply (pushes_update st l (fun o => fst (acpi_move_object o result)));
        [apply Hroom | exact Hl].
Qed.

End Names.

(** X17 (exec.c, the name branch of [acpi_exec_run]): an iteration at a name
    resolves it. A name that resolves to nothing and a node that is neither
    a name, a method nor a field are panics. A Name node yields a copy of its
    object and a field yields what [acpi_read_opregion] reads, both with the
    instruction pointer moved past the name; a method is invoked and yields
    its return value, with the instruction pointer moved by what the
    invocation consumed. *)
Theorem name_reference {W : Type} (env : collaborators W) (fuel : nat)
    (method : list Z) (size i : Z) (st : acpi_state_t) (h h1 : host_t W)
    (want b name_size : Z) (name : String.string) :
  reaches_opcode env method size i st h want ->
  at_index method i = Some b ->
  acpi_is_name env b = true ->
  acpins_resolve_path env (handle st) method i h = Ok ((name_size, name), h1) ->
  (forall h2, acpi_exec_resolve env name h1 = Ok (None, h2) ->
     acpi_exec_step env fuel method size i st h = Panic "undefined reference %s") /\
  (forall node h2,
     acpi_exec_resolve env name h1 = Ok (Some node, h2) ->
     (node_type node = ACPI_NAMESPACE_OTHER ->
      acpi_exec_step env fuel method size i st h
        = Panic "unexpected type of named object") /\
     (node_type node = ACPI_NAMESPACE_NAME ->
      (want <> 0 -> opstack_room st) ->
      exists st',
        acpi_exec_step env fuel method size i st h = Ok (Some (i + name_size, st'), h2) /\
        yields want st st' (object node)) /\
     (forall r h3,
        node_type node = ACPI_NAMESPACE_FIELD \/
        node_type node = ACPI_NAMESPACE_INDEXFIELD ->
        acpi_read_opregion env node h2 = Ok (r, h3) ->
        (want <> 0 -> opstack_room st) ->
        exists st',
          acpi_exec_step env fuel method size i st h = Ok (Some (i + name_size, st'), h3) /\
          yields want st st' r) /\
     (forall n st1 r h3,
        node_type node = ACPI_NAMESPACE_METHOD ->
        acpi_methodinvoke env (acpi_exec_method env fuel) method i st zero_object h2
          = Ok ((n, st1, r), h3) ->
        (want <> 0 -> opstack_room st1) ->
        exists st',
          acpi_exec_step env fuel method size i st h = Ok (Some (i + n, st'), h3) /\
          yields want st1 st' r)).
Proof.
  intros Hreach Hb Hname Hpath.
  assert (Hstep : forall found h2,
            acpi_exec_resolve env name h1 = Ok (found, h2) ->
            acpi_exec_step env fuel method size i st h =
            bind (match found with
                  | None => acpi_panic "undefined reference %s"
                  | Some node =>
                      bind (match node_type node with
                            | ACPI_NAMESPACE_NAME =>
                                ret (i + name_size,
                                     acpi_copy_object zero_object (object node), st)
                            | ACPI_NAMESPACE_METHOD =>
                                bind (acpi_methodinvoke env (acpi_exec_method env fuel)
                                        method i st zero_object)
                                  (fun x => let '(n, st', r) := x in ret (i + n, r, st'))
                            | ACPI_NAMESPACE_FIELD | ACPI_NAMESPACE_INDEXFIELD =>
                                bind (acpi_read_opregion env node)
                                  (fun r => ret (i + name_size, r, st))
                            | ACPI_NAMESPACE_OTHER =>
                                acpi_panic "unexpected type of named object"
                            end)
                        (fun x => let '(i1, result, st1) := x in
                           bind (if truthy want
                                 then bind (acpi_exec_push_opstack_or_die st1)
                                        (fun y => let '(opstack_res, s) := y in
                                           ret (update_opstack s opstack_res
                                                  (fun o => fst (acpi_move_object o result))))
                                 else ret st1)
                             (fun st2 => ret (i1, st2)))
                  end) (fun r => ret (Some r)) h2).
  { intros found h2 Hres. unfold acpi_exec_step.
    rewrite (run_iter_name env _ _ _ _ _ _ _ _ Hreach Hb Hname).
    unfold dispatch_name. rewrite bind_bind.
    rewrite (bind_Ok _ _ _ _ _ Hpath). cbv beta iota.
    rewrite bind_bind. rewrite (bind_Ok _ _ _ _ _ Hres). reflexivity. }
  split.
  - intros h2 Hres. rewrite (Hstep _ _ Hres). reflexivity.
  - intros node h2 Hres. rewrite (Hstep _ _ Hres). clear Hstep.
    split; [|split; [|split]].
    + intros Htype. rewrite Htype. reflexivity.
    + intros Htype Hroom. rewrite Htype.
      destruct (push_move_yields want st (object node) h2 Hroom) as (st' & Hpush & Hy).
      exists st'. split; [|exact Hy].
      rewrite bind_bind. unfold bind at 1. unfold ret at 1. cbv beta iota.
      rewrite bind_bind. unfold acpi_copy_object.
      rewrite (bind_Ok _ _ _ _ _ Hpush). reflexivity.
    + intros r h3 Htype Hread Hroom.
      destruct (push_move_yields want st r h3 Hroom) as (st' & Hpush & Hy).
      exists st'. split; [|exact Hy].
      rewrite bind_bind.
      destruct Htype as [Htype|Htype]; rewrite Htype;
        rewrite bind_bind, (bind_Ok _ _ _ _ _ Hread); cbv beta;
        unfold bind at 1; unfold ret at 1; cbv beta iota;
        rewrite bind_bind, (bind_Ok _ _ _ _ _ Hpush); reflexivity.
    + intros n st1 r h3 Htype Hinvoke Hroom. rewrite Htype.
      destruct (push_move_yields want st1 r h3 Hroom) as (st' & Hpush & Hy).
      exists st'. split; [|exact Hy].
      rewrite bind_bind, bind_bind, (bind_Ok _ _ _ _ _ Hinvoke). cbv beta iota.
      unfold bind at 1. unfold ret at 1. cbv beta iota.
      rewrite bind_bind, (bind_Ok _ _ _ _ _ Hpush). reflexivity.
Qed.

Lemma name_reference_witness :
  exists st',
    acpi_exec_step (env_resolving seven_node) 0 add_seven 7 1 add_seven_state Reference.host
      = Ok (Some (5, st'), Reference.host) /\
    opstack_ptr st' = 1 /\
    at_index (opstack st') 0 = Some (integer_result zero_object 7).
Proof.
  destruct (name_reference (env_resolving seven_node) 0 add_seven 7 1 add_seven_state
              Reference.host Reference.host 1 0x53 4 EmptyString) as [_ Hnode].
  - exists (LAI_OP_STACKITEM ADD_OP 0 2 1).
    split; [reflexivity|]. split; [reflexivity | lia].
  - reflexivity.
  - reflexivity.
  - reflexivity.
  - destruct (Hnode seven_node Reference.host eq_refl) as (_ & Hname & _).
    destruct Hname as (st' & Hstep & Hp & Hslot & _).
    + reflexivity.
    + intros _. split; [reflexivity | cbn; lia].
    + exists st'. split; [exact Hstep|]. split; [exact Hp | exact Hslot].
Defined.

(** ** Literals *)

Section Literals.
Context {W : Type} (env : collaborators W).


Lemma dispatch_package (method : list Z) (i : Z) (st : acpi_state_t) (want : Z) :
  dispatch_opcode env method i st want PACKAGE_OP PACKAGE_OP =
  bind (acpi_parse_pkgsize env method (i + 1))
    (fun x => let '(_, encoded_size) := x in
       bind (if truthy want then
               bind (acpi_exec_push_opstack_or_die st)
                 (fun y => let '(result, s) := y in
                    bind (acpins_create_package env (handle s) method i)
                      (fun z => let '(n, entries) := z in
                         ret (update_opstack s result
                                (fun o => set_package (set_type o ACPI_PACKAGE) entries n))))
             else ret st)
         (fun st1 => ret (i + (encoded_size + 1), st1))).
Proof. reflexivity. Qed.

End Literals.



(** X19 (exec.c, the case PACKAGE_OP of [acpi_exec_run]): an iteration at a
    package reads the package length after the opcode and moves the
    instruction pointer past the opcode and that many bytes. The package is
    created, and pushed with the type of a package and its entry count, only
    when the result is wanted; otherwise the state is untouched and
    [acpins_create_package] is not run. *)
Theorem package_literal {W : Type} (env : collaborators W) (fuel : nat)
    (method : list Z) (size i : Z) (st : acpi_state_t) (h h1 : host_t W)
    (want m encoded_size : Z) :
  reaches_opcode env method size i st h want ->
  at_index method i = Some PACKAGE_OP ->
  acpi_is_name env PACKAGE_OP = false ->
  acpi_parse_pkgsize env method (i + 1) h = Ok ((m, encoded_size), h1) ->
  (want = 0 ->
   acpi_exec_step env fuel method size i st h
     = Ok (Some (i + (encoded_size + 1), st), h1)) /\
  (forall n entries h2,
     want <> 0 -> opstack_room st ->
     acpins_create_package env (handle st) method i h1 = Ok ((n, entries), h2) ->
     exists st',
       acpi_exec_step env fuel method size i st h
         = Ok (Some (i + (encoded_size + 1), st'), h2) /\
       pushes st st' (set_package (set_type zero_object ACPI_PACKAGE) entries n)).
Proof.
  intros Hreach Hb Hname Hsize.
  rewrite (step_single_byte env fuel method size i st h want PACKAGE_OP Hreach Hb Hname
             eq_refl).
  rewrite dispatch_package.
  rewrite bind_bind, (bind_Ok _ _ _ _ _ Hsize). cbv beta iota.
  split.
  - intros ->. reflexivity.
  - intros n entries h2 Hw Hroom Hcreate.
    replace (truthy want) with true
      by (unfold truthy; apply Z.eqb_neq in Hw; rewrite Hw; reflexivity).
    destruct (push_opstack_room st h1 Hroom) as (l & Hl & Hpush).
    eexists. split.
    + rewrite bind_bind, bind_bind, (bind_Ok _ _ _ _ _ Hpush). cbv beta iota.
      cbn [handle set_opstack set_opstack_ptr].
      rewrite bind_bind, (bind_Ok _ _ _ _ _ Hcreate). reflexivity.
    + apply (pushes_update st l
               (fun o => set_package (set_type o ACPI_PACKAGE) entries n));
        [apply Hroom | exact Hl].
Qed.

Lemma package_literal_witness :
  acpi_exec_step Reference.env 0 [0x12; 0x02; 0x00] 3 0
    (entered_state [0x12; 0x02; 0x00]) Reference.host
  = Ok (Some (3, entered_state [0x12; 0x02; 0x00]), Reference.host).
Proof.
  destruct (package_literal Reference.env 0 [0x12; 0x02; 0x00] 3 0
              (entered_state [0x12; 0x02; 0x00]) Reference.host Reference.host 0 1 2)
    as [Hskip _].
  - exists LAI_METHOD_CONTEXT_STACKITEM. split; [reflexivity|]. split; [reflexivity | lia].
  - reflexivity.
  - reflexivity.
  - reflexivity.
  - exact (Hskip eq_refl).
Defined.

(** ** Fatal paths of the dispatcher *)

(** X20 (exec.c, [acpi_exec_run]): what the dispatcher refuses. A zeroed
    scope on top of the execution stack is a panic, and so is the end of the
    body under a method context while the operand stack is not empty. When
    the scope leaves the iteration to the opcode at the instruction pointer,
    a pointer beyond the body is a panic, an Else opcode is a panic, and the
    byte at the pointer is read although the pointer may equal the size of
    the body, where there is no byte. *)
Theorem dispatcher_refuses {W : Type} (env : collaborators W) (fuel : nat)
    (method : list Z) (size i : Z) (st : acpi_state_t) (h : host_t W)
    (item : acpi_stackitem_t) :
  acpi_exec_peek_stack_back st h = Ok (Some item, h) ->
  (item = LAI_ZEROED_STACKITEM ->
   acpi_exec_step env fuel method size i st h = Panic "unexpected acpi_stackitem_t") /\
  (item = LAI_METHOD_CONTEXT_STACKITEM -> i = size -> opstack_ptr st <> 0 ->
   acpi_exec_step env fuel method size i st h
     = Panic "opstack is not empty before return") /\
  (forall want,
     scope_prologue env method size i st item h = Ok (FallThrough want, h) ->
     (size < i ->
      acpi_exec_step env fuel method size i st h
        = Panic "execution escaped out of code range") /\
     (i <= size -> at_index method i = None ->
      acpi_exec_step env fuel method size i st h = Fault) /\
     (i <= size -> at_index method i = Some ELSE_OP ->
      acpi_is_name env ELSE_OP = false ->
      acpi_exec_step env fuel method size i st h = Panic "Else() outside of If()")).
Proof.
  intros Hpeek. split; [|split].
  - intros ->. unfold acpi_exec_step, acpi_exec_run_iter.
    rewrite (bind_Ok _ _ _ _ _ Hpeek). reflexivity.
  - intros -> -> Hne. unfold acpi_exec_step, acpi_exec_run_iter.
    rewrite (bind_Ok _ _ _ _ _ Hpeek). cbn [scope_prologue].
    rewrite Z.eqb_refl.
    replace (truthy (opstack_ptr st)) with true
      by (unfold truthy; apply Z.eqb_neq in Hne; rewrite Hne; reflexivity).
    reflexivity.
  - intros want Hpro. split; [|split].
    + intros Hbeyond. unfold acpi_exec_step, acpi_exec_run_iter.
      rewrite (bind_Ok _ _ _ _ _ Hpeek), (bind_Ok _ _ _ _ _ Hpro).
      unfold dispatch.
      replace (i >? size) with true
        by (symmetry; rewrite Z.gtb_ltb; apply Z.ltb_lt; lia).
      reflexivity.
    + intros Hi Hnone. unfold acpi_exec_step, acpi_exec_run_iter.
      rewrite (bind_Ok _ _ _ _ _ Hpeek), (bind_Ok _ _ _ _ _ Hpro).
      unfold dispatch.
      replace (i >? size) with false
        by (symmetry; rewrite Z.gtb_ltb; apply Z.ltb_ge; lia).
      unfold bind, defined. rewrite Hnone. reflexivity.
    + intros Hi Hb Hname.
      assert (Hreach : reaches_opcode env method size i st h want)
        by (exists item; auto).
      rewrite (step_single_byte env fuel method size i st h want ELSE_OP Hreach Hb Hname
                 eq_refl).
      reflexivity.
Qed.

Lemma dispatcher_refuses_witness :
  acpi_exec_step Reference.env 0 [0xA1; 0x01; 0x00] 3 0
    (entered_state [0xA1; 0x01; 0x00]) Reference.host
  = Panic "Else() outside of If()".
Proof.
  destruct (dispatcher_refuses Reference.env 0 [0xA1; 0x01; 0x00] 3 0
              (entered_state [0xA1; 0x01; 0x00]) Reference.host
              LAI_METHOD_CONTEXT_STACKITEM eq_refl) as (_ & _ & Hopcode).
  destruct (Hopcode 0 eq_refl) as (_ & _ & Helse).
  apply Helse; [lia | reflexivity | reflexivity].
Defined.

(** ** Opcodes without a case *)

Section Default.
Context {W : Type} (env : collaborators W).

Lemma dispatch_default (method : list Z) (i : Z) (st : acpi_state_t)
    (want b opcode : Z) :
  switch_case opcode = false ->
  dispatch_opcode env method i st want b opcode =
  bind (acpi_debug "opcode 0x%02X is handled by acpi_eval_object()")
    (fun _ =>
       if truthy want then
         bind (acpi_exec_push_opstack_or_die st)
           (fun x => let '(operand, st1) := x in
              bind (acpi_eval_object env st1 method i)
                (fun y => let '(n, o, st2) := y in
                   ret (i + n, update_opstack st2 operand (fun _ => o))))
       else
         bind (acpi_eval_object env st method i)
           (fun y => let '(n, discarded, st1) := y in ret (i + n, st1))).
Proof.
  intros H. unfold switch_case in H.
  repeat (apply orb_false_iff in H; let H' := fresh "Hcase" in destruct H as [H H']).
  unfold dispatch_opcode.
  repeat match goal with
         | Hx : (opcode =? _) = false |- _ => rewrite Hx; clear Hx
         end.
  reflexivity.
Qed.

End Default.

(** X21 (exec.c, the default case of [acpi_exec_run]): an opcode that the
    switch has no case for is logged and handed to [acpi_eval_object] at the
    instruction pointer, which moves by what the evaluation consumed. When
    the result is wanted, an operand slot is pushed before the evaluation
    and receives the object; when it is not, the object is discarded. *)
Theorem unhandled_opcode_delegates {W : Type} (env : collaborators W) (fuel : nat)
    (method : list Z) (size i : Z) (st : acpi_state_t) (h : host_t W)
    (want b opcode : Z) :
  reaches_opcode env method size i st h want ->
  at_index method i = Some b ->
  acpi_is_name env b = false ->
  fetch_opcode method size i b h = Ok (opcode, h) ->
  switch_case opcode = false ->
  let hd := debugged "opcode 0x%02X is handled by acpi_eval_object()" h in
  (forall n o st1 h2,
     want = 0 ->
     acpi_eval_object env st method i hd = Ok ((n, o, st1), h2) ->
     acpi_exec_step env fuel method size i st h = Ok (Some (i + n, st1), h2)) /\
  (want <> 0 -> opstack_room st ->
   exists st1,
     pushes st st1 zero_object /\
     forall n o st2 h2,
       acpi_eval_object env st1 method i hd = Ok ((n, o, st2), h2) ->
       acpi_exec_step env fuel method size i st h
         = Ok (Some (i + n, update_opstack st2 (opstack_ptr st) (fun _ => o)), h2)).
Proof.
  intros Hreach Hb Hname Hfetch Hcase hd.
  assert (Hstep : acpi_exec_step env fuel method size i st h =
                  bind (dispatch_opcode env method i st want b opcode)
                       (fun r => ret (Some r)) h).
  { unfold acpi_exec_step.
    rewrite (run_iter_opcode env _ _ _ _ _ _ _ _ Hreach Hb Hname).
    rewrite bind_bind, (bind_Ok _ _ _ _ _ Hfetch). reflexivity. }
  rewrite Hstep, (dispatch_default env method i st want b opcode Hcase).
  assert (Hdebug : acpi_debug "opcode 0x%02X is handled by acpi_eval_object()" h
                   = Ok (tt, hd)) by reflexivity.
  rewrite bind_bind, (bind_Ok _ _ _ _ _ Hdebug). cbv beta.
  split.
  - intros n o st1 h2 -> Heval. cbn [truthy Z.eqb negb].
    rewrite bind_bind, (bind_Ok _ _ _ _ _ Heval). reflexivity.
  - intros Hw Hroom.
    replace (truthy want) with true
      by (unfold truthy; apply Z.eqb_neq in Hw; rewrite Hw; reflexivity).
    destruct (push_opstack_room st hd Hroom) as (l & Hl & Hpush).
    exists (set_opstack_ptr (set_opstack st l) (opstack_ptr st + 1)). split.
    + unfold pushes. cbn [opstack opstack_ptr set_opstack set_opstack_ptr].
      split; [reflexivity|]. split; [|split; [|repeat split]].
      * exact (at_index_store_eq _ _ _ _ Hl).
      * intros k Hk. apply (at_index_store_ne _ _ _ _ _ Hl). lia.
    + intros n o st2 h2 Heval.
      rewrite bind_bind, (bind_Ok _ _ _ _ _ Hpush). cbv beta iota.
      rewrite bind_bind, (bind_Ok _ _ _ _ _ Heval). reflexivity.
Qed.

Lemma unhandled_opcode_delegates_witness :
  acpi_exec_step (env_evaluating string_A 3) 0 string_literal 3 0
    (entered_state string_literal) Reference.host
  = Ok (Some (3, entered_state string_literal),
        debugged "opcode 0x%02X is handled by acpi_eval_object()" Reference.host).
Proof.
  destruct (unhandled_opcode_delegates (env_evaluating string_A 3) 0 string_literal 3 0
              (entered_state string_literal) Reference.host 0 0x0D 0x0D)
    as [Hdiscard _].
  - exists LAI_METHOD_CONTEXT_STACKITEM. split; [reflexivity|]. split; [reflexivity | lia].
  - reflexivity.
  - reflexivity.
  - reflexivity.
  - reflexivity.
  - apply (Hdiscard 3 string_A); reflexivity.
Defined.

(** ** An operator and its operands *)

Section Expression.
Context {W : Type} (env : collaborators W).

Lemma pushes_room_length (st st' : acpi_state_t) (v : acpi_object_t) :
  opstack_room st -> pushes st st' v -> length (opstack st') = 16%nat.
Proof.
  intros [Hlen Hptr] (_ & Hslot & Hother & _).
  assert (Hhi : (length (opstack st') <= 16)%nat).
  { apply lookup_ge_None.
    pose proof (Hother 16 ltac:(lia)) as H16. unfold at_index in H16.
    change (16 <? 0) with false in H16. change (Z.to_nat 16) with 16%nat in H16.
    cbv iota in H16. rewrite H16. apply lookup_ge_None_2. lia. }
  assert (Hlo : (15 < length (opstack st'))%nat).
  { apply lookup_lt_is_Some.
    destruct (Z.eq_dec (opstack_ptr st) 15) as [E|E].
    - rewrite E in Hslot. unfold at_index in Hslot.
      change (15 <? 0) with false in Hslot. change (Z.to_nat 15) with 15%nat in Hslot.
      cbv iota in Hslot. eauto.
    - pose proof (Hother 15 ltac:(lia)) as H15. unfold at_index in H15.
      change (15 <? 0) with false in H15. change (Z.to_nat 15) with 15%nat in H15.
      cbv iota in H15. rewrite H15. apply lookup_lt_is_Some. lia. }
  lia.
Qed.

Lemma peek_same_stack (st st' : acpi_state_t) (h : host_t W) :
  stack st' = stack st -> stack_ptr st' = stack_ptr st ->
  acpi_exec_peek_stack_back st' h = acpi_exec_peek_stack_back st h.
Proof.
  intros Hs Hp. unfold acpi_exec_peek_stack_back, acpi_exec_peek_stack.
  rewrite Hs, Hp. reflexivity.
Qed.

Lemma leaf_value_same (st st' : acpi_state_t) (b : Z) :
  arg st' = arg st -> local st' = local st -> leaf_value st' b = leaf_value st b.
Proof. intros Ha Hl. unfold leaf_value. rewrite Ha, Hl. reflexivity. Qed.

Lemma drop_two (l : list acpi_object_t) (base : Z) (o1 o2 : acpi_object_t) :
  0 <= base ->
  at_index l base = Some o1 -> at_index l (base + 1) = Some o2 ->
  drop (Z.to_nat base) l = o1 :: o2 :: drop (S (S (Z.to_nat base))) l.
Proof.
  intros Hbase H1 H2. unfold at_index in H1, H2.
  replace (base <? 0) with false in H1 by (symmetry; apply Z.ltb_ge; lia).
  replace (base + 1 <? 0) with false in H2 by (symmetry; apply Z.ltb_ge; lia).
  replace (Z.to_nat (base + 1)) with (S (Z.to_nat base)) in H2 by lia.
  rewrite (drop_S _ _ _ H1), (drop_S _ _ _ H2). reflexivity.
Qed.

Lemma step_leaf (fuel : nat) (method : list Z) (size i : Z) (st : acpi_state_t)
    (h : host_t W) (want b : Z) (v : acpi_object_t) :
  reaches_opcode env method size i st h want ->
  at_index method i = Some b ->
  acpi_is_name env b = false ->
  leaf_value st b = Some v ->
  (want <> 0 -> opstack_room st) ->
  exists st',
    acpi_exec_step env fuel method size i st h = Ok (Some (i + 1, st'), h) /\
    yields want st st' v.
Proof.
  intros Hreach Hb Hname Hv Hroom.
  destruct (dispatch_leaf env method i st want b v h Hv Hroom) as (st' & Hd & Hy).
  exists st'. split; [|exact Hy].
  rewrite (step_single_byte env fuel method size i st h want b Hreach Hb Hname
             (leaf_value_single_byte st b v Hv)).
  rewrite (bind_Ok _ _ _ _ _ Hd). reflexivity.
Qed.

Lemma step_operator_complete (fuel : nat) (method : list Z) (size i : Z)
    (st : acpi_state_t) (h : host_t W) (c base n w : Z)
    (ops' : list acpi_object_t) (result : acpi_object_t) :
  acpi_exec_peek_stack_back st h = Ok (Some (LAI_OP_STACKITEM c base n w), h) ->
  length (opstack st) = 16%nat ->
  0 <= base -> 0 < n -> opstack_ptr st = base + n -> base + n <= 16 ->
  acpi_exec_reduce c (drop (Z.to_nat base) (opstack st)) zero_object = Ok (ops', result) ->
  exists st3,
    acpi_exec_step env fuel method size i st h =
      bind (acpi_write_object env method i result st3)
           (fun x => let '(m, st4) := x in
                     ret (Some (i + m, acpi_exec_pop_stack_back st4))) h /\
    opstack_ptr st3 = (if w =? 0 then base else base + 1) /\
    (w <> 0 -> at_index (opstack st3) base = Some result) /\
    (forall k, k < base -> at_index (opstack st3) k = at_index (opstack st) k) /\
    same_outside_opstack st st3.
Proof.
  intros Hpeek Hlen Hbase Hn Hptr Hfit Hreduce.
  destruct (prologue_operator_complete env method size i st h c base n w ops' result
              Hlen Hbase Hn Hptr Hfit Hreduce)
    as (st3 & Hpro & Hfacts).
  exists st3. split; [|exact Hfacts].
  unfold acpi_exec_step, acpi_exec_run_iter.
  rewrite (bind_Ok _ _ _ _ _ Hpeek). cbv beta iota.
  unfold bind at 1. rewrite Hpro. unfold bind.
  destruct (acpi_write_object env method i result st3 h) as [[[m st4] h']| | |];
    reflexivity.
Qed.

End Expression.

(** X22 (exec.c, [acpi_exec_run]: the operator cases, the value opcodes and
    the operator scope together): four iterations evaluate a two-operand
    operator whose operands are constants, arguments or locals. The operator
    scope is pushed, both operands are pushed, and the fourth iteration
    reduces them: the result goes to the target after the operands and, when
    it is wanted, is the one value the expression leaves on the operand
    stack, whose slots below are untouched; arguments, locals and the scopes
    below the operator are as before. *)
Theorem binary_expression_evaluates {W : Type} (env : collaborators W) (fuel : nat)
    (method : list Z) (size i : Z) (st : acpi_state_t) (h : host_t W)
    (want c b1 b2 v : Z) (o1 o2 : acpi_object_t) :
  reaches_opcode env method size i st h want ->
  at_index method i = Some c ->
  at_index method (i + 1) = Some b1 ->
  at_index method (i + 2) = Some b2 ->
  i + 2 <= size ->
  acpi_is_name env c = false ->
  acpi_is_name env b1 = false ->
  acpi_is_name env b2 = false ->
  operator_arity c = Some 2 ->
  leaf_value st b1 = Some o1 ->
  leaf_value st b2 = Some o2 ->
  (forall rest, reduces_to c (o1 :: o2 :: rest) zero_object v) ->
  length (opstack st) = 16%nat -> 0 <= opstack_ptr st -> opstack_ptr st + 2 <= 16 ->
  stack_ptr st + 1 < Z.of_nat (length (stack st)) -> stack_ptr st + 1 <> 16 ->
  exists st3,
    acpi_exec_steps env fuel 4 method size i st h =
      bind (acpi_write_object env method (i + 3) (integer_result zero_object v) st3)
           (fun x => let '(m, st4) := x in
                     ret (Some (i + 3 + m, acpi_exec_pop_stack_back st4))) h /\
    opstack_ptr st3 = (if want =? 0 then opstack_ptr st else opstack_ptr st + 1) /\
    (want <> 0 ->
     at_index (opstack st3) (opstack_ptr st) = Some (integer_result zero_object v)) /\
    (forall k, k < opstack_ptr st -> at_index (opstack st3) k = at_index (opstack st) k) /\
    arg st3 = arg st /\ local st3 = local st /\ handle st3 = handle st /\
    stack_ptr (acpi_exec_pop_stack_back st3) = stack_ptr st /\
    (forall k, 0 <= k -> scope_at (acpi_exec_pop_stack_back st3) k = scope_at st k).
Proof.
  intros Hreach Hc Hb1 Hb2 Hsize Hnc Hn1 Hn2 Harity Hv1 Hv2 Hreduce
         Hlen Hbase Hfit Hslen Hsfull.
  pose proof (reaches_opcode_nonempty env _ _ _ _ _ _ Hreach) as Hsp.
  set (item := LAI_OP_STACKITEM c (opstack_ptr st) 2 want).
  (* the operator pushes its scope *)
  destruct (dispatch_operator env method i st want c 2 h Harity) as [Hext Hdisp].
  destruct (push_scope_facts st item h ltac:(lia) Hslen Hsfull)
    as (st0 & Hpush & Hpeek0 & Hptr0 & Hbelow0 & Hsame0).
  assert (Hstep0 : acpi_exec_step env fuel method size i st h = Ok (Some (i + 1, st0), h)).
  { rewrite (step_single_byte env fuel _ _ _ _ _ _ _ Hreach Hc Hnc Hext).
    unfold bind at 1. rewrite Hdisp. fold item.
    rewrite (bind_Ok _ _ _ _ _ Hpush). reflexivity. }
  destruct Hsame0 as (Hh0 & Ha0 & Hl0 & Hr0 & Ho0 & Hop0).
  (* the first operand *)
  assert (Hreach1 : reaches_opcode env method size (i + 1) st0 h 1).
  { exists item. split; [exact Hpeek0|]. split; [|lia].
    cbn [scope_prologue item]. rewrite Hop0.
    replace (opstack_ptr st =? opstack_ptr st + 2) with false
      by (symmetry; apply Z.eqb_neq; lia).
    reflexivity. }
  assert (Hroom0 : opstack_room st0)
    by (split; [rewrite Ho0; exact Hlen | rewrite Hop0; lia]).
  destruct (step_leaf env fuel method size (i + 1) st0 h 1 b1 o1 Hreach1 Hb1 Hn1)
    as (st1 & Hstep1 & Hy1);
    [rewrite (leaf_value_same st st0 b1 Ha0 Hl0); exact Hv1 | intros _; exact Hroom0 |].
  change (pushes st0 st1 o1) in Hy1.
  pose proof (pushes_room_length st0 st1 o1 Hroom0 Hy1) as Hlen1.
  destruct Hy1 as (Hop1 & Hslot1 & Hother1 & Hh1 & Ha1 & Hl1 & Hr1 & Hs1 & Hsp1).
  (* the second operand *)
  assert (Hpeek1 : acpi_exec_peek_stack_back st1 h = Ok (Some item, h))
    by (rewrite (peek_same_stack st0 st1 h Hs1 Hsp1); exact Hpeek0).
  assert (Hreach2 : reaches_opcode env method size (i + 2) st1 h 1).
  { exists item. split; [exact Hpeek1|]. split; [|lia].
    cbn [scope_prologue item]. rewrite Hop1, Hop0.
    replace (opstack_ptr st + 1 =? opstack_ptr st + 2) with false
      by (symmetry; apply Z.eqb_neq; lia).
    reflexivity. }
  assert (Hroom1 : opstack_room st1)
    by (split; [exact Hlen1 | rewrite Hop1, Hop0; lia]).
  destruct (step_leaf env fuel method size (i + 2) st1 h 1 b2 o2 Hreach2 Hb2 Hn2)
    as (st2 & Hstep2 & Hy2);
    [rewrite (leaf_value_same st0 st1 b2 Ha1 Hl1), (leaf_value_same st st0 b2 Ha0 Hl0);
     exact Hv2
    | intros _; exact Hroom1 |].
  change (pushes st1 st2 o2) in Hy2.
  pose proof (pushes_room_length st1 st2 o2 Hroom1 Hy2) as Hlen2.
  destruct Hy2 as (Hop2 & Hslot2 & Hother2 & Hh2 & Ha2 & Hl2 & Hr2 & Hs2 & Hsp2).
  (* the reduction *)
  assert (Hpeek2 : acpi_exec_peek_stack_back st2 h = Ok (Some item, h))
    by (rewrite (peek_same_stack st1 st2 h Hs2 Hsp2); exact Hpeek1).
  assert (Hat1 : at_index (opstack st2) (opstack_ptr st) = Some o1).
  { rewrite Hother2 by (rewrite Hop1, Hop0; lia). rewrite <- Hop0. exact Hslot1. }
  assert (Hat2 : at_index (opstack st2) (opstack_ptr st + 1) = Some o2).
  { rewrite <- Hop0, <- Hop1. exact Hslot2. }
  pose proof (drop_two _ _ _ _ Hbase Hat1 Hat2) as Hdrop.
  destruct (step_operator_complete env fuel method size (i + 3) st2 h c (opstack_ptr st) 2
              want _ (integer_result zero_object v) Hpeek2 Hlen2 Hbase ltac:(lia)
              ltac:(rewrite Hop2, Hop1, Hop0; lia) Hfit
              ltac:(rewrite Hdrop; apply Hreduce))
    as (st3 & Hstep3 & Hop3 & Hslot3 & Hbelow3 & Hh3 & Ha3 & Hl3 & Hr3 & Hs3 & Hsp3).
  exists st3. split; [|split; [exact Hop3|split; [exact Hslot3|split]]].
  - cbn [acpi_exec_steps].
    rewrite (bind_Ok _ _ _ _ _ Hstep0). cbv beta iota.
    rewrite (bind_Ok _ _ _ _ _ Hstep1). cbv beta iota.
    replace (i + 1 + 1) with (i + 2) by lia.
    rewrite (bind_Ok _ _ _ _ _ Hstep2). cbv beta iota.
    replace (i + 2 + 1) with (i + 3) by lia.
    unfold bind at 1. rewrite Hstep3. unfold bind.
    destruct (acpi_write_object env method (i + 3) (integer_result zero_object v) st3 h)
      as [[[m st4] h']| | |]; reflexivity.
  - intros k Hk. rewrite (Hbelow3 k Hk).
    rewrite Hother2 by (rewrite Hop1, Hop0; lia).
    rewrite Hother1 by (rewrite Hop0; lia).
    rewrite Ho0. reflexivity.
  - split; [congruence|]. split; [congruence|]. split; [congruence|]. split.
    + unfold acpi_exec_pop_stack_back, acpi_exec_pop_stack.
      cbn [stack_ptr set_stack_ptr]. rewrite Hsp3, Hsp2, Hsp1, Hptr0. lia.
    + intros k Hk. rewrite <- (Hbelow0 k Hk).
      unfold scope_at, acpi_exec_pop_stack_back, acpi_exec_pop_stack.
      cbn [stack stack_ptr set_stack_ptr].
      rewrite Hs3, Hs2, Hs1, Hsp3, Hsp2, Hsp1. reflexivity.
Qed.

Lemma binary_expression_evaluates_witness :
  exists st',
    acpi_exec_steps Reference.env 0 4 add_to_local 4 0 (entered_state add_to_local)
      Reference.host
    = Ok (Some (4, st'), Reference.host) /\
    at_index (local st') 0 = Some (integer_result zero_object 2) /\
    opstack_ptr st' = 0 /\ stack_ptr st' = 0.
Proof.
  destruct (binary_expression_evaluates Reference.env 0 add_to_local 4 0
              (entered_state add_to_local) Reference.host 0 ADD_OP ONE_OP ONE_OP 2
              (integer_result zero_object 1) (integer_result zero_object 1))
    as (st3 & Hsteps & Hop & _ & _ & _ & Hl & _ & Hsp & _).
  - exists LAI_METHOD_CONTEXT_STACKITEM. split; [reflexivity|]. split; [reflexivity | lia].
  - reflexivity.
  - reflexivity.
  - reflexivity.
  - lia.
  - reflexivity.
  - reflexivity.
  - reflexivity.
  - reflexivity.
  - reflexivity.
  - reflexivity.
  - intros rest. reflexivity.
  - reflexivity.
  - cbn. lia.
  - cbn. lia.
  - cbn. lia.
  - cbn. lia.
  - assert (Hloc : local st3 = replicate 8 zero_object) by (rewrite Hl; reflexivity).
    assert (Hwrite : acpi_write_object Reference.env add_to_local 3
                       (integer_result zero_object 2) st3 Reference.host
                     = Ok ((1, set_local st3 (<[0%nat := integer_result zero_object 2]>
                                                (replicate 8 zero_object))),
                           Reference.host)).
    { cbn [acpi_write_object Reference.env]. unfold Reference.write_object.
      unfold bind at 1. unfold Reference.byte_at, defined.
      change (at_index add_to_local 3) with (Some 0x60). unfold ret at 1.
      change (0x60 =? ZERO_OP) with false.
      change ((LOCAL0_OP <=? 0x60) && (0x60 <=? LOCAL7_OP)) with true.
      cbv iota. rewrite Hloc. reflexivity. }
    eexists. split; [|split; [|split]].
    + rewrite Hsteps, (bind_Ok _ _ _ _ _ Hwrite). reflexivity.
    + reflexivity.
    + exact Hop.
    + exact Hsp.
Defined.
